(** * felabackend: booking admission, event catalog and admin handlers

    A shallow embedding of [backend/app/main.py], [models.py] and
    [schemas.py].  The handlers are functions from the stored tables to an
    outcome and the tables afterwards; the SQL the handlers send is written
    out with SQL's three-valued logic, and the table constraints declared in
    [models.py] are checked where the handler commits. *)

From Stdlib Require Import ZArith List String Ascii Bool Lia.
From Stdlib Require Import Permutation Sorted DecimalString.
Import ListNotations.

Open Scope string_scope.
Open Scope Z_scope.

(** ** Python values used by the handlers *)

Module py.

(** [str(n)] of an [int]. *)
Definition str (n : Z) : string := NilZero.string_of_int (Z.to_int n).

Definition digit (n : Z) : ascii := ascii_of_nat (48 + Z.to_nat n).

(** A number of at most [width] digits printed with leading zeros, as
    [%02d] and the like print it. *)
Fixpoint zfill (width : nat) (n : Z) : string :=
  match width with
  | O => EmptyString
  | S w => String (digit (n / 10 ^ Z.of_nat w)) (zfill w (n mod 10 ^ Z.of_nat w))
  end.

(** A field printed by [%02d], as [strftime] does for [%H], [%M], [%d], [%m]. *)
Definition two_digits (n : Z) : string := zfill 2 n.

(** [x or 0] on the result of [scalar()]: [None] and [0] are both falsy. *)
Definition or_0 (x : option Z) : Z :=
  match x with
  | None => 0
  | Some v => if v =? 0 then 0 else v
  end.

(** Truth value of an [Optional[int]]: [None] and [0] are falsy. *)
Definition truthy_int (x : option Z) : bool :=
  match x with
  | None => false
  | Some v => negb (v =? 0)
  end.

(** Truth value of an [Optional[str]]: [None] and the empty string are falsy. *)
Definition truthy_str (x : option string) : bool :=
  match x with
  | None => false
  | Some EmptyString => false
  | Some _ => true
  end.

(** [s != x] for a [str] [s] and an [Optional[str]] [x]: a string never
    equals [None]. *)
Definition str_ne (s : string) (x : option string) : bool :=
  match x with
  | None => true
  | Some v => negb (String.eqb s v)
  end.

(** The string holds the character U+0000. *)
Fixpoint has_nul (s : string) : bool :=
  match s with
  | EmptyString => false
  | String c s' => Ascii.eqb c zero || has_nul s'
  end.

End py.

(** ** [datetime.date] and [datetime.time]

    A [date] is kept as its proleptic Gregorian ordinal ([date.toordinal()]),
    day 1 being 0001-01-01 and [MAXORDINAL] 9999-12-31; year, month and day
    are computed from it where a date is printed.  A [time] is naive (no
    [tzinfo]), as the times of a TIME column are. *)

Module datetime.

Definition date := Z.

Definition MAXORDINAL : Z := 3652059.

Definition valid_date (d : date) : Prop := 1 <= d <= MAXORDINAL.

(** [date.weekday()]: Monday is 0 and Sunday is 6. *)
Definition weekday (d : date) : Z := (d + 6) mod 7.

(** [d + timedelta(days=n)]; [None] stands for the [OverflowError] raised
    when the result leaves the range of [date]. *)
Definition add_days (d : date) (n : Z) : option date :=
  let o := d + n in
  if (1 <=? o) && (o <=? MAXORDINAL) then Some o else None.

(** Year, month and day of an ordinal, as [datetime._ord2ymd] computes them. *)
Definition days_before_month (leap : bool) (month : Z) : Z :=
  let base := nth (Z.to_nat month)
                  [0; 0; 31; 59; 90; 120; 151; 181; 212; 243; 273; 304; 334] 0 in
  if (2 <? month) && leap then base + 1 else base.

Definition days_in_month (leap : bool) (month : Z) : Z :=
  let base := nth (Z.to_nat month)
                  [0; 31; 28; 31; 30; 31; 30; 31; 31; 30; 31; 30; 31] 0 in
  if (month =? 2) && leap then base + 1 else base.

(** Month and day of the day [n] of a year, counted from 0. *)
Definition month_day (leapyear : bool) (n : Z) : Z * Z :=
  let month := Z.shiftr (n + 50) 5 in
  let preceding := days_before_month leapyear month in
  if n <? preceding
  then
    let month := month - 1 in
    let preceding := preceding - days_in_month leapyear month in
    (month, n - preceding + 1)
  else (month, n - preceding + 1).

Definition ord2ymd (d : date) : Z * Z * Z :=
  let n := d - 1 in
  let n400 := n / 146097 in
  let n := n mod 146097 in
  let n100 := n / 36524 in
  let n := n mod 36524 in
  let n4 := n / 1461 in
  let n := n mod 1461 in
  let n1 := n / 365 in
  let n := n mod 365 in
  let year := n400 * 400 + 1 + n100 * 100 + n4 * 4 + n1 in
  if (n1 =? 4) || (n100 =? 4) then (year - 1, 12, 31)
  else
    let leapyear := (n1 =? 3) && (negb (n4 =? 24) || (n100 =? 3)) in
    (year, fst (month_day leapyear n), snd (month_day leapyear n)).

Definition year (d : date) : Z := fst (fst (ord2ymd d)).
Definition month (d : date) : Z := snd (fst (ord2ymd d)).
Definition day (d : date) : Z := snd (ord2ymd d).

(** [d.strftime('%d/%m')]. *)
Definition strftime_dm (d : date) : string :=
  py.two_digits (day d) ++ "/" ++ py.two_digits (month d).

(** [d.isoformat()]: YYYY-MM-DD. *)
Definition isoformat_date (d : date) : string :=
  py.zfill 4 (year d) ++ "-" ++ py.zfill 2 (month d) ++ "-" ++ py.zfill 2 (day d).

Record time : Type := mk_time
  { hour : Z; minute : Z; second : Z; microsecond : Z }.

(** [time(h, m)]. *)
Definition time_hm (h m : Z) : time := mk_time h m 0 0.

Definition time_eqb (a b : time) : bool :=
  (hour a =? hour b) && (minute a =? minute b)
  && (second a =? second b) && (microsecond a =? microsecond b).

(** [t.strftime('%H:%M')]. *)
Definition strftime_HM (t : time) : string :=
  py.two_digits (hour t) ++ ":" ++ py.two_digits (minute t).

Definition valid_time (t : time) : Prop :=
  0 <= hour t < 24 /\ 0 <= minute t < 60 /\ 0 <= second t < 60
  /\ 0 <= microsecond t < 1000000.

(** [t.isoformat()]: HH:MM:SS, followed by .ffffff when the microsecond is
    not 0. *)
Definition isoformat_time (t : time) : string :=
  py.zfill 2 (hour t) ++ ":" ++ py.zfill 2 (minute t) ++ ":" ++ py.zfill 2 (second t)
  ++ (if microsecond t =? 0 then EmptyString else "." ++ py.zfill 6 (microsecond t)).

(** [a <= b] on naive times. *)
Definition time_leb (a b : time) : bool :=
  if hour a =? hour b then
    if minute a =? minute b then
      if second a =? second b then microsecond a <=? microsecond b
      else second a <? second b
    else minute a <? minute b
  else hour a <? hour b.

End datetime.

(** ** SQL comparisons

    A comparison on a nullable column is [None] (unknown) on a NULL, and a
    [WHERE] clause keeps the rows whose condition is true. *)

Module sql.

Definition tri := option bool.

(** [column = value]. *)
Definition eq {A : Type} (eqb : A -> A -> bool) (column : option A) (value : A) : tri :=
  match column with
  | None => None
  | Some c => Some (eqb c value)
  end.

(** [column IS NULL]. *)
Definition is_null {A : Type} (column : option A) : tri :=
  match column with
  | None => Some true
  | Some _ => Some false
  end.

(** [column IN (values)] for values that are not NULL. *)
Definition in_ {A : Type} (eqb : A -> A -> bool) (column : option A) (values : list A) : tri :=
  match column with
  | None => None
  | Some c => Some (existsb (eqb c) values)
  end.

Definition not_ (p : tri) : tri := option_map negb p.

Definition and_ (p q : tri) : tri :=
  match p, q with
  | Some false, _ | _, Some false => Some false
  | Some true, Some true => Some true
  | _, _ => None
  end.

Definition is_true (p : tri) : bool :=
  match p with
  | Some true => true
  | _ => false
  end.

(** [query.filter(condition)]. *)
Definition where_ {R : Type} (condition : R -> tri) (rows : list R) : list R :=
  List.filter (fun r => is_true (condition r)) rows.

(** SQLAlchemy's [column == value] for a Python value: [IS NULL] when the
    value is [None], [column = value] otherwise. *)
Definition sa_eq {A : Type} (eqb : A -> A -> bool) (column : option A) (value : option A) : tri :=
  match value with
  | None => is_null column
  | Some v => eq eqb column v
  end.

(** [SUM(column)]: NULL over no row. *)
Definition sum (values : list Z) : option Z :=
  match values with
  | [] => None
  | _ => Some (fold_right Z.add 0 values)
  end.

(** The values an INTEGER column holds: 32 bits, signed. *)
Definition int4 (value : Z) : bool := (-2147483648 <=? value) && (value <=? 2147483647).

End sql.

(** ** models.py and schemas.py *)

Module models.

Module Booking.
Record t : Type := mk
  { id : Z;
    event_id : option Z;
    name : string;
    email : string;
    phone : string;
    booking_date : datetime.date;
    booking_time : option datetime.time;
    guests : Z;
    cancellation_token : string;
    notes : option string }.
End Booking.

Module SpecialEvent.
Record t : Type := mk
  { id : Z;
    display_name : string;
    booking_date : datetime.date;
    booking_time : option datetime.time;
    is_closed : bool }.
End SpecialEvent.

End models.

Module schemas.

Module BookingCreate.
Record t : Type := mk
  { event_id : option Z;
    name : string;
    email : string;
    phone : string;
    booking_date : datetime.date;
    booking_time : option datetime.time;
    guests : Z;
    notes : option string }.
End BookingCreate.

Module SpecialEventCreate.
Record t : Type := mk
  { display_name : string;
    booking_date : datetime.date;
    booking_time : option datetime.time;
    is_closed : bool }.
End SpecialEventCreate.

End schemas.

(** ** The database

    The two tables in storage order, and the sequences behind the two
    integer primary keys.  A handler that raises leaves the tables as they
    were: its session is closed without a commit. *)

Record Db : Type := mk_Db
  { bookings : list models.Booking.t;
    special_events : list models.SpecialEvent.t;
    bookings_id_seq : Z;
    special_events_id_seq : Z }.

(** What the INSERT of a row into [bookings] can fail on, in the order in
    which it fails.  The driver sends no string that holds the character
    U+0000.  The INTEGER columns [id], [event_id] and [guests] hold 32 bits.
    The constraints of the table in [models.py] are the primary key [id],
    unique [email], unique [cancellation_token] and the foreign key
    [event_id] into [special_events.id]. *)
Definition booking_has_nul (row : models.Booking.t) : bool :=
  py.has_nul (models.Booking.name row)
  || py.has_nul (models.Booking.email row)
  || py.has_nul (models.Booking.phone row)
  || py.has_nul (models.Booking.cancellation_token row)
  || match models.Booking.notes row with
     | None => false
     | Some notes => py.has_nul notes
     end.

Definition booking_in_range (row : models.Booking.t) : bool :=
  sql.int4 (models.Booking.id row)
  && match models.Booking.event_id row with
     | None => true
     | Some e => sql.int4 e
     end
  && sql.int4 (models.Booking.guests row).

Definition booking_constraints (db : Db) (row : models.Booking.t) : bool :=
  negb (existsb (fun b => models.Booking.id b =? models.Booking.id row) (bookings db))
  && negb (existsb (fun b => String.eqb (models.Booking.email b) (models.Booking.email row))
                   (bookings db))
  && negb (existsb (fun b => String.eqb (models.Booking.cancellation_token b)
                                         (models.Booking.cancellation_token row))
                   (bookings db))
  && match models.Booking.event_id row with
     | None => true
     | Some e => existsb (fun ev => models.SpecialEvent.id ev =? e) (special_events db)
     end.

(** The table takes the row. *)
Definition booking_insertable (db : Db) (row : models.Booking.t) : bool :=
  negb (booking_has_nul row) && booking_in_range row && booking_constraints db row.

(** ** Outcomes of a handler

    An [HTTPException] is kept by its status code and its detail. *)

Inductive exception : Type :=
| HTTPException (status_code : Z) (detail : string)
| IntegrityError   (* the commit violates a table constraint *)
| OverflowError    (* a date leaves the range of [date] *)
| DataError        (* the database refuses a negative OFFSET or LIMIT, or an
                      integer out of the range of its column *)
| ValueError.      (* the driver refuses a string with the character U+0000 *)

Inductive outcome (A : Type) : Type :=
| Return (a : A)
| Raise (e : exception).

Arguments Return {A} a.
Arguments Raise {A} e.

(** ** create_booking *)

Definition MAX_GUESTS : Z := 25.

Definition BRUNCH_SLOTS : list datetime.time :=
  [datetime.time_hm 12 0; datetime.time_hm 13 30].

(** The slot when [booking.booking_time in BRUNCH_SLOTS], [None] otherwise. *)
Definition brunch_turn (booking_time : option datetime.time) : option datetime.time :=
  match booking_time with
  | Some t => if existsb (datetime.time_eqb t) BRUNCH_SLOTS then Some t else None
  | None => None
  end.

(** The duplicate query: same email, and same event when the request names
    one, same date and time otherwise. *)
Definition duplicate_query (booking : schemas.BookingCreate.t) (db : Db)
  : list models.Booking.t :=
  let query :=
    sql.where_ (fun b => Some (String.eqb (models.Booking.email b)
                                           (schemas.BookingCreate.email booking)))
               (bookings db) in
  if py.truthy_int (schemas.BookingCreate.event_id booking) then
    sql.where_ (fun b => sql.sa_eq Z.eqb (models.Booking.event_id b)
                                   (schemas.BookingCreate.event_id booking))
               query
  else
    sql.where_ (fun b =>
                  sql.and_
                    (Some (models.Booking.booking_date b
                           =? schemas.BookingCreate.booking_date booking))
                    (sql.sa_eq datetime.time_eqb (models.Booking.booking_time b)
                               (schemas.BookingCreate.booking_time booking)))
               query.

(** [booked_guests] and [error_context] of the capacity check. *)
Definition booked_guests_and_context (booking : schemas.BookingCreate.t) (db : Db)
  : Z * string :=
  match brunch_turn (schemas.BookingCreate.booking_time booking) with
  | Some t =>
      (py.or_0 (sql.sum (map models.Booking.guests
         (sql.where_ (fun b =>
            sql.and_
              (Some (models.Booking.booking_date b
                     =? schemas.BookingCreate.booking_date booking))
              (sql.eq datetime.time_eqb (models.Booking.booking_time b) t))
            (bookings db)))),
       "per il turno delle " ++ datetime.strftime_HM t)
  | None =>
      (py.or_0 (sql.sum (map models.Booking.guests
         (sql.where_ (fun b =>
            sql.and_
              (Some (models.Booking.booking_date b
                     =? schemas.BookingCreate.booking_date booking))
              (sql.not_ (sql.in_ datetime.time_eqb (models.Booking.booking_time b)
                                 BRUNCH_SLOTS)))
            (bookings db)))),
       "per la serata")
  end.

Definition booked_guests (booking : schemas.BookingCreate.t) (db : Db) : Z :=
  fst (booked_guests_and_context booking db).

Definition error_context (booking : schemas.BookingCreate.t) (db : Db) : string :=
  snd (booked_guests_and_context booking db).

(** The row built from [booking.model_dump()], once flushed: the id comes from
    the sequence and the token from the column default [str(uuid.uuid4())],
    here the argument [token]. *)
Definition new_booking (booking : schemas.BookingCreate.t) (id : Z) (token : string)
  : models.Booking.t :=
  models.Booking.mk id
    (schemas.BookingCreate.event_id booking)
    (schemas.BookingCreate.name booking)
    (schemas.BookingCreate.email booking)
    (schemas.BookingCreate.phone booking)
    (schemas.BookingCreate.booking_date booking)
    (schemas.BookingCreate.booking_time booking)
    (schemas.BookingCreate.guests booking)
    token
    (schemas.BookingCreate.notes booking).

(** [db.add(db_booking); db.commit(); db.refresh(db_booking)], for a row that
    has the next id of the sequence.  A string the driver refuses is never
    sent, and an integer out of range, the id past the last value of the
    sequence included, is refused with the sequence as it was: both leave
    the state as it was.  A constraint is checked when the row is written,
    after the sequence has given the id, and the sequence does not give a
    value twice: the refused INSERT leaves the tables as they were and the
    sequence one ahead. *)
Definition insert_booking (db_booking : models.Booking.t) (db : Db)
  : outcome models.Booking.t * Db :=
  if booking_has_nul db_booking then (Raise ValueError, db)
  else if negb (booking_in_range db_booking) then (Raise DataError, db)
  else if booking_constraints db db_booking then
    (Return db_booking,
     mk_Db (bookings db ++ [db_booking]) (special_events db)
           (bookings_id_seq db + 1) (special_events_id_seq db))
  else
    (Raise IntegrityError,
     mk_Db (bookings db) (special_events db)
           (bookings_id_seq db + 1) (special_events_id_seq db)).

Definition duplicate_detail : string :=
  "Hai già una prenotazione per questo specifico evento con la stessa email.".

Definition create_booking (booking : schemas.BookingCreate.t) (token : string) (db : Db)
  : outcome models.Booking.t * Db :=
  match duplicate_query booking db with
  | _existing_booking :: _ => (Raise (HTTPException 400 duplicate_detail), db)
  | [] =>
      let '(booked_guests, error_context) := booked_guests_and_context booking db in
      let total_guests_if_booked := booked_guests + schemas.BookingCreate.guests booking in
      if total_guests_if_booked >? MAX_GUESTS then
        let available_slots := MAX_GUESTS - booked_guests in
        let error_message :=
          if available_slots <=? 0
          then "Spiacenti, siamo al completo " ++ error_context ++ "."
          else "Spiacenti, non c'è abbastanza posto " ++ error_context
               ++ ". Posti rimasti: " ++ py.str available_slots ++ "." in
        (Raise (HTTPException 400 error_message), db)
      else
        insert_booking (new_booking booking (bookings_id_seq db + 1) token) db
  end.

(** ** cancel_booking *)

Definition cancel_not_found_detail : string :=
  "Token di cancellazione non valido o prenotazione già cancellata.".

Definition cancel_success_message : string :=
  "La tua prenotazione è stata cancellata con successo.".

(** [db.delete(row)] of a booking: a DELETE by primary key. *)
Definition delete_booking (row : models.Booking.t) (rows : list models.Booking.t)
  : list models.Booking.t :=
  List.filter (fun b => negb (models.Booking.id b =? models.Booking.id row)) rows.

Definition cancel_booking (token : string) (db : Db) : outcome string * Db :=
  match sql.where_ (fun b => Some (String.eqb (models.Booking.cancellation_token b) token))
                   (bookings db) with
  | [] => (Raise (HTTPException 404 cancel_not_found_detail), db)
  | booking_to_cancel :: _ =>
      (Return cancel_success_message,
       mk_Db (delete_booking booking_to_cancel (bookings db)) (special_events db)
             (bookings_id_seq db) (special_events_id_seq db))
  end.

(** ** Admin credentials *)

Record HTTPBasicCredentials : Type := mk_credentials
  { username : string; password : string }.

Definition unauthorized : exception := HTTPException 401 "Credenziali non valide".

(** [credentials.username != "admin" or credentials.password != ADMIN_PASSWORD] *)
Definition credentials_refused (ADMIN_PASSWORD : option string)
  (credentials : HTTPBasicCredentials) : bool :=
  negb (String.eqb (username credentials) "admin")
  || py.str_ne (password credentials) ADMIN_PASSWORD.

(** ** Special events *)

Definition new_special_event (event : schemas.SpecialEventCreate.t) (id : Z)
  : models.SpecialEvent.t :=
  models.SpecialEvent.mk id
    (schemas.SpecialEventCreate.display_name event)
    (schemas.SpecialEventCreate.booking_date event)
    (schemas.SpecialEventCreate.booking_time event)
    (schemas.SpecialEventCreate.is_closed event).

Definition special_event_insertable (db : Db) (row : models.SpecialEvent.t) : bool :=
  negb (existsb (fun ev => models.SpecialEvent.id ev =? models.SpecialEvent.id row)
                (special_events db)).

Definition create_special_event (ADMIN_PASSWORD : option string)
  (event : schemas.SpecialEventCreate.t) (credentials : HTTPBasicCredentials) (db : Db)
  : outcome models.SpecialEvent.t * Db :=
  if credentials_refused ADMIN_PASSWORD credentials then (Raise unauthorized, db)
  else
    let db_event := new_special_event event (special_events_id_seq db + 1) in
    if special_event_insertable db db_event then
      (Return db_event,
       mk_Db (bookings db) (special_events db ++ [db_event])
             (bookings_id_seq db) (special_events_id_seq db + 1))
    else (Raise IntegrityError, db).

(** *** Sorting

    [list.sort] is stable; ORDER BY is taken as a stable sort of the rows in
    storage order, which fixes the order SQL leaves open between rows that
    compare equal. *)

Fixpoint insert_sorted {A : Type} (leb : A -> A -> bool) (x : A) (l : list A) : list A :=
  match l with
  | [] => [x]
  | y :: l' => if leb x y then x :: l else y :: insert_sorted leb x l'
  end.

Definition stable_sort {A : Type} (leb : A -> A -> bool) (l : list A) : list A :=
  fold_right (insert_sorted leb) [] l.

(** Ascending order of a nullable time column, NULLs last. *)
Definition time_asc_leb (a b : option datetime.time) : bool :=
  match a, b with
  | Some x, Some y => datetime.time_leb x y
  | Some _, None => true
  | None, Some _ => false
  | None, None => true
  end.

(** Descending order of a nullable time column, NULLs first. *)
Definition time_desc_leb (a b : option datetime.time) : bool := time_asc_leb b a.

Definition special_event_asc_leb (a b : models.SpecialEvent.t) : bool :=
  if models.SpecialEvent.booking_date a =? models.SpecialEvent.booking_date b
  then time_asc_leb (models.SpecialEvent.booking_time a) (models.SpecialEvent.booking_time b)
  else models.SpecialEvent.booking_date a <? models.SpecialEvent.booking_date b.

Definition read_special_events (ADMIN_PASSWORD : option string)
  (credentials : HTTPBasicCredentials) (db : Db)
  : outcome (list models.SpecialEvent.t) * Db :=
  if credentials_refused ADMIN_PASSWORD credentials then (Raise unauthorized, db)
  else (Return (stable_sort special_event_asc_leb (special_events db)), db).

(** [query.filter(condition).delete()]: a DELETE of the rows whose condition
    is true. *)
Definition delete_where {R : Type} (condition : R -> sql.tri) (rows : list R) : list R :=
  List.filter (fun r => negb (sql.is_true (condition r))) rows.

Definition delete_special_event (ADMIN_PASSWORD : option string)
  (event_id : Z) (credentials : HTTPBasicCredentials) (db : Db)
  : outcome models.SpecialEvent.t * Db :=
  if credentials_refused ADMIN_PASSWORD credentials then (Raise unauthorized, db)
  else
    match sql.where_ (fun ev => Some (models.SpecialEvent.id ev =? event_id))
                     (special_events db) with
    | [] => (Raise (HTTPException 404 "Evento non trovato"), db)
    | event :: _ =>
        (Return event,
         mk_Db (delete_where (fun b => sql.eq Z.eqb (models.Booking.event_id b) event_id)
                             (bookings db))
               (delete_where (fun ev => Some (models.SpecialEvent.id ev
                                              =? models.SpecialEvent.id event))
                             (special_events db))
               (bookings_id_seq db) (special_events_id_seq db))
    end.

(** ** Admin listing and export *)

Record bookings_page : Type := mk_page
  { total : Z; page_bookings : list models.Booking.t }.

(** The filter shared by the listing and the export: the event id first,
    else date and time together, else every booking. *)
Definition admin_filter (event_date : option datetime.date)
  (event_time : option datetime.time) (event_id : option Z) (db : Db)
  : list models.Booking.t :=
  if py.truthy_int event_id then
    sql.where_ (fun b => sql.sa_eq Z.eqb (models.Booking.event_id b) event_id) (bookings db)
  else
    match event_date, event_time with
    | Some d, Some t =>
        sql.where_ (fun b =>
                      sql.and_ (Some (models.Booking.booking_date b =? d))
                               (sql.eq datetime.time_eqb (models.Booking.booking_time b) t))
                   (bookings db)
    | _, _ => bookings db
    end.

Definition booking_asc_leb (a b : models.Booking.t) : bool :=
  if models.Booking.booking_date a =? models.Booking.booking_date b
  then time_asc_leb (models.Booking.booking_time a) (models.Booking.booking_time b)
  else models.Booking.booking_date a <? models.Booking.booking_date b.

Definition booking_desc_leb (a b : models.Booking.t) : bool :=
  if models.Booking.booking_date a =? models.Booking.booking_date b
  then time_desc_leb (models.Booking.booking_time a) (models.Booking.booking_time b)
  else models.Booking.booking_date b <? models.Booking.booking_date a.

Definition password_not_configured_detail : string :=
  "ADMIN_PASSWORD non configurata nel backend. Contatta l'amministratore.".

Definition get_all_bookings (ADMIN_PASSWORD : option string)
  (credentials : HTTPBasicCredentials) (db : Db) (skip limit : Z)
  (event_date : option datetime.date) (event_time : option datetime.time)
  (event_id : option Z)
  : outcome bookings_page * Db :=
  if negb (py.truthy_str ADMIN_PASSWORD) then
    (Raise (HTTPException 500 password_not_configured_detail), db)
  else if credentials_refused ADMIN_PASSWORD credentials then (Raise unauthorized, db)
  else
    let query := admin_filter event_date event_time event_id db in
    let total_bookings := Z.of_nat (List.length query) in
    if (skip <? 0) || (limit <? 0) then (Raise DataError, db)
    else
      (Return (mk_page total_bookings
                 (firstn (Z.to_nat limit)
                         (skipn (Z.to_nat skip) (stable_sort booking_desc_leb query)))),
       db).

(** The export up to the rows it draws; the title, the file name and the
    drawing itself are left out. *)
Definition export_bookings_to_pdf (ADMIN_PASSWORD : option string)
  (credentials : HTTPBasicCredentials) (db : Db)
  (event_date : option datetime.date) (event_time : option datetime.time)
  (event_id : option Z) (limit : Z)
  : outcome (list models.Booking.t) * Db :=
  if negb (py.truthy_str ADMIN_PASSWORD) || credentials_refused ADMIN_PASSWORD credentials
  then (Raise unauthorized, db)
  else
    let query := admin_filter event_date event_time event_id db in
    if limit <? 0 then (Raise DataError, db)
    else (Return (firstn (Z.to_nat limit) (stable_sort booking_asc_leb query)), db).

(** *** The drawing of the export

    The calls [export_bookings_to_pdf] makes on its canvas, in order, from
    [p.setTitle] to [p.save()], for the title and the rows it has computed.
    Strings are UTF-8: a character is a leading byte and the continuation
    bytes after it. *)

Inductive canvas_op : Type :=
| setTitle (title : string)
| drawString (x y : Z) (text : string)
| line (x1 y1 x2 y2 : Z)
| showPage
| save.

(** A byte 10xxxxxx, which continues a character. *)
Definition continuation_byte (c : ascii) : bool :=
  let n := Z.of_nat (nat_of_ascii c) in (128 <=? n) && (n <? 192).

(** [s[:n]]: the first [n] characters of a string. *)
Fixpoint slice_to (n : nat) (s : string) : string :=
  match s with
  | EmptyString => EmptyString
  | String c s' =>
      if continuation_byte c then String c (slice_to n s')
      else
        match n with
        | O => EmptyString
        | S n' => String c (slice_to n' s')
        end
  end.

(** [d.strftime('%d/%m/%y')]. *)
Definition strftime_dmy (d : datetime.date) : string :=
  py.two_digits (datetime.day d) ++ "/" ++ py.two_digits (datetime.month d) ++ "/"
  ++ py.two_digits (datetime.year d mod 100).

Definition headers : list string := ["ID"; "Nome"; "Email"; "Data"; "Ora"; "Ospiti"].

Definition x_positions : list Z := [50; 80; 200; 350; 420; 480].

(** [for i, item in enumerate(items): p.drawString(x_positions[i], y_position, item)]
    for at most six items. *)
Definition draw_cells (y_position : Z) (items : list string) : list canvas_op :=
  map (fun cell => drawString (fst cell) y_position (snd cell)) (combine x_positions items).

(** The list [data] of a booking. *)
Definition row_data (booking : models.Booking.t) : list string :=
  [py.str (models.Booking.id booking);
   slice_to 20 (models.Booking.name booking);
   slice_to 25 (models.Booking.email booking);
   strftime_dmy (models.Booking.booking_date booking);
   match models.Booking.booking_time booking with
   | Some t => datetime.strftime_HM t
   | None => "N/D"
   end;
   py.str (models.Booking.guests booking)].

(** The loop over the bookings, from [y_position] on. *)
Fixpoint draw_rows (y_position : Z) (bookings : list models.Booking.t) : list canvas_op :=
  match bookings with
  | [] => []
  | booking :: rest =>
      if y_position <? 50
      then showPage :: draw_cells 800 (row_data booking) ++ draw_rows (800 - 15) rest
      else draw_cells y_position (row_data booking) ++ draw_rows (y_position - 15) rest
  end.

Definition draw_pdf (pdf_title : string) (bookings : list models.Booking.t)
  : list canvas_op :=
  [setTitle "Lista Prenotazioni Fela!"; drawString 70 800 pdf_title; line 70 795 525 795]
  ++ draw_cells 770 headers
  ++ draw_rows (770 - 20) bookings
  ++ [showPage; save].

(** ** get_bookable_events *)

Inductive event_type : Type := special | brunch.

(** An entry of the catalog; [available_slots] is [None] where the entry
    has no such key, and so is [booking_time]. *)
Record bookable_event : Type := mk_event
  { type : event_type;
    id : option Z;
    display_name : string;
    booking_date : string;
    booking_time : option string;
    available_slots : option (list string) }.

Definition special_entry (event : models.SpecialEvent.t) : bookable_event :=
  mk_event special
    (Some (models.SpecialEvent.id event))
    (models.SpecialEvent.display_name event ++ " - "
       ++ datetime.strftime_dm (models.SpecialEvent.booking_date event))
    (datetime.isoformat_date (models.SpecialEvent.booking_date event))
    (option_map datetime.isoformat_time (models.SpecialEvent.booking_time event))
    None.

Definition brunch_entry (check_date : datetime.date) : bookable_event :=
  mk_event brunch
    None
    ("Brunch - " ++ datetime.strftime_dm check_date)
    (datetime.isoformat_date check_date)
    None
    (Some [datetime.isoformat_time (datetime.time_hm 12 0);
           datetime.isoformat_time (datetime.time_hm 13 30)]).

(** The loop over the stored special events. *)
Definition special_entries (today : datetime.date)
  (db_special_events : list models.SpecialEvent.t) : list bookable_event :=
  map special_entry
      (List.filter (fun event => today <=? models.SpecialEvent.booking_date event)
                   db_special_events).

(** The [while sundays_found < 8] loop; [fuel] bounds its iterations and
    [None] is a run that needs more. *)
Fixpoint sundays_loop (fuel : nat) (today : datetime.date)
  (sundays_found day_offset : Z) (events : list bookable_event)
  : option (outcome (list bookable_event)) :=
  if sundays_found <? 8 then
    match fuel with
    | O => None
    | S fuel' =>
        match datetime.add_days today day_offset with
        | None => Some (Raise OverflowError)
        | Some check_date =>
            if datetime.weekday check_date =? 6
            then sundays_loop fuel' today (sundays_found + 1) (day_offset + 1)
                              (events ++ [brunch_entry check_date])
            else sundays_loop fuel' today sundays_found (day_offset + 1) events
        end
    end
  else Some (Return events).

Definition sort_key (event : bookable_event) : string * string :=
  let event_time_str :=
    match booking_time event with
    | Some t => t
    | None =>
        match type event with
        | brunch =>
            match available_slots event with
            | Some (slot :: _) => slot
            | _ => "00:00:00"
            end
        | special => "00:00:00"
        end
    end in
  (booking_date event, event_time_str).

(** [a < b] on two sort keys: tuples compare by their first components that
    differ, strings by their first characters that differ. *)
Definition tuple_ltb (a b : string * string) : bool :=
  match String.compare (fst a) (fst b) with
  | Lt => true
  | Gt => false
  | Eq => String.ltb (snd a) (snd b)
  end.

(** [events.sort(key=sort_key)] keeps [a] ahead of a later [b] unless the
    key of [b] is less than the key of [a]. *)
Definition key_leb (a b : string * string) : bool := negb (tuple_ltb b a).

Definition event_leb (a b : bookable_event) : bool := key_leb (sort_key a) (sort_key b).

Definition get_bookable_events (fuel : nat) (today : datetime.date) (db : Db)
  : option (outcome (list bookable_event)) :=
  let events := special_entries today (special_events db) in
  match sundays_loop fuel today 0 0 events with
  | Some (Return events) => Some (Return (stable_sort event_leb events))
  | other => other
  end.

(** * Vocabulary of the properties *)

(** Guests of a list of bookings. *)
Definition sum_guests (rows : list models.Booking.t) : Z :=
  fold_right Z.add 0 (map models.Booking.guests rows).

(** The rows the capacity query of [create_booking] selects for a request:
    on the request's date, at the request's turn when that is a brunch turn,
    else at a stored time that is no brunch turn. *)
Definition in_bucket (booking : schemas.BookingCreate.t) (b : models.Booking.t) : bool :=
  (models.Booking.booking_date b =? schemas.BookingCreate.booking_date booking)
  && match brunch_turn (schemas.BookingCreate.booking_time booking),
           models.Booking.booking_time b with
     | Some t, Some t' => datetime.time_eqb t' t
     | None, Some t' => negb (existsb (datetime.time_eqb t') BRUNCH_SLOTS)
     | _, None => false
     end.

(** The constraints of the two tables, and the sequences ahead of the ids
    they have handed out. *)
Record wf_db (db : Db) : Prop := mk_wf
  { wf_booking_ids : NoDup (map models.Booking.id (bookings db));
    wf_emails : NoDup (map models.Booking.email (bookings db));
    wf_tokens : NoDup (map models.Booking.cancellation_token (bookings db));
    wf_event_ids : NoDup (map models.SpecialEvent.id (special_events db));
    wf_foreign_key :
      forall b e, In b (bookings db) -> models.Booking.event_id b = Some e ->
                  exists ev, In ev (special_events db) /\ models.SpecialEvent.id ev = e;
    wf_bookings_seq :
      forall b, In b (bookings db) -> models.Booking.id b <= bookings_id_seq db;
    wf_special_events_seq :
      forall ev, In ev (special_events db) ->
                 models.SpecialEvent.id ev <= special_events_id_seq db }.

(** The booking refers to the special event [event_id]. *)
Definition references (event_id : Z) (b : models.Booking.t) : bool :=
  match models.Booking.event_id b with
  | Some e => e =? event_id
  | None => false
  end.

(** A response of status 5xx. *)
Definition is_server_error {A : Type} (o : outcome A) : bool :=
  match o with
  | Raise (HTTPException status_code _) => (500 <=? status_code) && (status_code <=? 599)
  | _ => false
  end.



(** Days before the first of January of a year, and the days of a year. *)
Definition days_before_year (year : Z) : Z :=
  let y := year - 1 in y * 365 + y / 4 - y / 100 + y / 400.

Definition year_days (year : Z) : Z := days_before_year (year + 1) - days_before_year year.

(** Order of (month, day) and of (year, month, day). *)
Definition md_lt (a b : Z * Z) : Prop := fst a < fst b \/ (fst a = fst b /\ snd a < snd b).

Definition md_ltb (a b : Z * Z) : bool :=
  (fst a <? fst b) || ((fst a =? fst b) && (snd a <? snd b)).

Definition md_in_range (a : Z * Z) : bool :=
  (1 <=? fst a) && (fst a <=? 12) && (1 <=? snd a) && (snd a <=? 31).

(** The days [n] to [n + fuel] of a year have a month and a day in range,
    each before those of the next day. *)
Fixpoint md_check (leap : bool) (fuel : nat) (n : Z) : bool :=
  match fuel with
  | O => md_in_range (datetime.month_day leap n)
  | S fuel' =>
      md_in_range (datetime.month_day leap n)
      && md_ltb (datetime.month_day leap n) (datetime.month_day leap (n + 1))
      && md_check leap fuel' (n + 1)
  end.

Definition ymd_lt (a b : Z * Z * Z) : Prop :=
  fst (fst a) < fst (fst b)
  \/ (fst (fst a) = fst (fst b)
      /\ (snd (fst a) < snd (fst b)
          \/ (snd (fst a) = snd (fst b) /\ snd a < snd b))).

Definition ymd_compare (a b : Z * Z * Z) : comparison :=
  match fst (fst a) ?= fst (fst b) with
  | Eq => match snd (fst a) ?= snd (fst b) with
          | Eq => snd a ?= snd b
          | c => c
          end
  | c => c
  end.

(** The first Sunday that is [today] or later. *)
Definition first_sunday (today : datetime.date) : datetime.date :=
  today + (6 - datetime.weekday today).

(** That Sunday and the seven after it. *)
Definition next_sundays (today : datetime.date) : list datetime.date :=
  map (fun k => first_sunday today + 7 * Z.of_nat k) (seq 0 8).

(** A stored booking that makes the request a duplicate: the same email,
    and the same special event when the request names one, else the same
    date and time. *)
Definition is_duplicate_of (booking : schemas.BookingCreate.t) (b : models.Booking.t) : Prop :=
  models.Booking.email b = schemas.BookingCreate.email booking
  /\ if py.truthy_int (schemas.BookingCreate.event_id booking)
     then models.Booking.event_id b = schemas.BookingCreate.event_id booking
     else models.Booking.booking_date b = schemas.BookingCreate.booking_date booking
          /\ models.Booking.booking_time b = schemas.BookingCreate.booking_time booking.

(** The evening bucket in the words of the specification: every booking on
    the date whose time is not one of the two brunch slots, a booking
    without a time included. *)
Definition spec_evening_bucket (date : datetime.date) (b : models.Booking.t) : bool :=
  (models.Booking.booking_date b =? date)
  && match models.Booking.booking_time b with
     | Some t => negb (existsb (datetime.time_eqb t) BRUNCH_SLOTS)
     | None => true
     end.

(** The bucket of a request in the words of the specification: the brunch
    turn, keyed by date and time, when the requested time is 12:00 or 13:30,
    and else the evening bucket of the requested date. *)
Definition spec_bucket (booking : schemas.BookingCreate.t) (b : models.Booking.t) : bool :=
  match schemas.BookingCreate.booking_time booking with
  | Some t =>
      if datetime.time_eqb t (datetime.time_hm 12 0)
         || datetime.time_eqb t (datetime.time_hm 13 30)
      then (models.Booking.booking_date b =? schemas.BookingCreate.booking_date booking)
           && match models.Booking.booking_time b with
              | Some t' => datetime.time_eqb t' t
              | None => false
              end
      else spec_evening_bucket (schemas.BookingCreate.booking_date booking) b
  | None => spec_evening_bucket (schemas.BookingCreate.booking_date booking) b
  end.

(** The time is one of the two brunch turns. *)
Definition is_brunch_slot (t : option datetime.time) : Prop :=
  t = Some (datetime.time_hm 12 0) \/ t = Some (datetime.time_hm 13 30).

(** What the capacity query asks of a stored booking: the date of the
    request, and the time of the request when that is a brunch turn, else a
    time that is no brunch turn. *)
Definition counted_for (booking : schemas.BookingCreate.t) (b : models.Booking.t) : Prop :=
  models.Booking.booking_date b = schemas.BookingCreate.booking_date booking
  /\ (is_brunch_slot (schemas.BookingCreate.booking_time booking)
      /\ models.Booking.booking_time b = schemas.BookingCreate.booking_time booking
      \/ ~ is_brunch_slot (schemas.BookingCreate.booking_time booking)
         /\ exists t, models.Booking.booking_time b = Some t
                      /\ t <> datetime.time_hm 12 0 /\ t <> datetime.time_hm 13 30).

(** Ascending by date, then by time with the rows without a time last. *)
Definition asc_leb {R : Type} (date_of : R -> datetime.date)
  (time_of : R -> option datetime.time) (a b : R) : bool :=
  if date_of a =? date_of b then time_asc_leb (time_of a) (time_of b)
  else date_of a <? date_of b.

(** Descending by date, then by time with the rows without a time first. *)
Definition desc_leb {R : Type} (date_of : R -> datetime.date)
  (time_of : R -> option datetime.time) (a b : R) : bool :=
  if date_of a =? date_of b then time_desc_leb (time_of a) (time_of b)
  else date_of b <? date_of a.

(** What the filters of the admin listing and of the export ask of a
    booking: the event when an event id other than 0 is given, else the
    date and the time when both are given, else nothing. *)
Definition matches_admin_filter (event_date : option datetime.date)
  (event_time : option datetime.time) (event_id : option Z) (b : models.Booking.t) : Prop :=
  if py.truthy_int event_id then models.Booking.event_id b = event_id
  else
    match event_date, event_time with
    | Some d, Some t =>
        models.Booking.booking_date b = d /\ models.Booking.booking_time b = Some t
    | _, _ => True
    end.

(** The texts a list of canvas calls draws, in order, and the pages it
    ends. *)
Definition drawn_texts (ops : list canvas_op) : list string :=
  flat_map (fun op => match op with drawString _ _ text => [text] | _ => [] end) ops.

Definition pages_shown (ops : list canvas_op) : Z :=
  Z.of_nat (List.length (List.filter (fun op => match op with showPage => true | _ => false end)
                                     ops)).

(** No stored guest count is negative and no capacity query counts more
    than the ceiling. *)
Definition within_capacity (db : Db) : Prop :=
  (forall b, In b (bookings db) -> 0 <= models.Booking.guests b)
  /\ (forall request, booked_guests request db <= MAX_GUESTS).

(** The states reached from the empty tables by the four handlers that
    write. *)
Inductive reachable : Db -> Prop :=
| reachable_empty : reachable (mk_Db [] [] 0 0)
| reachable_create_booking booking token db :
    reachable db -> reachable (snd (create_booking booking token db))
| reachable_cancel_booking token db :
    reachable db -> reachable (snd (cancel_booking token db))
| reachable_create_special_event ADMIN_PASSWORD event credentials db :
    reachable db ->
    reachable (snd (create_special_event ADMIN_PASSWORD event credentials db))
| reachable_delete_special_event ADMIN_PASSWORD event_id credentials db :
    reachable db ->
    reachable (snd (delete_special_event ADMIN_PASSWORD event_id credentials db)).

(** ** Sample states and requests *)

(** 2026-11-05, a Thursday, and the Tuesdays 2026-11-10 and 2026-11-17. *)
Definition thursday : datetime.date := 739925.
Definition tuesday : datetime.date := 739930.
Definition next_tuesday : datetime.date := 739937.

Definition jazz_night : models.SpecialEvent.t :=
  models.SpecialEvent.mk 1 "Jazz Night" tuesday None true.

Definition quiz_night : models.SpecialEvent.t :=
  models.SpecialEvent.mk 2 "Quiz Night" next_tuesday (Some (datetime.time_hm 21 0)) false.

(** Ada has booked the jazz night, an event without a time, for 25 guests. *)
Definition ada_jazz : models.Booking.t :=
  models.Booking.mk 1 (Some 1) "Ada" "ada@example.com" "010 555 0101"
    tuesday None 25 "token-ada" None.

Definition jazz_db : Db := mk_Db [ada_jazz] [jazz_night; quiz_night] 1 2.

(** Bob asks for 5 places at the same jazz night. *)
Definition bob_jazz_request : schemas.BookingCreate.t :=
  schemas.BookingCreate.mk (Some 1) "Bob" "bob@example.com" "010 555 0102"
    tuesday None 5 None.

(** Ada asks for 2 places at the quiz night, another event. *)
Definition ada_quiz_request : schemas.BookingCreate.t :=
  schemas.BookingCreate.mk (Some 2) "Ada" "ada@example.com" "010 555 0101"
    next_tuesday (Some (datetime.time_hm 21 0)) 2 None.

(** An evening with 20 guests booked at 21:00. *)
Definition carla_dinner : models.Booking.t :=
  models.Booking.mk 1 None "Carla" "carla@example.com" "010 555 0103"
    tuesday (Some (datetime.time_hm 21 0)) 20 "token-carla" None.

Definition dinner_db : Db := mk_Db [carla_dinner] [] 1 0.

(** A request for the same evening at 20:30. *)
Definition dinner_request (name email : string) (guests : Z) : schemas.BookingCreate.t :=
  schemas.BookingCreate.mk None name email "010 555 0104"
    tuesday (Some (datetime.time_hm 20 30)) guests None.

Definition dario_row (guests : Z) : models.Booking.t :=
  models.Booking.mk 2 None "Dario" "dario@example.com" "010 555 0104"
    tuesday (Some (datetime.time_hm 20 30)) guests "token-dario" None.

(** What the catalog holds on that Thursday with the two events stored. *)
Definition thursday_catalog : list bookable_event :=
  [mk_event brunch None "Brunch - 08/11" "2026-11-08" None (Some ["12:00:00"; "13:30:00"]);
   mk_event special (Some 1) "Jazz Night - 10/11" "2026-11-10" None None;
   mk_event brunch None "Brunch - 15/11" "2026-11-15" None (Some ["12:00:00"; "13:30:00"]);
   mk_event special (Some 2) "Quiz Night - 17/11" "2026-11-17" (Some "21:00:00") None;
   mk_event brunch None "Brunch - 22/11" "2026-11-22" None (Some ["12:00:00"; "13:30:00"]);
   mk_event brunch None "Brunch - 29/11" "2026-11-29" None (Some ["12:00:00"; "13:30:00"]);
   mk_event brunch None "Brunch - 06/12" "2026-12-06" None (Some ["12:00:00"; "13:30:00"]);
   mk_event brunch None "Brunch - 13/12" "2026-12-13" None (Some ["12:00:00"; "13:30:00"]);
   mk_event brunch None "Brunch - 20/12" "2026-12-20" None (Some ["12:00:00"; "13:30:00"]);
   mk_event brunch None "Brunch - 27/12" "2026-12-27" None (Some ["12:00:00"; "13:30:00"])].

(** Eva asks for 20 places at the jazz night, an event without a time, and
    is stored as the first booking. *)
Definition eva_jazz_request : schemas.BookingCreate.t :=
  schemas.BookingCreate.mk (Some 1) "Eva" "eva@example.com" "010 555 0106"
    tuesday None 20 None.

Definition eva_jazz : models.Booking.t :=
  models.Booking.mk 1 (Some 1) "Eva" "eva@example.com" "010 555 0106"
    tuesday None 20 "token-eva" None.

Definition eva_db : Db := mk_Db [eva_jazz] [jazz_night; quiz_night] 1 2.

(** 2026-11-08, a Sunday, with 24 guests booked for the brunch turn of
    12:00. *)
Definition sunday : datetime.date := 739928.

Definition berta_brunch : models.Booking.t :=
  models.Booking.mk 1 None "Berta" "berta@example.com" "010 555 0105"
    sunday (Some (datetime.time_hm 12 0)) 24 "token-berta" None.

Definition brunch_db : Db := mk_Db [berta_brunch] [] 1 0.

(** A request for a turn of that brunch. *)
Definition brunch_request (turn : datetime.time) (guests : Z) : schemas.BookingCreate.t :=
  schemas.BookingCreate.mk None "Dario" "dario@example.com" "010 555 0104"
    sunday (Some turn) guests None.

Definition admin_secret : HTTPBasicCredentials := mk_credentials "admin" "secret".


(** Carla's dinner and Ada's jazz night are on one date, a third booking is
    a week later: the listing asked for that date alone counts all three. *)
Definition listing_db : Db :=
  mk_Db [carla_dinner;
         models.Booking.mk 2 (Some 1) "Ada" "ada@example.com" "010 555 0101"
           tuesday None 25 "token-ada" None;
         models.Booking.mk 3 None "Bob" "bob@example.com" "010 555 0102"
           next_tuesday (Some (datetime.time_hm 21 0)) 4 "token-bob" None]
        [jazz_night] 3 1.

(** Eight guests have booked the quiz night at 21:00. *)
Definition quiz_db : Db :=
  mk_Db [models.Booking.mk 1 (Some 2) "Ada" "ada@example.com" "010 555 0101"
           next_tuesday (Some (datetime.time_hm 21 0)) 8 "token-ada" None]
        [quiz_night] 1 2.

(** A new special event for the Tuesday. *)
Definition karaoke : schemas.SpecialEventCreate.t :=
  schemas.SpecialEventCreate.mk "Karaoke" tuesday (Some (datetime.time_hm 22 0)) false.

(** * Properties *)

(** ** Capacity buckets *)

Lemma or_0_sum (values : list Z) :
  py.or_0 (sql.sum values) = fold_right Z.add 0 values.
Proof.
  destruct values as [|v values]; [reflexivity|].
  unfold sql.sum, py.or_0.
  destruct (Z.eqb_spec (fold_right Z.add 0 (v :: values)) 0) as [E|E]; congruence.
Qed.

Lemma filter_map_ext {A : Type} (f g : A -> bool) (l : list A) :
  (forall x, f x = g x) -> List.filter f l = List.filter g l.
Proof.
  intros H; induction l as [|x l IH]; simpl; [reflexivity|].
  rewrite H, IH; reflexivity.
Qed.

Lemma booked_guests_bucket (booking : schemas.BookingCreate.t) (db : Db) :
  booked_guests booking db = sum_guests (List.filter (in_bucket booking) (bookings db)).
Proof.
  unfold booked_guests, booked_guests_and_context, sum_guests, in_bucket.
  destruct (brunch_turn (schemas.BookingCreate.booking_time booking)) as [t|];
    cbn [fst]; rewrite or_0_sum; unfold sql.where_;
    do 2 f_equal; apply filter_map_ext; intros b;
    destruct (models.Booking.booking_time b) as [t'|];
    destruct (models.Booking.booking_date b
              =? schemas.BookingCreate.booking_date booking);
    cbn; try reflexivity.
  - destruct (datetime.time_eqb t' t); reflexivity.
  - destruct (datetime.time_eqb t' (datetime.time_hm 12 0) ||
              (datetime.time_eqb t' (datetime.time_hm 13 30) || false)); reflexivity.
Qed.

Lemma error_context_spec (booking : schemas.BookingCreate.t) (db : Db) :
  error_context booking db =
  match brunch_turn (schemas.BookingCreate.booking_time booking) with
  | Some t => "per il turno delle " ++ datetime.strftime_HM t
  | None => "per la serata"
  end.
Proof.
  unfold error_context, booked_guests_and_context.
  destruct (brunch_turn _); reflexivity.
Qed.

Lemma booked_guests_and_context_eq (booking : schemas.BookingCreate.t) (db : Db) :
  booked_guests_and_context booking db = (booked_guests booking db, error_context booking db).
Proof.
  unfold booked_guests, error_context.
  destruct (booked_guests_and_context booking db); reflexivity.
Qed.

(** [create_booking] once the duplicate query is empty. *)
Lemma create_booking_not_duplicate (booking : schemas.BookingCreate.t)
  (token : string) (db : Db) :
  duplicate_query booking db = [] ->
  create_booking booking token db =
  if booked_guests booking db + schemas.BookingCreate.guests booking >? MAX_GUESTS then
    (Raise (HTTPException 400
       (if MAX_GUESTS - booked_guests booking db <=? 0
        then "Spiacenti, siamo al completo " ++ error_context booking db ++ "."
        else "Spiacenti, non c'è abbastanza posto " ++ error_context booking db
             ++ ". Posti rimasti: " ++ py.str (MAX_GUESTS - booked_guests booking db)
             ++ ".")), db)
  else insert_booking (new_booking booking (bookings_id_seq db + 1) token) db.
Proof.
  intros Hdup. unfold create_booking. rewrite Hdup.
  rewrite booked_guests_and_context_eq. reflexivity.
Qed.

(** The INSERT stores the rows the table takes, and only those. *)
Lemma insert_booking_insertable (row : models.Booking.t) (db : Db) :
  booking_insertable db row = true ->
  insert_booking row db
  = (Return row,
     mk_Db (bookings db ++ [row]) (special_events db)
           (bookings_id_seq db + 1) (special_events_id_seq db)).
Proof.
  unfold booking_insertable, insert_booking.
  rewrite !andb_true_iff, negb_true_iff. intros [[-> ->] ->]. reflexivity.
Qed.

Lemma insert_booking_refused (row : models.Booking.t) (db : Db) :
  booking_insertable db row = false ->
  (exists e, fst (insert_booking row db) = Raise e
             /\ forall status_code detail, e <> HTTPException status_code detail)
  /\ bookings (snd (insert_booking row db)) = bookings db
  /\ special_events (snd (insert_booking row db)) = special_events db.
Proof.
  unfold booking_insertable, insert_booking. intros H.
  destruct (booking_has_nul row);
    [split; [eexists; split; [reflexivity|discriminate]|split; reflexivity]|].
  destruct (booking_in_range row); cbn [negb];
    [|split; [eexists; split; [reflexivity|discriminate]|split; reflexivity]].
  cbn in H. rewrite H.
  split; [eexists; split; [reflexivity|discriminate]|split; reflexivity].
Qed.

Lemma insert_booking_Return (row r : models.Booking.t) (db db' : Db) :
  insert_booking row db = (Return r, db') ->
  booking_insertable db row = true
  /\ r = row
  /\ db' = mk_Db (bookings db ++ [row]) (special_events db)
                 (bookings_id_seq db + 1) (special_events_id_seq db).
Proof.
  destruct (booking_insertable db row) eqn:Hins.
  - rewrite (insert_booking_insertable row db Hins). intros H. inversion H. auto.
  - destruct (insert_booking_refused row db Hins) as ((e & He & _) & _).
    intros H. rewrite H in He. discriminate He.
Qed.

Lemma sum_guests_app (l1 l2 : list models.Booking.t) :
  sum_guests (l1 ++ l2)%list = sum_guests l1 + sum_guests l2.
Proof.
  unfold sum_guests. induction l1 as [|b l1 IH]; simpl; [reflexivity|].
  rewrite IH. lia.
Qed.

(** What one more stored row adds to the booked total of a request. *)
Lemma booked_guests_after_insert (booking : schemas.BookingCreate.t)
  (row : models.Booking.t) (db : Db) (seq : Z) :
  booked_guests booking
    (mk_Db (bookings db ++ [row]) (special_events db) seq (special_events_id_seq db))
  = booked_guests booking db
    + (if in_bucket booking row then models.Booking.guests row else 0).
Proof.
  rewrite !booked_guests_bucket. cbn [bookings].
  rewrite filter_app, sum_guests_app. f_equal.
  cbn [List.filter]. destruct (in_bucket booking row); unfold sum_guests; simpl; lia.
Qed.

Lemma time_eqb_refl (t : datetime.time) : datetime.time_eqb t t = true.
Proof. unfold datetime.time_eqb. rewrite !Z.eqb_refl. reflexivity. Qed.

Lemma time_eqb_eq (a b : datetime.time) : datetime.time_eqb a b = true <-> a = b.
Proof.
  split; [|intros ->; apply time_eqb_refl].
  unfold datetime.time_eqb. destruct a, b; cbn.
  rewrite !andb_true_iff, !Z.eqb_eq. intros [[[-> ->] ->] ->]. reflexivity.
Qed.

(** A stored request with a time counts in its own bucket. *)
Lemma in_own_bucket (booking : schemas.BookingCreate.t) (id : Z) (token : string)
  (t : datetime.time) :
  schemas.BookingCreate.booking_time booking = Some t ->
  in_bucket booking (new_booking booking id token) = true.
Proof.
  intros Ht. unfold in_bucket, new_booking, brunch_turn.
  cbn [models.Booking.booking_date models.Booking.booking_time].
  rewrite Z.eqb_refl, Ht.
  destruct (existsb (datetime.time_eqb t) BRUNCH_SLOTS) eqn:E; cbn [andb].
  - apply time_eqb_refl.
  - reflexivity.
Qed.

(** The turns are 12:00 and 13:30. *)
Lemma brunch_turn_spec (t : option datetime.time) :
  (is_brunch_slot t -> brunch_turn t = t)
  /\ (~ is_brunch_slot t -> brunch_turn t = None).
Proof.
  unfold is_brunch_slot, brunch_turn, BRUNCH_SLOTS.
  destruct t as [t|]; [|split; [intros [H|H]; discriminate H|reflexivity]].
  cbn [existsb].
  destruct (datetime.time_eqb t (datetime.time_hm 12 0)) eqn:E1;
    [apply time_eqb_eq in E1; subst; split; [reflexivity|intros H; destruct H; auto]|].
  destruct (datetime.time_eqb t (datetime.time_hm 13 30)) eqn:E2;
    [apply time_eqb_eq in E2; subst; split; [reflexivity|intros H; destruct H; auto]|].
  cbn. split; [|reflexivity].
  intros [H|H]; inversion H; subst; rewrite time_eqb_refl in *; discriminate.
Qed.

Lemma is_brunch_slot_dec (t : option datetime.time) : is_brunch_slot t \/ ~ is_brunch_slot t.
Proof.
  unfold is_brunch_slot. destruct t as [t|]; [|right; intros [H|H]; discriminate H].
  destruct (datetime.time_eqb t (datetime.time_hm 12 0)) eqn:E1;
    [apply time_eqb_eq in E1; subst; auto|].
  destruct (datetime.time_eqb t (datetime.time_hm 13 30)) eqn:E2;
    [apply time_eqb_eq in E2; subst; auto|].
  right. intros [H|H]; inversion H; subst; rewrite time_eqb_refl in *; discriminate.
Qed.

(** The rows the capacity query selects. *)
Lemma in_bucket_counted_for (booking : schemas.BookingCreate.t) (b : models.Booking.t) :
  in_bucket booking b = true <-> counted_for booking b.
Proof.
  unfold in_bucket, counted_for. rewrite andb_true_iff, Z.eqb_eq.
  apply and_iff_compat_l.
  destruct (brunch_turn_spec (schemas.BookingCreate.booking_time booking)) as [Hslot Hnot].
  destruct (is_brunch_slot_dec (schemas.BookingCreate.booking_time booking)) as [Hs|Hs].
  - rewrite (Hslot Hs).
    destruct (schemas.BookingCreate.booking_time booking) as [t|] eqn:Ht;
      [|destruct Hs as [H|H]; discriminate H].
    destruct (models.Booking.booking_time b) as [t'|].
    + rewrite time_eqb_eq. split.
      * intros ->. left. split; [exact Hs|reflexivity].
      * intros [[_ H]|[H _]]; [inversion H; reflexivity|destruct (H Hs)].
    + split; [discriminate|]. intros [[_ H]|[H _]]; [discriminate H|destruct (H Hs)].
  - rewrite (Hnot Hs).
    destruct (models.Booking.booking_time b) as [t'|].
    + unfold BRUNCH_SLOTS. cbn [existsb]. rewrite orb_false_r, negb_true_iff, orb_false_iff.
      split.
      * intros [H1 H2]. right. split; [exact Hs|]. exists t'. split; [reflexivity|].
        split; intros ->; rewrite time_eqb_refl in *; discriminate.
      * intros [[H _]|[_ (t & Ht & H1 & H2)]]; [destruct (Hs H)|]. inversion Ht; subst.
        split.
        -- destruct (datetime.time_eqb t (datetime.time_hm 12 0)) eqn:E; [|reflexivity].
           apply time_eqb_eq in E. destruct (H1 E).
        -- destruct (datetime.time_eqb t (datetime.time_hm 13 30)) eqn:E; [|reflexivity].
           apply time_eqb_eq in E. destruct (H2 E).
    + split; [discriminate|].
      intros [[H _]|[_ (t & Ht & _)]]; [destruct (Hs H)|discriminate Ht].
Qed.

(** The context named in a refusal. *)
Lemma error_context_text (booking : schemas.BookingCreate.t) (db : Db) :
  error_context booking db
  = match schemas.BookingCreate.booking_time booking with
    | Some t =>
        if datetime.time_eqb t (datetime.time_hm 12 0) then "per il turno delle 12:00"
        else if datetime.time_eqb t (datetime.time_hm 13 30) then "per il turno delle 13:30"
        else "per la serata"
    | None => "per la serata"
    end.
Proof.
  rewrite error_context_spec. unfold brunch_turn, BRUNCH_SLOTS.
  destruct (schemas.BookingCreate.booking_time booking) as [t|]; [|reflexivity].
  cbn [existsb].
  destruct (datetime.time_eqb t (datetime.time_hm 12 0)) eqn:E1;
    [apply time_eqb_eq in E1; subst; reflexivity|].
  destruct (datetime.time_eqb t (datetime.time_hm 13 30)) eqn:E2;
    [apply time_eqb_eq in E2; subst; reflexivity|].
  reflexivity.
Qed.

(** Where every stored booking on the date of the request has a time, the
    query selects the bucket of the specification. *)
Lemma in_bucket_spec_bucket (booking : schemas.BookingCreate.t) (b : models.Booking.t) :
  (models.Booking.booking_date b = schemas.BookingCreate.booking_date booking ->
   models.Booking.booking_time b <> None) ->
  in_bucket booking b = spec_bucket booking b.
Proof.
  intros Htime. unfold in_bucket, spec_bucket, spec_evening_bucket, brunch_turn, BRUNCH_SLOTS.
  destruct (Z.eqb_spec (models.Booking.booking_date b)
                       (schemas.BookingCreate.booking_date booking)) as [Hd|Hd].
  - specialize (Htime Hd).
    destruct (models.Booking.booking_time b) as [t'|]; [|destruct (Htime eq_refl)].
    destruct (schemas.BookingCreate.booking_time booking) as [t|]; [|reflexivity].
    cbn [existsb]. rewrite orb_false_r.
    destruct (datetime.time_eqb t (datetime.time_hm 12 0)
              || datetime.time_eqb t (datetime.time_hm 13 30)); reflexivity.
  - destruct (schemas.BookingCreate.booking_time booking) as [t|]; [|reflexivity].
    cbn [existsb]. rewrite orb_false_r.
    destruct (datetime.time_eqb t (datetime.time_hm 12 0)
              || datetime.time_eqb t (datetime.time_hm 13 30)); reflexivity.
Qed.

Lemma filter_ext_In {A : Type} (f g : A -> bool) (l : list A) :
  (forall x, In x l -> f x = g x) -> List.filter f l = List.filter g l.
Proof.
  induction l as [|x l IH]; intros H; cbn; [reflexivity|].
  rewrite (H x (or_introl eq_refl)), IH; [reflexivity|].
  intros y Hy. apply H. right. exact Hy.
Qed.

(** X20: once the duplicate check has passed, [create_booking] refuses the
    request for capacity exactly when the guests its query counts plus the
    requested guests exceed 25.  The query counts the stored bookings on the
    date of the request that have the time of the request when that is 12:00
    or 13:30, and else those that have a time other than 12:00 and 13:30; a
    booking without a time is never counted, and where no booking on that
    date lacks a time the bookings counted are the bucket of the
    specification.  The detail of the refusal gives the places left, 25
    minus the counted guests, or says that the place is full when none is
    left, and names the turn of 12:00 or of 13:30, or the evening.  A request
    that does not exceed 25, one that reaches exactly 25 included, is refused
    by no check and is stored when the table takes the row; stored with a
    time, it raises the count of its own query by its guests. *)
Theorem capacity_check (booking : schemas.BookingCreate.t) (token : string) (db : Db) :
  duplicate_query booking db = [] ->
  let booked := booked_guests booking db in
  let requested := schemas.BookingCreate.guests booking in
  let context :=
    match schemas.BookingCreate.booking_time booking with
    | Some t =>
        if datetime.time_eqb t (datetime.time_hm 12 0) then "per il turno delle 12:00"
        else if datetime.time_eqb t (datetime.time_hm 13 30) then "per il turno delle 13:30"
        else "per la serata"
    | None => "per la serata"
    end in
  let row := new_booking booking (bookings_id_seq db + 1) token in
  booked = sum_guests (List.filter (in_bucket booking) (bookings db))
  /\ (forall b, in_bucket booking b = true <-> counted_for booking b)
  /\ ((forall b, In b (bookings db) ->
                 models.Booking.booking_date b = schemas.BookingCreate.booking_date booking ->
                 models.Booking.booking_time b <> None) ->
      booked = sum_guests (List.filter (spec_bucket booking) (bookings db)))
  /\ (booked + requested > 25 ->
      create_booking booking token db =
      (Raise (HTTPException 400
         (if 25 - booked <=? 0
          then "Spiacenti, siamo al completo " ++ context ++ "."
          else "Spiacenti, non c'è abbastanza posto " ++ context
               ++ ". Posti rimasti: " ++ py.str (25 - booked) ++ ".")), db))
  /\ (booked + requested <= 25 ->
      forall status_code detail,
        fst (create_booking booking token db) <> Raise (HTTPException status_code detail))
  /\ (booked + requested <= 25 ->
      booking_insertable db row = true ->
      create_booking booking token db =
      (Return row,
       mk_Db (bookings db ++ [row]) (special_events db)
             (bookings_id_seq db + 1) (special_events_id_seq db))
      /\ (forall t,
            schemas.BookingCreate.booking_time booking = Some t ->
            booked_guests booking
              (mk_Db (bookings db ++ [row]) (special_events db)
                     (bookings_id_seq db + 1) (special_events_id_seq db))
            = booked + requested)).
Proof.
  intros Hdup booked requested context row.
  pose proof (create_booking_not_duplicate booking token db Hdup) as Hcb.
  rewrite error_context_text in Hcb.
  fold booked requested context row in Hcb. unfold MAX_GUESTS in Hcb.
  split; [apply booked_guests_bucket|].
  split; [apply in_bucket_counted_for|].
  split; [|split; [|split]].
  - intros Htime. unfold booked. rewrite booked_guests_bucket. f_equal.
    apply filter_ext_In. intros b Hb. apply in_bucket_spec_bucket. exact (Htime b Hb).
  - intros Hover. rewrite Hcb.
    destruct (Z.gtb_spec (booked + requested) 25) as [_|Hle]; [reflexivity|lia].
  - intros Hfits status_code detail. rewrite Hcb.
    destruct (Z.gtb_spec (booked + requested) 25) as [Hgt|_]; [lia|].
    destruct (booking_insertable db row) eqn:Hins.
    + rewrite (insert_booking_insertable row db Hins). discriminate.
    + destruct (insert_booking_refused row db Hins) as ((e & -> & He) & _).
      intros H. inversion H. exact (He _ _ H1).
  - intros Hfits Hins. rewrite Hcb.
    destruct (Z.gtb_spec (booked + requested) 25) as [Hgt|_]; [lia|].
    rewrite (insert_booking_insertable row db Hins).
    split; [reflexivity|].
    intros t Ht. rewrite booked_guests_after_insert.
    unfold row. rewrite (in_own_bucket booking _ token t Ht). reflexivity.
Qed.

(** ** Rows with a unique key *)

Section ListFacts.

Context {A B : Type}.
Variable key : A -> B.
Variable eqb : B -> B -> bool.
Hypothesis eqb_eq : forall x y, eqb x y = true <-> x = y.

Lemma existsb_key_false (v : B) (l : list A) :
  existsb (fun a => eqb (key a) v) l = false -> ~ In v (map key l).
Proof.
  induction l as [|a l IH]; simpl; [tauto|].
  rewrite orb_false_iff. intros [Ha Hl] [Hin|Hin].
  - apply eqb_eq in Hin. congruence.
  - exact (IH Hl Hin).
Qed.

Lemma NoDup_map_snoc (x : A) (l : list A) :
  NoDup (map key l) -> ~ In (key x) (map key l) -> NoDup (map key (l ++ [x])%list).
Proof.
  intros Hl Hx. rewrite map_app. simpl.
  induction l as [|a l IH]; simpl in *.
  - constructor; [tauto|constructor].
  - inversion Hl as [|? ? Ha Hl']; subst. constructor.
    + rewrite in_app_iff. simpl. intros [H|[H|[]]]; [tauto|].
      apply Hx. left. congruence.
    + apply IH; tauto.
Qed.

Lemma NoDup_map_filter (p : A -> bool) (l : list A) :
  NoDup (map key l) -> NoDup (map key (List.filter p l)).
Proof.
  induction l as [|a l IH]; simpl; intros Hl; [constructor|].
  inversion Hl as [|? ? Ha Hl']; subst.
  destruct (p a); simpl; [constructor|]; auto.
  intros Hin. apply Ha. apply in_map_iff in Hin as (y & Hy & Hin).
  apply filter_In in Hin as [Hin _]. apply in_map_iff. eauto.
Qed.

Lemma NoDup_map_inj (x y : A) (l : list A) :
  NoDup (map key l) -> In x l -> In y l -> key x = key y -> x = y.
Proof.
  induction l as [|a l IH]; simpl; intros Hl Hx Hy E; [tauto|].
  inversion Hl as [|? ? Ha Hl']; subst.
  destruct Hx as [->|Hx], Hy as [->|Hy]; auto.
  - exfalso. apply Ha. rewrite E. apply in_map. exact Hy.
  - exfalso. apply Ha. rewrite <- E. apply in_map. exact Hx.
Qed.

(** Selecting the rows of a key finds none when no row has the key. *)
Lemma filter_key_none (v : B) (l : list A) :
  (forall a, In a l -> key a <> v) -> List.filter (fun a => eqb (key a) v) l = [].
Proof.
  induction l as [|a l IH]; simpl; intros H; [reflexivity|].
  destruct (eqb (key a) v) eqn:E.
  - apply eqb_eq in E. exfalso. apply (H a); auto.
  - apply IH. intros a' Ha'. apply H. auto.
Qed.

(** Selecting the rows of a unique key finds the one row that has it. *)
Lemma filter_key_unique (x : A) (l : list A) :
  NoDup (map key l) -> In x l -> List.filter (fun a => eqb (key a) (key x)) l = [x].
Proof.
  induction l as [|a l IH]; simpl; intros Hl Hx; [tauto|].
  inversion Hl as [|? ? Ha Hl']; subst.
  destruct Hx as [->|Hx].
  - replace (eqb (key x) (key x)) with true by (symmetry; apply eqb_eq; reflexivity).
    f_equal. apply filter_key_none. intros a Hin E. apply Ha. rewrite <- E.
    apply in_map. exact Hin.
  - destruct (eqb (key a) (key x)) eqn:E.
    + apply eqb_eq in E. exfalso. apply Ha. rewrite E. apply in_map. exact Hx.
    + apply IH; assumption.
Qed.

(** Deleting by a unique key takes out the one row that has it. *)
Lemma filter_key_remove (x : A) (before after : list A) :
  NoDup (map key (before ++ x :: after)%list) ->
  List.filter (fun a => negb (eqb (key a) (key x))) (before ++ x :: after)%list
  = (before ++ after)%list.
Proof.
  intros Hl.
  assert (Hkeep : forall l, (forall a, In a l -> key a <> key x) ->
                            List.filter (fun a => negb (eqb (key a) (key x))) l = l).
  { induction l as [|a l IH]; simpl; intros H; [reflexivity|].
    destruct (eqb (key a) (key x)) eqn:E.
    - apply eqb_eq in E. exfalso. apply (H a); auto.
    - simpl. f_equal. apply IH. intros a' Ha'. apply H. auto. }
  rewrite map_app in Hl. simpl in Hl.
  pose proof (NoDup_remove_2 _ _ _ Hl) as Hx.
  rewrite filter_app. simpl.
  replace (eqb (key x) (key x)) with true by (symmetry; apply eqb_eq; reflexivity).
  simpl. rewrite !Hkeep; [reflexivity| |].
  - intros a Ha E. apply Hx. rewrite in_app_iff. right. rewrite <- E.
    apply in_map. exact Ha.
  - intros a Ha E. apply Hx. rewrite in_app_iff. left. rewrite <- E.
    apply in_map. exact Ha.
Qed.

End ListFacts.

Lemma where_Some {R : Type} (f : R -> bool) (rows : list R) :
  sql.where_ (fun r => Some (f r)) rows = List.filter f rows.
Proof.
  unfold sql.where_. apply filter_map_ext. intros r. destruct (f r); reflexivity.
Qed.

Lemma string_eqb_eq (x y : string) : String.eqb x y = true <-> x = y.
Proof. apply String.eqb_eq. Qed.

(** ** Cancellation *)


(** ** Deleting a special event *)

Lemma references_iff (event_id : Z) (b : models.Booking.t) :
  references event_id b = true <-> models.Booking.event_id b = Some event_id.
Proof.
  unfold references. destruct (models.Booking.event_id b) as [e|].
  - rewrite Z.eqb_eq. split; congruence.
  - split; discriminate.
Qed.

Lemma where_id_In (event_id : Z) (events : list models.SpecialEvent.t)
  (event : models.SpecialEvent.t) (rest : list models.SpecialEvent.t) :
  sql.where_ (fun ev => Some (models.SpecialEvent.id ev =? event_id)) events = event :: rest ->
  In event events /\ models.SpecialEvent.id event = event_id.
Proof.
  rewrite where_Some. intros H.
  assert (Hin : In event (List.filter (fun ev => models.SpecialEvent.id ev =? event_id) events))
    by (rewrite H; left; reflexivity).
  apply filter_In in Hin. rewrite Z.eqb_eq in Hin. exact Hin.
Qed.

(** C6: with the admin's credentials, deleting the special event [event_id]
    returns a stored event of that id and leaves the special events of
    another id and the bookings that do not refer to [event_id], each as
    it was and in the stored order; when no event has the id the answer is
    404 and nothing changes. *)
Theorem delete_special_event_spec (ADMIN_PASSWORD : option string) (event_id : Z)
  (credentials : HTTPBasicCredentials) (db : Db) :
  credentials_refused ADMIN_PASSWORD credentials = false ->
  (forall ev, In ev (special_events db) -> models.SpecialEvent.id ev = event_id ->
     exists event,
       In event (special_events db) /\ models.SpecialEvent.id event = event_id
       /\ let db' :=
            mk_Db (List.filter (fun b => negb (references event_id b)) (bookings db))
                  (List.filter (fun ev' => negb (models.SpecialEvent.id ev' =? event_id))
                               (special_events db))
                  (bookings_id_seq db) (special_events_id_seq db) in
          delete_special_event ADMIN_PASSWORD event_id credentials db = (Return event, db')
          /\ (forall ev', In ev' (special_events db') <->
                          In ev' (special_events db)
                          /\ models.SpecialEvent.id ev' <> event_id)
          /\ (forall b, In b (bookings db') <->
                        In b (bookings db) /\ models.Booking.event_id b <> Some event_id))
  /\ ((forall ev, In ev (special_events db) -> models.SpecialEvent.id ev <> event_id) ->
      delete_special_event ADMIN_PASSWORD event_id credentials db
      = (Raise (HTTPException 404 "Evento non trovato"), db)).
Proof.
  intros Hauth. split.
  - intros ev Hev Hid. unfold delete_special_event. rewrite Hauth.
    destruct (sql.where_ (fun ev0 => Some (models.SpecialEvent.id ev0 =? event_id))
                         (special_events db)) as [|event rest] eqn:Hq.
    + exfalso. rewrite where_Some in Hq.
      assert (Hin : In ev (List.filter (fun ev0 => models.SpecialEvent.id ev0 =? event_id)
                                       (special_events db)))
        by (apply filter_In; split; [exact Hev|apply Z.eqb_eq; exact Hid]).
      rewrite Hq in Hin. exact Hin.
    + destruct (where_id_In _ _ _ _ Hq) as [Hin Heid].
      exists event. split; [exact Hin|]. split; [exact Heid|].
      cbv zeta. split; [|split].
      * rewrite Heid. unfold delete_where. do 2 f_equal.
        -- apply filter_map_ext. intros b. unfold references, sql.eq.
           destruct (models.Booking.event_id b) as [e|]; [|reflexivity].
           cbn. destruct (e =? event_id); reflexivity.
        -- apply filter_map_ext. intros ev'.
           destruct (models.SpecialEvent.id ev' =? event_id); reflexivity.
      * intros ev'. cbn [special_events]. rewrite filter_In, negb_true_iff, Z.eqb_neq.
        reflexivity.
      * intros b. cbn [bookings]. rewrite filter_In, negb_true_iff.
        rewrite <- references_iff. destruct (references event_id b); intuition congruence.
  - intros Hnone. unfold delete_special_event. rewrite Hauth, where_Some.
    rewrite (filter_key_none models.SpecialEvent.id Z.eqb Z.eqb_eq event_id _ Hnone).
    reflexivity.
Qed.

(** ** Admin endpoints without a configured password *)

Lemma credentials_refused_no_password (credentials : HTTPBasicCredentials) :
  credentials_refused None credentials = true.
Proof. unfold credentials_refused. cbn. apply orb_true_r. Qed.

(** C7, as the code has it: without a configured admin password every admin
    endpoint refuses whatever credentials it is given and changes nothing;
    the bookings listing answers 500, the export and the three special-event
    endpoints answer 401. *)
Theorem admin_endpoints_without_password (credentials : HTTPBasicCredentials) (db : Db)
  (skip limit : Z) (event_date : option datetime.date)
  (event_time : option datetime.time) (event_id : option Z)
  (event : schemas.SpecialEventCreate.t) (id : Z) :
  get_all_bookings None credentials db skip limit event_date event_time event_id
  = (Raise (HTTPException 500 password_not_configured_detail), db)
  /\ export_bookings_to_pdf None credentials db event_date event_time event_id limit
     = (Raise (HTTPException 401 "Credenziali non valide"), db)
  /\ create_special_event None event credentials db
     = (Raise (HTTPException 401 "Credenziali non valide"), db)
  /\ read_special_events None credentials db
     = (Raise (HTTPException 401 "Credenziali non valide"), db)
  /\ delete_special_event None id credentials db
     = (Raise (HTTPException 401 "Credenziali non valide"), db).
Proof.
  unfold get_all_bookings, export_bookings_to_pdf, create_special_event,
    read_special_events, delete_special_event.
  rewrite credentials_refused_no_password. cbn. repeat split.
Qed.

(** C7 as stated fails: without a password the export answers 401, which is
    no server error. *)
Lemma export_without_password_is_401 :
  fst (export_bookings_to_pdf None (mk_credentials "admin" "secret")
         (mk_Db [] [] 0 0) None None None 1000)
  = Raise (HTTPException 401 "Credenziali non valide")
  /\ is_server_error
       (fst (export_bookings_to_pdf None (mk_credentials "admin" "secret")
               (mk_Db [] [] 0 0) None None None 1000)) = false.
Proof. split; reflexivity. Qed.

(** ** Admin listing with one of date and time *)

(** C10: in the admin listing a date without a time, or a time without a
    date, and no event id, filters nothing: the answer is that of the
    request without filters, whose total counts every stored booking and
    whose page is cut from all of them. *)
Theorem get_all_bookings_single_filter (ADMIN_PASSWORD : option string)
  (credentials : HTTPBasicCredentials) (db : Db) (skip limit : Z) :
  (forall d,
      get_all_bookings ADMIN_PASSWORD credentials db skip limit (Some d) None None
      = get_all_bookings ADMIN_PASSWORD credentials db skip limit None None None)
  /\ (forall t,
      get_all_bookings ADMIN_PASSWORD credentials db skip limit None (Some t) None
      = get_all_bookings ADMIN_PASSWORD credentials db skip limit None None None)
  /\ (forall page db',
      get_all_bookings ADMIN_PASSWORD credentials db skip limit None None None
      = (Return page, db') ->
      total page = Z.of_nat (List.length (bookings db))
      /\ page_bookings page
         = firstn (Z.to_nat limit)
                  (skipn (Z.to_nat skip) (stable_sort booking_desc_leb (bookings db)))).
Proof.
  split; [|split]; try reflexivity.
  intros page db'. unfold get_all_bookings, admin_filter. cbn [py.truthy_int].
  destruct (negb (py.truthy_str ADMIN_PASSWORD)); [discriminate|].
  destruct (credentials_refused ADMIN_PASSWORD credentials); [discriminate|].
  destruct ((skip <? 0) || (limit <? 0)); [discriminate|].
  intros H. inversion H; subst. split; reflexivity.
Qed.

(** ** The closed flag of a special event *)




Lemma insert_sorted_In {A : Type} (leb : A -> A -> bool) (x y : A) (l : list A) :
  In y (insert_sorted leb x l) <-> y = x \/ In y l.
Proof.
  induction l as [|z l IH]; simpl.
  - intuition congruence.
  - destruct (leb x z); simpl; [intuition congruence|].
    rewrite IH. intuition congruence.
Qed.

Lemma stable_sort_In {A : Type} (leb : A -> A -> bool) (y : A) (l : list A) :
  In y (stable_sort leb l) <-> In y l.
Proof.
  unfold stable_sort. induction l as [|x l IH]; simpl; [tauto|].
  rewrite insert_sorted_In, IH. intuition congruence.
Qed.


(** ** Guest counts *)

(** What [create_booking] leaves of the tables when it stores nothing. *)
Lemma create_booking_tables (booking : schemas.BookingCreate.t) (token : string) (db : Db) :
  (forall row, fst (create_booking booking token db) <> Return row) ->
  bookings (snd (create_booking booking token db)) = bookings db
  /\ special_events (snd (create_booking booking token db)) = special_events db.
Proof.
  unfold create_booking.
  destruct (duplicate_query booking db); [|split; reflexivity].
  destruct (booked_guests_and_context booking db) as [booked context].
  destruct (booked + schemas.BookingCreate.guests booking >? MAX_GUESTS);
    [split; reflexivity|].
  set (row := new_booking booking (bookings_id_seq db + 1) token).
  destruct (booking_insertable db row) eqn:Hins.
  - rewrite (insert_booking_insertable row db Hins). intros H. destruct (H row eq_refl).
  - intros _. apply (insert_booking_refused row db Hins).
Qed.


(** ** Sorting *)

Section StableSort.

Context {A : Type}.
Variable leb : A -> A -> bool.

Lemma insert_sorted_Permutation (x : A) (l : list A) :
  Permutation (insert_sorted leb x l) (x :: l).
Proof.
  induction l as [|y l IH]; simpl; [reflexivity|].
  destruct (leb x y); [reflexivity|].
  rewrite IH. apply perm_swap.
Qed.

Lemma stable_sort_Permutation (l : list A) : Permutation (stable_sort leb l) l.
Proof.
  unfold stable_sort. induction l as [|x l IH]; simpl; [reflexivity|].
  rewrite insert_sorted_Permutation, IH. reflexivity.
Qed.

(** The sort is stable: entries that compare equal both ways keep the order
    they had.  [same] selects the entries of one key. *)
Lemma insert_sorted_filter (same : A -> bool) (x : A) (l : list A) :
  (forall y, same x = true -> same y = true -> leb x y = true) ->
  List.filter same (insert_sorted leb x l)
  = if same x then x :: List.filter same l else List.filter same l.
Proof.
  intros Hsame. induction l as [|y l IH]; simpl.
  - destruct (same x); reflexivity.
  - destruct (leb x y) eqn:E; simpl.
    + destruct (same x), (same y); reflexivity.
    + rewrite IH. destruct (same x) eqn:Ex, (same y) eqn:Ey; try reflexivity.
      rewrite (Hsame y eq_refl Ey) in E. discriminate.
Qed.

Lemma stable_sort_stable (same : A -> bool) (l : list A) :
  (forall x y, same x = true -> same y = true -> leb x y = true) ->
  List.filter same (stable_sort leb l) = List.filter same l.
Proof.
  intros Hsame. unfold stable_sort. induction l as [|x l IH]; simpl; [reflexivity|].
  rewrite insert_sorted_filter by (intros y; apply Hsame).
  rewrite IH. reflexivity.
Qed.

Hypothesis leb_total : forall x y, leb x y = false -> leb y x = true.

Lemma insert_sorted_Sorted (x : A) (l : list A) :
  Sorted (fun a b => leb a b = true) l ->
  Sorted (fun a b => leb a b = true) (insert_sorted leb x l).
Proof.
  induction 1 as [|y l Hl IH Hhd]; simpl.
  - repeat constructor.
  - destruct (leb x y) eqn:E.
    + constructor; [constructor; assumption|constructor; exact E].
    + constructor; [exact IH|].
      destruct l as [|z l]; simpl.
      * constructor. apply leb_total. exact E.
      * destruct (leb x z); constructor.
        -- apply leb_total. exact E.
        -- inversion Hhd; assumption.
Qed.

Lemma stable_sort_Sorted (l : list A) :
  Sorted (fun a b => leb a b = true) (stable_sort leb l).
Proof.
  unfold stable_sort. induction l as [|x l IH]; simpl; [constructor|].
  apply insert_sorted_Sorted. exact IH.
Qed.

End StableSort.

(** ** Strings in order *)

Lemma ascii_compare_refl (c : ascii) : Ascii.compare c c = Eq.
Proof. unfold Ascii.compare. apply N.compare_refl. Qed.

Lemma ascii_compare_lt_trans (a b c : ascii) :
  Ascii.compare a b = Lt -> Ascii.compare b c = Lt -> Ascii.compare a c = Lt.
Proof.
  unfold Ascii.compare. rewrite !N.compare_lt_iff. apply N.lt_trans.
Qed.

Lemma string_compare_refl (s : string) : String.compare s s = Eq.
Proof.
  induction s as [|c s IH]; [reflexivity|].
  cbn [String.compare]. rewrite ascii_compare_refl. exact IH.
Qed.

Lemma string_compare_eq (s t : string) : String.compare s t = Eq <-> s = t.
Proof.
  split; [apply String.compare_eq_iff|intros ->; apply string_compare_refl].
Qed.

Lemma string_compare_lt_trans (a : string) :
  forall b c, String.compare a b = Lt -> String.compare b c = Lt -> String.compare a c = Lt.
Proof.
  induction a as [|x a IH]; intros [|y b] [|z c]; cbn [String.compare];
    try discriminate; try reflexivity.
  destruct (Ascii.compare x y) eqn:Exy; try discriminate.
  - apply Ascii.compare_eq_iff in Exy. subst y.
    destruct (Ascii.compare x z); try discriminate; [apply IH|reflexivity].
  - intros _. destruct (Ascii.compare y z) eqn:Eyz; try discriminate.
    + apply Ascii.compare_eq_iff in Eyz. subst z. rewrite Exy. reflexivity.
    + rewrite (ascii_compare_lt_trans x y z Exy Eyz). reflexivity.
Qed.

Lemma string_compare_gt (s t : string) : String.compare s t = Gt <-> String.compare t s = Lt.
Proof.
  rewrite (String.compare_antisym t s). destruct (String.compare s t); cbn; split; congruence.
Qed.

Lemma digit_compare (a b : Z) :
  0 <= a <= 9 -> 0 <= b <= 9 -> Ascii.compare (py.digit a) (py.digit b) = (a ?= b).
Proof.
  intros Ha Hb.
  assert (Ha' : a = 0 \/ a = 1 \/ a = 2 \/ a = 3 \/ a = 4 \/ a = 5 \/ a = 6 \/ a = 7
                \/ a = 8 \/ a = 9) by lia.
  assert (Hb' : b = 0 \/ b = 1 \/ b = 2 \/ b = 3 \/ b = 4 \/ b = 5 \/ b = 6 \/ b = 7
                \/ b = 8 \/ b = 9) by lia.
  repeat (destruct Ha' as [->|Ha']; [repeat (destruct Hb' as [->|Hb']; [reflexivity|]);
                                     subst; reflexivity|]).
  subst a. repeat (destruct Hb' as [->|Hb']; [reflexivity|]). subst. reflexivity.
Qed.

Lemma zfill_compare (w : nat) :
  forall (x y : Z) (s t : string),
    0 <= x < 10 ^ Z.of_nat w -> 0 <= y < 10 ^ Z.of_nat w ->
    String.compare (py.zfill w x ++ s) (py.zfill w y ++ t)
    = match x ?= y with
      | Eq => String.compare s t
      | c => c
      end.
Proof.
  induction w as [|w IH]; intros x y s t Hx Hy.
  - cbn in Hx, Hy. replace x with 0 by lia. replace y with 0 by lia. reflexivity.
  - rewrite Nat2Z.inj_succ, Z.pow_succ_r in Hx, Hy by lia.
    cbn [py.zfill]. set (p := 10 ^ Z.of_nat w) in *.
    assert (Hp : 0 < p) by (unfold p; apply Z.pow_pos_nonneg; lia).
    pose proof (Z.div_mod x p ltac:(lia)) as Hxe.
    pose proof (Z.div_mod y p ltac:(lia)) as Hye.
    pose proof (Z.mod_pos_bound x p Hp) as Hxr.
    pose proof (Z.mod_pos_bound y p Hp) as Hyr.
    assert (Hxq : 0 <= x / p <= 9) by (split; [apply Z.div_pos; lia|
      apply Z.lt_succ_r, Z.div_lt_upper_bound; lia]).
    assert (Hyq : 0 <= y / p <= 9) by (split; [apply Z.div_pos; lia|
      apply Z.lt_succ_r, Z.div_lt_upper_bound; lia]).
    cbn [append String.compare]. rewrite digit_compare by assumption.
    rewrite (IH (x mod p) (y mod p) s t Hxr Hyr).
    set (xq := x / p) in *. set (xr := x mod p) in *.
    set (yq := y / p) in *. set (yr := y mod p) in *.
    clearbody xq xr yq yr. subst x y.
    destruct (Z.compare_spec xq yq) as [E|E|E].
    + subst yq. destruct (Z.compare_spec xr yr) as [E|E|E].
      * subst. rewrite Z.compare_refl. reflexivity.
      * replace (p * xq + xr ?= p * xq + yr) with Lt
          by (symmetry; apply Z.compare_lt_iff; lia).
        reflexivity.
      * replace (p * xq + xr ?= p * xq + yr) with Gt
          by (symmetry; apply Z.compare_gt_iff; lia).
        reflexivity.
    + replace (p * xq + xr ?= p * yq + yr) with Lt
        by (symmetry; apply Z.compare_lt_iff; nia).
      reflexivity.
    + replace (p * xq + xr ?= p * yq + yr) with Gt
        by (symmetry; apply Z.compare_gt_iff; nia).
      reflexivity.
Qed.

(** ** The calendar *)

Lemma year_days_range y : 365 <= year_days y <= 366.
Proof. unfold year_days, days_before_year. cbv zeta. Z.div_mod_to_equations. lia. Qed.

Lemma days_before_year_mono y1 y2 : y1 <= y2 -> days_before_year y1 <= days_before_year y2.
Proof. unfold days_before_year. cbv zeta. intros H. Z.div_mod_to_equations. lia. Qed.

(** An ordinal is a day of its year: the days before the year, the day in
    the year and 1 make the ordinal, and month and day are those of the day
    in the year. *)
Lemma ord2ymd_year (d : Z) :
  1 <= d ->
  exists (leap : bool) (doy : Z),
    let '(y, m, dd) := datetime.ord2ymd d in
    1 <= y
    /\ days_before_year y + doy + 1 = d
    /\ 0 <= doy < year_days y
    /\ (leap = true <-> year_days y = 366)
    /\ (m, dd) = datetime.month_day leap doy.
Proof.
  intros Hd. unfold datetime.ord2ymd. cbv zeta.
  set (n400 := (d - 1) / 146097).
  set (r400 := (d - 1) mod 146097).
  set (n100 := r400 / 36524).
  set (r100 := r400 mod 36524).
  set (n4 := r100 / 1461).
  set (r4 := r100 mod 1461).
  set (n1 := r4 / 365).
  set (r1 := r4 mod 365).
  assert (H400 : d - 1 = 146097 * n400 + r400 /\ 0 <= r400 < 146097 /\ 0 <= n400)
    by (unfold n400, r400; Z.div_mod_to_equations; lia).
  assert (H100 : r400 = 36524 * n100 + r100 /\ 0 <= r100 < 36524 /\ 0 <= n100 <= 4)
    by (unfold n100, r100; Z.div_mod_to_equations; lia).
  assert (H4 : r100 = 1461 * n4 + r4 /\ 0 <= r4 < 1461 /\ 0 <= n4 <= 24)
    by (unfold n4, r4; Z.div_mod_to_equations; lia).
  assert (H1 : r4 = 365 * n1 + r1 /\ 0 <= r1 < 365 /\ 0 <= n1 <= 4)
    by (unfold n1, r1; Z.div_mod_to_equations; lia).
  clearbody n400 r400 n100 r100 n4 r4 n1 r1.
  destruct (Z.eqb_spec n1 4) as [E1|E1]; cbn [orb].
  - exists true, 365. unfold year_days, days_before_year. cbv zeta.
    split; [lia|]. split; [Z.div_mod_to_equations; lia|].
    split; [Z.div_mod_to_equations; lia|].
    split; [|reflexivity]. split; [intros _; Z.div_mod_to_equations; lia|reflexivity].
  - destruct (Z.eqb_spec n100 4) as [E100|E100].
    + exists true, 365. unfold year_days, days_before_year. cbv zeta.
      split; [lia|]. split; [Z.div_mod_to_equations; lia|].
      split; [Z.div_mod_to_equations; lia|].
      split; [|reflexivity]. split; [intros _; Z.div_mod_to_equations; lia|reflexivity].
    + exists ((n1 =? 3) && (negb (n4 =? 24) || (n100 =? 3))), r1.
      unfold year_days, days_before_year. cbv zeta.
      split; [lia|]. split; [Z.div_mod_to_equations; lia|].
      split; [Z.div_mod_to_equations; lia|].
      split; [|destruct (datetime.month_day _ r1); reflexivity].
      destruct (Z.eqb_spec n1 3), (Z.eqb_spec n4 24), (Z.eqb_spec n100 3); cbn;
        (split; [intros H; try discriminate H|intros H; try reflexivity; exfalso; revert H]);
        Z.div_mod_to_equations; lia.
Qed.

Lemma md_check_spec (leap : bool) (fuel : nat) :
  forall n, md_check leap fuel n = true ->
  forall k, 0 <= k <= Z.of_nat fuel ->
    md_in_range (datetime.month_day leap (n + k)) = true
    /\ (k < Z.of_nat fuel ->
        md_ltb (datetime.month_day leap (n + k)) (datetime.month_day leap (n + k + 1)) = true).
Proof.
  induction fuel as [|fuel IH]; intros n Hc k Hk.
  - replace k with 0 by lia. rewrite Z.add_0_r. split; [exact Hc|lia].
  - cbn [md_check] in Hc. apply andb_true_iff in Hc as [Hc Hrest].
    apply andb_true_iff in Hc as [Hr Hlt].
    destruct (Z.eq_dec k 0) as [->|Hk0].
    + rewrite Z.add_0_r. split; [exact Hr|intros _; exact Hlt].
    + destruct (IH (n + 1) Hrest (k - 1) ltac:(lia)) as [H1 H2].
      replace (n + 1 + (k - 1)) with (n + k) in * by lia.
      split; [exact H1|]. intros Hlt'. apply H2. lia.
Qed.

Lemma md_ltb_lt (a b : Z * Z) : md_ltb a b = true -> md_lt a b.
Proof.
  unfold md_ltb, md_lt. rewrite orb_true_iff, andb_true_iff, !Z.ltb_lt, Z.eqb_eq. tauto.
Qed.

Lemma md_lt_trans (a b c : Z * Z) : md_lt a b -> md_lt b c -> md_lt a c.
Proof. unfold md_lt. lia. Qed.

Lemma month_day_facts (leap : bool) (a : Z) :
  0 <= a <= (if leap then 365 else 364) ->
  md_in_range (datetime.month_day leap a) = true
  /\ (a < (if leap then 365 else 364) ->
      md_lt (datetime.month_day leap a) (datetime.month_day leap (a + 1))).
Proof.
  intros Ha.
  assert (Hc : md_check leap (if leap then 365 else 364) 0 = true)
    by (destruct leap; vm_compute; reflexivity).
  destruct (md_check_spec leap _ 0 Hc a) as [H1 H2].
  - destruct leap; cbn; lia.
  - cbn [Z.add] in *. split; [exact H1|].
    intros Hlt. apply md_ltb_lt. apply H2. destruct leap; cbn; lia.
Qed.

Lemma month_day_mono (leap : bool) (a b : Z) :
  0 <= a -> a < b -> b <= (if leap then 365 else 364) ->
  md_lt (datetime.month_day leap a) (datetime.month_day leap b).
Proof.
  intros Ha Hab Hb.
  remember (Z.to_nat (b - a - 1)) as gap eqn:Hgap.
  revert b Hab Hb Hgap. induction gap as [|gap IH]; intros b Hab Hb Hgap.
  - replace b with (a + 1) by lia. apply month_day_facts; lia.
  - apply md_lt_trans with (datetime.month_day leap (b - 1)).
    + apply IH; lia.
    + replace b with (b - 1 + 1) at 2 by lia. apply month_day_facts; lia.
Qed.

Lemma ord2ymd_mono (d1 d2 : Z) :
  1 <= d1 -> d1 < d2 -> ymd_lt (datetime.ord2ymd d1) (datetime.ord2ymd d2).
Proof.
  intros H1 H12.
  destruct (ord2ymd_year d1 H1) as (leap1 & doy1 & Hy1).
  destruct (ord2ymd_year d2 ltac:(lia)) as (leap2 & doy2 & Hy2).
  destruct (datetime.ord2ymd d1) as [[y1 m1] dd1], (datetime.ord2ymd d2) as [[y2 m2] dd2].
  destruct Hy1 as (Hpos1 & Hd1 & Hdoy1 & Hleap1 & Hmd1).
  destruct Hy2 as (Hpos2 & Hd2 & Hdoy2 & Hleap2 & Hmd2).
  unfold ymd_lt. cbn [fst snd].
  destruct (Z.lt_trichotomy y1 y2) as [Hlt|[Heq|Hgt]].
  - left. exact Hlt.
  - right. split; [exact Heq|]. subst y2.
    assert (leap1 = leap2).
    { destruct leap1, leap2; try reflexivity.
      - destruct Hleap1 as [Hl _], Hleap2 as [_ Hr]. symmetry. apply Hr, Hl. reflexivity.
      - destruct Hleap1 as [_ Hl], Hleap2 as [Hr _]. apply Hl, Hr. reflexivity. }
    subst leap2.
    pose proof (year_days_range y1) as Hlen.
    assert (Hb : doy2 <= (if leap1 then 365 else 364)).
    { destruct leap1.
      - lia.
      - assert (year_days y1 <> 366) by (intros E; apply Hleap1 in E; discriminate). lia. }
    pose proof (month_day_mono leap1 doy1 doy2 ltac:(lia) ltac:(lia) Hb) as Hmd.
    rewrite <- Hmd1, <- Hmd2 in Hmd. exact Hmd.
  - exfalso.
    pose proof (days_before_year_mono (y2 + 1) y1 ltac:(lia)) as Hmono.
    unfold year_days in Hdoy2. lia.
Qed.

Lemma ord2ymd_range (d : Z) :
  1 <= d <= 3652059 ->
  let '(y, m, dd) := datetime.ord2ymd d in
  1 <= y <= 9999 /\ 1 <= m <= 12 /\ 1 <= dd <= 31.
Proof.
  intros [Hlo Hhi].
  destruct (ord2ymd_year d Hlo) as (leap & doy & Hy).
  destruct (datetime.ord2ymd d) as [[y m] dd].
  destruct Hy as (Hpos & Hd & Hdoy & Hleap & Hmd).
  pose proof (year_days_range y) as Hlen.
  assert (Hb : doy <= (if leap then 365 else 364)).
  { destruct leap.
    - lia.
    - assert (year_days y <> 366) by (intros E; apply Hleap in E; discriminate). lia. }
  destruct (month_day_facts leap doy ltac:(lia)) as [Hr _].
  rewrite <- Hmd in Hr. unfold md_in_range in Hr. cbn [fst snd] in Hr.
  rewrite !andb_true_iff, !Z.leb_le in Hr.
  split; [|lia]. split; [exact Hpos|].
  destruct (Z_le_gt_dec y 9999) as [Hle|Hgt]; [exact Hle|exfalso].
  pose proof (days_before_year_mono 10000 y ltac:(lia)) as Hmono.
  change (days_before_year 10000) with 3652059 in Hmono. lia.
Qed.

(** ** ISO strings in order *)

Ltac zcases :=
  repeat match goal with
    | |- context [?a =? ?b] => destruct (Z.eqb_spec a b)
    | |- context [?a <? ?b] => destruct (Z.ltb_spec a b)
    | |- context [?a <=? ?b] => destruct (Z.leb_spec a b)
    end.

Lemma append_nil_r (s : string) : s ++ EmptyString = s.
Proof. induction s as [|c s IH]; [reflexivity|]. cbn [append]. rewrite IH. reflexivity. Qed.

Lemma string_compare_cons (c : ascii) (s t : string) :
  String.compare (String c s) (String c t) = String.compare s t.
Proof. cbn [String.compare]. rewrite ascii_compare_refl. reflexivity. Qed.

Lemma string_ltb_leb (a b : string) : String.ltb b a = negb (String.leb a b).
Proof.
  unfold String.ltb, String.leb. rewrite (String.compare_antisym b a).
  destruct (String.compare a b); reflexivity.
Qed.

Lemma ymd_compare_lt (a b : Z * Z * Z) : ymd_lt a b -> ymd_compare a b = Lt.
Proof.
  unfold ymd_lt, ymd_compare. intros [H|[-> [H|[-> H]]]].
  - apply Z.compare_lt_iff in H. rewrite H. reflexivity.
  - apply Z.compare_lt_iff in H. rewrite Z.compare_refl, H. reflexivity.
  - rewrite !Z.compare_refl. apply Z.compare_lt_iff. exact H.
Qed.

Lemma ymd_compare_gt (a b : Z * Z * Z) : ymd_lt b a -> ymd_compare a b = Gt.
Proof.
  unfold ymd_lt, ymd_compare. intros [H|[<- [H|[<- H]]]].
  - apply Z.compare_gt_iff in H. rewrite H. reflexivity.
  - apply Z.compare_gt_iff in H. rewrite Z.compare_refl, H. reflexivity.
  - rewrite !Z.compare_refl. apply Z.compare_gt_iff. exact H.
Qed.

(** Year, month and day order the dates as their ordinals do. *)
Lemma ord2ymd_compare (d1 d2 : datetime.date) :
  1 <= d1 -> 1 <= d2 ->
  ymd_compare (datetime.ord2ymd d1) (datetime.ord2ymd d2) = (d1 ?= d2).
Proof.
  intros H1 H2. destruct (Z.compare_spec d1 d2) as [->|Hlt|Hgt].
  - unfold ymd_compare. rewrite !Z.compare_refl. reflexivity.
  - apply ymd_compare_lt, ord2ymd_mono; assumption.
  - apply ymd_compare_gt, ord2ymd_mono; assumption.
Qed.

(** The ISO strings of two dates compare as the dates. *)
Lemma isoformat_date_compare (d1 d2 : datetime.date) :
  datetime.valid_date d1 -> datetime.valid_date d2 ->
  String.compare (datetime.isoformat_date d1) (datetime.isoformat_date d2) = (d1 ?= d2).
Proof.
  intros V1 V2.
  pose proof (ord2ymd_compare d1 d2 (proj1 V1) (proj1 V2)) as Hc.
  pose proof (ord2ymd_range d1 V1) as R1. pose proof (ord2ymd_range d2 V2) as R2.
  unfold datetime.isoformat_date, datetime.year, datetime.month, datetime.day.
  destruct (datetime.ord2ymd d1) as [[y1 m1] dd1], (datetime.ord2ymd d2) as [[y2 m2] dd2].
  cbn [fst snd]. rewrite <- Hc. unfold ymd_compare. cbn [fst snd].
  rewrite zfill_compare by (change (10 ^ Z.of_nat 4) with 10000; lia).
  cbn [append]. rewrite string_compare_cons.
  rewrite zfill_compare by (change (10 ^ Z.of_nat 2) with 100; lia).
  cbn [append]. rewrite string_compare_cons.
  rewrite <- (append_nil_r (py.zfill 2 dd1)), <- (append_nil_r (py.zfill 2 dd2)).
  rewrite zfill_compare by (change (10 ^ Z.of_nat 2) with 100; lia).
  destruct (y1 ?= y2), (m1 ?= m2), (dd1 ?= dd2); reflexivity.
Qed.

(** The ISO strings of two naive times compare as the times. *)
Lemma isoformat_time_leb (t1 t2 : datetime.time) :
  datetime.valid_time t1 -> datetime.valid_time t2 ->
  String.leb (datetime.isoformat_time t1) (datetime.isoformat_time t2)
  = datetime.time_leb t1 t2.
Proof.
  intros (Hh1 & Hm1 & Hs1 & Hu1) (Hh2 & Hm2 & Hs2 & Hu2).
  unfold String.leb, datetime.isoformat_time, datetime.time_leb.
  destruct t1 as [h1 m1 s1 u1], t2 as [h2 m2 s2 u2].
  cbn [datetime.hour datetime.minute datetime.second datetime.microsecond] in *.
  set (x1 := if u1 =? 0 then EmptyString else "." ++ py.zfill 6 u1).
  set (x2 := if u2 =? 0 then EmptyString else "." ++ py.zfill 6 u2).
  assert (Hu : String.compare x1 x2 = (u1 ?= u2)).
  { unfold x1, x2.
    destruct (Z.eqb_spec u1 0) as [->|N1], (Z.eqb_spec u2 0) as [->|N2].
    - reflexivity.
    - cbn [append String.compare]. symmetry. apply Z.compare_lt_iff. lia.
    - cbn [append String.compare]. symmetry. apply Z.compare_gt_iff. lia.
    - cbn [append]. rewrite string_compare_cons.
      rewrite <- (append_nil_r (py.zfill 6 u1)), <- (append_nil_r (py.zfill 6 u2)).
      rewrite zfill_compare by (change (10 ^ Z.of_nat 6) with 1000000; lia).
      destruct (u1 ?= u2); reflexivity. }
  clearbody x1 x2.
  rewrite zfill_compare by (change (10 ^ Z.of_nat 2) with 100; lia).
  cbn [append]. rewrite string_compare_cons.
  rewrite zfill_compare by (change (10 ^ Z.of_nat 2) with 100; lia).
  cbn [append]. rewrite string_compare_cons.
  rewrite zfill_compare by (change (10 ^ Z.of_nat 2) with 100; lia).
  rewrite Hu.
  destruct (Z.compare_spec h1 h2), (Z.compare_spec m1 m2), (Z.compare_spec s1 s2),
    (Z.compare_spec u1 u2); zcases; try reflexivity; lia.
Qed.

(** The order of the sort keys is the order of (date, time). *)
Lemma key_leb_isoformat (d1 d2 : datetime.date) (t1 t2 : datetime.time) :
  datetime.valid_date d1 -> datetime.valid_date d2 ->
  datetime.valid_time t1 -> datetime.valid_time t2 ->
  key_leb (datetime.isoformat_date d1, datetime.isoformat_time t1)
          (datetime.isoformat_date d2, datetime.isoformat_time t2) = true
  <-> d1 < d2 \/ (d1 = d2 /\ datetime.time_leb t1 t2 = true).
Proof.
  intros Vd1 Vd2 Vt1 Vt2. unfold key_leb, tuple_ltb. cbn [fst snd].
  rewrite (isoformat_date_compare d2 d1 Vd2 Vd1), string_ltb_leb,
    (isoformat_time_leb t1 t2 Vt1 Vt2).
  destruct (Z.compare_spec d2 d1) as [->|H|H]; cbn [negb].
  - rewrite negb_involutive. intuition lia.
  - split; [discriminate|]. intros [H'|[H' _]]; lia.
  - split; [intros _; left; exact H|reflexivity].
Qed.

Lemma tuple_ltb_asym (a b : string * string) : tuple_ltb a b = true -> tuple_ltb b a = false.
Proof.
  unfold tuple_ltb, String.ltb. rewrite (String.compare_antisym (fst a) (fst b)).
  rewrite (String.compare_antisym (snd a) (snd b)).
  destruct (String.compare (fst b) (fst a)); cbn; try discriminate; try reflexivity.
  destruct (String.compare (snd b) (snd a)); cbn; try discriminate; reflexivity.
Qed.

Lemma string_leb_trans (a b c : string) :
  String.ltb b a = false -> String.ltb c b = false -> String.ltb c a = false.
Proof.
  unfold String.ltb. intros Hba Hcb.
  destruct (String.compare c a) eqn:Hca; try reflexivity. exfalso.
  destruct (String.compare b a) eqn:E1; try discriminate.
  - apply String.compare_eq_iff in E1. subst b. rewrite Hca in Hcb. discriminate.
  - apply string_compare_gt in E1.
    destruct (String.compare c b) eqn:E2; try discriminate.
    + apply String.compare_eq_iff in E2. subst c.
      rewrite (String.compare_antisym b a), E1 in Hca. discriminate.
    + apply string_compare_gt in E2.
      pose proof (string_compare_lt_trans _ _ _ E1 E2) as H.
      rewrite (String.compare_antisym c a), H in Hca. discriminate.
Qed.

Lemma event_leb_total (a b : bookable_event) :
  event_leb a b = false -> event_leb b a = true.
Proof.
  unfold event_leb, key_leb. rewrite negb_false_iff, negb_true_iff. apply tuple_ltb_asym.
Qed.

Lemma event_leb_trans (a b c : bookable_event) :
  event_leb a b = true -> event_leb b c = true -> event_leb a c = true.
Proof.
  unfold event_leb, key_leb. rewrite !negb_true_iff.
  destruct (sort_key a) as [a1 a2], (sort_key b) as [b1 b2], (sort_key c) as [c1 c2].
  unfold tuple_ltb. cbn [fst snd]. intros Hba Hcb.
  destruct (String.compare b1 a1) eqn:E1; try discriminate.
  - apply String.compare_eq_iff in E1. subst b1.
    destruct (String.compare c1 a1) eqn:E2; try discriminate; [|reflexivity].
    eapply string_leb_trans; eassumption.
  - apply string_compare_gt in E1.
    destruct (String.compare c1 b1) eqn:E2; try discriminate.
    + apply String.compare_eq_iff in E2. subst c1.
      rewrite (String.compare_antisym b1 a1), E1. reflexivity.
    + apply string_compare_gt in E2.
      rewrite (String.compare_antisym c1 a1), (string_compare_lt_trans _ _ _ E1 E2).
      reflexivity.
Qed.

(** ** The eight Sundays *)

Lemma weekday_range (d : datetime.date) : 0 <= datetime.weekday d <= 6.
Proof. unfold datetime.weekday. pose proof (Z.mod_pos_bound (d + 6) 7). lia. Qed.

Lemma weekday_succ (d : datetime.date) :
  datetime.weekday d <> 6 -> datetime.weekday (d + 1) = datetime.weekday d + 1.
Proof. unfold datetime.weekday. intros H. Z.div_mod_to_equations. lia. Qed.

Lemma weekday_after_sunday (d : datetime.date) :
  datetime.weekday d = 6 -> datetime.weekday (d + 1) = 0.
Proof. unfold datetime.weekday. intros H. Z.div_mod_to_equations. lia. Qed.

Lemma next_sundays_spec (today d : datetime.date) :
  In d (next_sundays today) <-> datetime.weekday d = 6 /\ today <= d < today + 56.
Proof.
  unfold next_sundays, first_sunday. rewrite in_map_iff. split.
  - intros (k & <- & Hk). apply in_seq in Hk.
    unfold datetime.weekday. Z.div_mod_to_equations. lia.
  - intros [Hw Hd]. exists (Z.to_nat ((d - today) / 7)). split.
    + unfold datetime.weekday in *. rewrite Z2Nat.id by (Z.div_mod_to_equations; lia).
      Z.div_mod_to_equations. lia.
    + apply in_seq. Z.div_mod_to_equations. lia.
Qed.

Lemma add_days_in_range (today off : Z) :
  1 <= today + off <= datetime.MAXORDINAL ->
  datetime.add_days today off = Some (today + off).
Proof.
  intros H. unfold datetime.add_days. cbv zeta.
  destruct (Z.leb_spec 1 (today + off)); [|lia].
  destruct (Z.leb_spec (today + off) datetime.MAXORDINAL); [reflexivity|lia].
Qed.

Lemma sundays_loop_step (fuel : nat) (today sundays_found day_offset : Z)
  (events : list bookable_event) :
  sundays_found < 8 ->
  1 <= today + day_offset <= datetime.MAXORDINAL ->
  sundays_loop (S fuel) today sundays_found day_offset events
  = if datetime.weekday (today + day_offset) =? 6
    then sundays_loop fuel today (sundays_found + 1) (day_offset + 1)
                      (events ++ [brunch_entry (today + day_offset)])
    else sundays_loop fuel today sundays_found (day_offset + 1) events.
Proof.
  intros Hk Hrange. cbn [sundays_loop].
  destruct (Z.ltb_spec sundays_found 8); [|lia].
  rewrite add_days_in_range by exact Hrange. reflexivity.
Qed.

Lemma sundays_loop_done (fuel : nat) (today day_offset : Z)
  (events : list bookable_event) :
  sundays_loop fuel today 8 day_offset events = Some (Return events).
Proof. destruct fuel; reflexivity. Qed.

(** From any day of the week the loop walks to the next Sunday and adds its
    brunch. *)
Lemma sundays_loop_to_sunday (m : nat) :
  forall (fuel : nat) (today sundays_found day_offset : Z) (events : list bookable_event),
    sundays_found < 8 ->
    1 <= today + day_offset ->
    today + day_offset + Z.of_nat m <= datetime.MAXORDINAL ->
    datetime.weekday (today + day_offset) = 6 - Z.of_nat m ->
    sundays_loop (S m + fuel) today sundays_found day_offset events
    = sundays_loop fuel today (sundays_found + 1) (day_offset + Z.of_nat m + 1)
        (events ++ [brunch_entry (today + day_offset + Z.of_nat m)]).
Proof.
  induction m as [|m IH]; intros fuel today k off events Hk Hlo Hhi Hw.
  - change (1 + fuel)%nat with (S fuel). rewrite sundays_loop_step by lia.
    rewrite Hw. cbn [Z.of_nat Z.sub Z.eqb Z.opp Z.add Pos.eqb].
    replace (off + 0 + 1) with (off + 1) by lia.
    replace (today + off + 0) with (today + off) by lia. reflexivity.
  - change (S (S m) + fuel)%nat with (S (S m + fuel)).
    rewrite sundays_loop_step by lia.
    destruct (Z.eqb_spec (datetime.weekday (today + off)) 6) as [E|E]; [lia|].
    rewrite (IH fuel today k (off + 1) events Hk) by
      (try lia; replace (today + (off + 1)) with (today + off + 1) by lia;
       rewrite weekday_succ by exact E; lia).
    f_equal; [lia|]. do 3 f_equal. lia.
Qed.

Lemma weekday_next_week (d : datetime.date) :
  datetime.weekday (d + 7) = datetime.weekday d.
Proof. unfold datetime.weekday. Z.div_mod_to_equations. lia. Qed.

Lemma weekday_first_sunday (today : datetime.date) :
  datetime.weekday (first_sunday today) = 6.
Proof. unfold first_sunday, datetime.weekday. Z.div_mod_to_equations. lia. Qed.

(** From a Monday the loop adds the brunches of the Sundays it still looks
    for, one a week. *)
Lemma sundays_loop_weeks (n : nat) :
  forall (fuel : nat) (today sundays_found day_offset : Z) (events : list bookable_event),
    sundays_found = 8 - Z.of_nat n ->
    datetime.weekday (today + day_offset) = 0 ->
    1 <= today + day_offset ->
    today + day_offset + 7 * Z.of_nat n <= datetime.MAXORDINAL + 1 ->
    sundays_loop (7 * n + fuel) today sundays_found day_offset events
    = Some (Return
        (events ++ map brunch_entry
                     (map (fun i => today + day_offset + 6 + 7 * Z.of_nat i) (seq 0 n)))%list).
Proof.
  induction n as [|n IH]; intros fuel today k off events Hk Hw Hlo Hhi.
  - replace k with 8 by lia. rewrite sundays_loop_done. cbn [seq map].
    rewrite app_nil_r. reflexivity.
  - replace (7 * S n + fuel)%nat with (6 + 1 + (7 * n + fuel))%nat by lia.
    rewrite (sundays_loop_to_sunday 6) by (rewrite ?Hw; lia).
    rewrite IH; try lia.
    + rewrite <- app_assoc. do 3 f_equal. cbn [seq map app].
      f_equal; [f_equal; lia|]. rewrite <- seq_shift, !map_map.
      apply map_ext. intros i. f_equal. lia.
    + replace (today + (off + Z.of_nat 6 + 1)) with (today + off + 7) by lia.
      rewrite weekday_next_week. exact Hw.
Qed.

(** With fuel for 56 days the loop ends and has added the brunches of the
    eight Sundays, in order. *)
Lemma sundays_loop_spec (fuel : nat) (today : datetime.date) (events : list bookable_event) :
  (56 <= fuel)%nat ->
  1 <= today ->
  first_sunday today + 49 <= datetime.MAXORDINAL ->
  sundays_loop fuel today 0 0 events
  = Some (Return (events ++ map brunch_entry (next_sundays today))%list).
Proof.
  intros Hfuel Hlo Hhi.
  pose proof (weekday_range today) as Hw.
  pose proof (weekday_first_sunday today) as Hsun.
  unfold first_sunday in Hhi, Hsun.
  set (m := Z.to_nat (6 - datetime.weekday today)).
  assert (Hm : Z.of_nat m = 6 - datetime.weekday today) by (unfold m; lia).
  clearbody m.
  replace fuel with (S m + (7 * 7 + (fuel - 50 - m)))%nat by lia.
  rewrite sundays_loop_to_sunday by (rewrite ?Z.add_0_r; lia).
  rewrite (sundays_loop_weeks 7); try lia.
  - rewrite <- app_assoc. do 3 f_equal. unfold next_sundays, first_sunday.
    cbn [seq map app]. rewrite Hm. repeat (f_equal; try lia).
  - replace (today + (0 + Z.of_nat m + 1))
      with (today + (6 - datetime.weekday today) + 1) by lia.
    apply weekday_after_sunday. exact Hsun.
Qed.

(** On the last day of the calendar, a Friday, the loop leaves the range of
    [date] before it has found a Sunday. *)
Lemma get_bookable_events_last_day (fuel : nat) (db : Db) :
  get_bookable_events (2 + fuel) datetime.MAXORDINAL db = Some (Raise OverflowError).
Proof. reflexivity. Qed.

(** ** The event catalog *)

(** C4: for a current date whose eighth Sunday is still a date of the
    calendar, the catalog is computed and holds, and holds only, one entry
    for each stored special event dated today or later, with the id of the
    event, its name followed by its day and month as label, its date and its
    time if it has one, and one brunch entry for each of the eight next
    Sundays, today included: the Sundays of the 56 days that start today,
    each with the slots 12:00 and 13:30 and no id.  The list is in ascending
    order of the sort keys, the ISO strings of date and time: a brunch entry
    has the key of its first slot, a special event without a time the key of
    midnight, and the keys are in the order of (date, time). *)
Theorem get_bookable_events_spec (fuel : nat) (today : datetime.date) (db : Db) :
  (56 <= fuel)%nat ->
  datetime.valid_date today ->
  datetime.valid_date (first_sunday today + 49) ->
  exists events,
    get_bookable_events fuel today db = Some (Return events)
    /\ Permutation events
         (map (fun ev =>
                 mk_event special
                   (Some (models.SpecialEvent.id ev))
                   (models.SpecialEvent.display_name ev ++ " - "
                      ++ datetime.strftime_dm (models.SpecialEvent.booking_date ev))
                   (datetime.isoformat_date (models.SpecialEvent.booking_date ev))
                   (option_map datetime.isoformat_time (models.SpecialEvent.booking_time ev))
                   None)
              (List.filter (fun ev => today <=? models.SpecialEvent.booking_date ev)
                           (special_events db))
          ++ map (fun d =>
                    mk_event brunch None ("Brunch - " ++ datetime.strftime_dm d)
                      (datetime.isoformat_date d) None (Some ["12:00:00"; "13:30:00"]))
                 (next_sundays today))%list
    /\ StronglySorted (fun a b => key_leb (sort_key a) (sort_key b) = true) events
    /\ List.length (next_sundays today) = 8%nat
    /\ (forall d, In d (next_sundays today) <->
                  datetime.weekday d = 6 /\ today <= d < today + 56)
    /\ (forall d,
          sort_key (mk_event brunch None ("Brunch - " ++ datetime.strftime_dm d)
                      (datetime.isoformat_date d) None (Some ["12:00:00"; "13:30:00"]))
          = (datetime.isoformat_date d, datetime.isoformat_time (datetime.time_hm 12 0)))
    /\ (forall id label d t,
          sort_key (mk_event special id label (datetime.isoformat_date d)
                      (option_map datetime.isoformat_time t) None)
          = (datetime.isoformat_date d,
             datetime.isoformat_time
               match t with
               | Some t => t
               | None => datetime.time_hm 0 0
               end))
    /\ (forall d1 t1 d2 t2,
          datetime.valid_date d1 -> datetime.valid_date d2 ->
          datetime.valid_time t1 -> datetime.valid_time t2 ->
          (key_leb (datetime.isoformat_date d1, datetime.isoformat_time t1)
                   (datetime.isoformat_date d2, datetime.isoformat_time t2) = true
           <-> d1 < d2 \/ (d1 = d2 /\ datetime.time_leb t1 t2 = true))).
Proof.
  intros Hfuel [Hlo _] [_ Hhi].
  exists (stable_sort event_leb
            (special_entries today (special_events db)
             ++ map brunch_entry (next_sundays today))%list).
  split; [|split; [|split; [|split; [|split; [|split; [|split]]]]]].
  - unfold get_bookable_events. rewrite sundays_loop_spec by assumption. reflexivity.
  - apply stable_sort_Permutation.
  - apply Sorted_StronglySorted.
    + intros a b c. apply event_leb_trans.
    + apply (stable_sort_Sorted event_leb event_leb_total).
  - reflexivity.
  - apply next_sundays_spec.
  - intros d. reflexivity.
  - intros id label d t. unfold sort_key. cbn [booking_time booking_date type].
    destruct t; reflexivity.
  - intros d1 t1 d2 t2. apply key_leb_isoformat.
Qed.

(** ** The handlers keep the table constraints *)

Lemma create_booking_wf (booking : schemas.BookingCreate.t) (token : string) (db : Db) :
  wf_db db -> wf_db (snd (create_booking booking token db)).
Proof.
  intros Hwf. unfold create_booking.
  destruct (duplicate_query booking db); [|exact Hwf].
  destruct (booked_guests_and_context booking db) as [booked context].
  destruct (booked + schemas.BookingCreate.guests booking >? MAX_GUESTS); [exact Hwf|].
  set (row := new_booking booking (bookings_id_seq db + 1) token).
  unfold insert_booking.
  destruct (booking_has_nul row); [exact Hwf|].
  destruct (booking_in_range row); cbn [negb]; [|exact Hwf].
  destruct Hwf as [Hids Hemails Htokens Hevids Hforeign Hbseq Heseq].
  destruct (booking_constraints db row) eqn:Hins;
    [|cbn [snd]; constructor;
      cbn [bookings special_events bookings_id_seq special_events_id_seq];
      try assumption; intros b Hb; specialize (Hbseq b Hb); lia].
  unfold booking_constraints in Hins.
  rewrite !andb_true_iff, !negb_true_iff in Hins.
  destruct Hins as [[[Hid Hemail] Htoken] Hfk].
  cbn [snd]. constructor; cbn [bookings special_events bookings_id_seq special_events_id_seq].
  - apply NoDup_map_snoc; [exact Hids|].
    exact (existsb_key_false models.Booking.id Z.eqb Z.eqb_eq _ _ Hid).
  - apply NoDup_map_snoc; [exact Hemails|].
    exact (existsb_key_false models.Booking.email String.eqb string_eqb_eq _ _ Hemail).
  - apply NoDup_map_snoc; [exact Htokens|].
    exact (existsb_key_false models.Booking.cancellation_token String.eqb
             string_eqb_eq _ _ Htoken).
  - exact Hevids.
  - intros b e Hb He. apply in_app_or in Hb as [Hb|[<-|[]]].
    + exact (Hforeign b e Hb He).
    + rewrite He in Hfk. apply existsb_exists in Hfk as (ev & Hev & Heq).
      exists ev. split; [exact Hev|]. apply Z.eqb_eq. exact Heq.
  - intros b Hb. apply in_app_or in Hb as [Hb|[<-|[]]].
    + specialize (Hbseq b Hb). lia.
    + cbn. lia.
  - exact Heseq.
Qed.

Lemma cancel_booking_wf (token : string) (db : Db) :
  wf_db db -> wf_db (snd (cancel_booking token db)).
Proof.
  intros Hwf. unfold cancel_booking.
  destruct (sql.where_ _ (bookings db)) as [|row rest]; [exact Hwf|].
  destruct Hwf as [Hids Hemails Htokens Hevids Hforeign Hbseq Heseq].
  cbn [snd]. unfold delete_booking.
  constructor; cbn [bookings special_events bookings_id_seq special_events_id_seq];
    try (apply NoDup_map_filter; assumption); try assumption.
  - intros b e Hb. apply filter_In in Hb as [Hb _]. exact (Hforeign b e Hb).
  - intros b Hb. apply filter_In in Hb as [Hb _]. exact (Hbseq b Hb).
Qed.

Lemma create_special_event_wf (ADMIN_PASSWORD : option string)
  (event : schemas.SpecialEventCreate.t) (credentials : HTTPBasicCredentials) (db : Db) :
  wf_db db -> wf_db (snd (create_special_event ADMIN_PASSWORD event credentials db)).
Proof.
  intros Hwf. unfold create_special_event.
  destruct (credentials_refused ADMIN_PASSWORD credentials); [exact Hwf|].
  set (row := new_special_event event (special_events_id_seq db + 1)).
  destruct (special_event_insertable db row) eqn:Hins; [|exact Hwf].
  unfold special_event_insertable in Hins. rewrite negb_true_iff in Hins.
  destruct Hwf as [Hids Hemails Htokens Hevids Hforeign Hbseq Heseq].
  cbn [snd]. constructor; cbn [bookings special_events bookings_id_seq special_events_id_seq];
    try assumption.
  - apply NoDup_map_snoc; [exact Hevids|].
    exact (existsb_key_false models.SpecialEvent.id Z.eqb Z.eqb_eq _ _ Hins).
  - intros b e Hb He. destruct (Hforeign b e Hb He) as (ev & Hev & Heq).
    exists ev. split; [apply in_or_app; left; exact Hev|exact Heq].
  - intros ev Hev. apply in_app_or in Hev as [Hev|[<-|[]]].
    + specialize (Heseq ev Hev). lia.
    + cbn. lia.
Qed.

Lemma delete_special_event_wf (ADMIN_PASSWORD : option string) (event_id : Z)
  (credentials : HTTPBasicCredentials) (db : Db) :
  wf_db db -> wf_db (snd (delete_special_event ADMIN_PASSWORD event_id credentials db)).
Proof.
  intros Hwf. unfold delete_special_event.
  destruct (credentials_refused ADMIN_PASSWORD credentials); [exact Hwf|].
  destruct (sql.where_ _ (special_events db)) as [|event rest] eqn:Hq; [exact Hwf|].
  destruct (where_id_In _ _ _ _ Hq) as [_ Heid].
  destruct Hwf as [Hids Hemails Htokens Hevids Hforeign Hbseq Heseq].
  cbn [snd]. unfold delete_where.
  constructor; cbn [bookings special_events bookings_id_seq special_events_id_seq];
    try (apply NoDup_map_filter; assumption).
  - intros b e Hb He. apply filter_In in Hb as [Hb Hkeep].
    destruct (Hforeign b e Hb He) as (ev & Hev & Heq).
    exists ev. split; [|exact Heq]. apply filter_In. split; [exact Hev|].
    rewrite He in Hkeep. cbn in Hkeep. rewrite Heid, Heq.
    destruct (e =? event_id); [discriminate|reflexivity].
  - intros b Hb. apply filter_In in Hb as [Hb _]. exact (Hbseq b Hb).
  - intros ev Hev. apply filter_In in Hev as [Hev _]. exact (Heseq ev Hev).
Qed.

(** ** States the handlers can reach *)

Lemma empty_db_wf : wf_db (mk_Db [] [] 0 0).
Proof.
  constructor; cbn.
  1-4: apply NoDup_nil.
  - intros b e [].
  - intros b [].
  - intros ev [].
Qed.

(** Every reachable state meets the table constraints. *)
Lemma reachable_wf (db : Db) : reachable db -> wf_db db.
Proof.
  induction 1.
  - exact empty_db_wf.
  - apply create_booking_wf. assumption.
  - apply cancel_booking_wf. assumption.
  - apply create_special_event_wf. assumption.
  - apply delete_special_event_wf. assumption.
Qed.

(** ** The duplicate check *)

Lemma sa_eq_true {A : Type} (eqb : A -> A -> bool)
  (eqb_eq : forall x y, eqb x y = true <-> x = y) (column value : option A) :
  sql.is_true (sql.sa_eq eqb column value) = true <-> column = value.
Proof.
  destruct column as [c|], value as [v|]; cbn; try (split; congruence).
  destruct (eqb c v) eqn:E.
  - apply eqb_eq in E. subst. tauto.
  - split; [discriminate|]. intros H. inversion H; subst.
    assert (eqb v v = true) by (apply eqb_eq; reflexivity). congruence.
Qed.

Lemma duplicate_query_In (booking : schemas.BookingCreate.t) (db : Db) (b : models.Booking.t) :
  In b (duplicate_query booking db) <-> In b (bookings db) /\ is_duplicate_of booking b.
Proof.
  unfold duplicate_query, is_duplicate_of.
  destruct (py.truthy_int (schemas.BookingCreate.event_id booking));
    unfold sql.where_; rewrite !filter_In; cbn [sql.is_true].
  - rewrite (sa_eq_true Z.eqb Z.eqb_eq).
    destruct (String.eqb_spec (models.Booking.email b) (schemas.BookingCreate.email booking));
      intuition congruence.
  - destruct (String.eqb_spec (models.Booking.email b) (schemas.BookingCreate.email booking));
      destruct (Z.eqb_spec (models.Booking.booking_date b)
                           (schemas.BookingCreate.booking_date booking));
      pose proof (sa_eq_true datetime.time_eqb time_eqb_eq
                    (models.Booking.booking_time b)
                    (schemas.BookingCreate.booking_time booking)) as Ht;
      destruct (sql.sa_eq datetime.time_eqb (models.Booking.booking_time b)
                          (schemas.BookingCreate.booking_time booking)) as [[|]|];
      cbn in *; intuition congruence.
Qed.

(** A request is refused as a duplicate, and nothing is stored, exactly when
    a stored booking makes it one. *)
Lemma create_booking_duplicate (booking : schemas.BookingCreate.t) (token : string) (db : Db) :
  ((exists b, In b (bookings db) /\ is_duplicate_of booking b) ->
   create_booking booking token db = (Raise (HTTPException 400 duplicate_detail), db))
  /\ ((forall b, In b (bookings db) -> ~ is_duplicate_of booking b) ->
      duplicate_query booking db = []).
Proof.
  split.
  - intros (b & Hb). apply duplicate_query_In in Hb.
    unfold create_booking. destruct (duplicate_query booking db); [destruct Hb|reflexivity].
  - intros Hnone. destruct (duplicate_query booking db) as [|b rest] eqn:E; [reflexivity|].
    assert (Hb : In b (duplicate_query booking db)) by (rewrite E; left; reflexivity).
    apply duplicate_query_In in Hb as [Hb Hdup]. destruct (Hnone b Hb Hdup).
Qed.

(** X2: The unique constraint on [email]: a request whose email is already
    stored is never stored, whatever event, date or time it asks for, and
    the two tables stay as they were. *)
Lemma stored_email_never_stored_again (booking : schemas.BookingCreate.t)
  (token : string) (db : Db) (b : models.Booking.t) :
  In b (bookings db) ->
  models.Booking.email b = schemas.BookingCreate.email booking ->
  bookings (snd (create_booking booking token db)) = bookings db
  /\ special_events (snd (create_booking booking token db)) = special_events db
  /\ forall row, fst (create_booking booking token db) <> Return row.
Proof.
  intros Hb Hemail.
  assert (Hnone : forall row, fst (create_booking booking token db) <> Return row).
  { intros stored. unfold create_booking.
    destruct (duplicate_query booking db); [|discriminate].
    destruct (booked_guests_and_context booking db) as [booked context].
    destruct (booked + schemas.BookingCreate.guests booking >? MAX_GUESTS); [discriminate|].
    set (row := new_booking booking (bookings_id_seq db + 1) token).
    assert (Hins : booking_insertable db row = false).
    { unfold booking_insertable, booking_constraints.
      assert (Hex : existsb (fun b0 => String.eqb (models.Booking.email b0)
                                                  (models.Booking.email row))
                            (bookings db) = true).
      { apply existsb_exists. exists b. split; [exact Hb|].
        cbn. apply String.eqb_eq. exact Hemail. }
      rewrite Hex. cbn [negb]. rewrite !andb_false_r. reflexivity. }
    destruct (insert_booking_refused row db Hins) as ((e & -> & _) & _). discriminate. }
  destruct (create_booking_tables booking token db Hnone) as [Hbookings Hevents].
  split; [exact Hbookings|]. split; [exact Hevents|exact Hnone].
Qed.

(** With the table constraints in force the row of a request is taken when
    its values fit the columns, its email and its token are new and its
    event, if any, is stored. *)
Lemma booking_insertable_wf (booking : schemas.BookingCreate.t) (token : string) (db : Db) :
  wf_db db ->
  booking_has_nul (new_booking booking (bookings_id_seq db + 1) token) = false ->
  booking_in_range (new_booking booking (bookings_id_seq db + 1) token) = true ->
  (forall b, In b (bookings db) ->
             models.Booking.email b <> schemas.BookingCreate.email booking) ->
  (forall b, In b (bookings db) -> models.Booking.cancellation_token b <> token) ->
  (forall e, schemas.BookingCreate.event_id booking = Some e ->
             exists ev, In ev (special_events db) /\ models.SpecialEvent.id ev = e) ->
  booking_insertable db (new_booking booking (bookings_id_seq db + 1) token) = true.
Proof.
  intros Hwf Hnul Hrange Hemail Htoken Hfk. unfold booking_insertable.
  rewrite Hnul, Hrange. cbn [negb andb]. unfold booking_constraints.
  assert (Hnot : forall f, (forall b, In b (bookings db) -> f b = false) ->
                           existsb f (bookings db) = false).
  { intros f Hf. destruct (existsb f (bookings db)) eqn:E; [|reflexivity].
    apply existsb_exists in E as (b & Hb & Hfb). rewrite (Hf b Hb) in Hfb. discriminate. }
  rewrite !Hnot; cbn [negb andb models.Booking.event_id new_booking].
  - destruct (schemas.BookingCreate.event_id booking) as [e|]; [|reflexivity].
    destruct (Hfk e eq_refl) as (ev & Hev & Heq). apply existsb_exists.
    exists ev. split; [exact Hev|apply Z.eqb_eq; exact Heq].
  - intros b Hb. cbn. apply String.eqb_neq. exact (Htoken b Hb).
  - intros b Hb. cbn. apply String.eqb_neq. exact (Hemail b Hb).
  - intros b Hb. cbn. apply Z.eqb_neq. pose proof (wf_bookings_seq db Hwf b Hb). lia.
Qed.

Ltac nodup := repeat (constructor; [cbn; intuition congruence|]); constructor.

Lemma jazz_db_wf : wf_db jazz_db.
Proof.
  constructor; cbn; try nodup.
  - intros b e [<-|[]] He. cbn in He. inversion He; subst.
    exists jazz_night. split; [left|]; reflexivity.
  - intros b [<-|[]]. cbn. lia.
  - intros ev [<-|[<-|[]]]; cbn; lia.
Qed.

Lemma dinner_db_wf : wf_db dinner_db.
Proof.
  constructor; cbn; try nodup.
  - intros b e [<-|[]] He. discriminate He.
  - intros b [<-|[]]. cbn. lia.
  - intros ev [].
Qed.

(** ** The two places where the code departs from its own rules *)

(** A stored booking without a time is in no capacity bucket: the
    comparison [NOT IN] is unknown on a NULL. *)
Lemma null_time_in_no_bucket (booking : schemas.BookingCreate.t) (b : models.Booking.t) :
  models.Booking.booking_time b = None -> in_bucket booking b = false.
Proof.
  intros H. unfold in_bucket. rewrite H.
  destruct (brunch_turn _); apply andb_false_r.
Qed.

(** The evening total of the code is the total of the specification less
    the guests of the bookings without a time. *)
Lemma evening_booked_guests (booking : schemas.BookingCreate.t) (db : Db) :
  brunch_turn (schemas.BookingCreate.booking_time booking) = None ->
  booked_guests booking db
  = sum_guests
      (List.filter
         (fun b => spec_evening_bucket (schemas.BookingCreate.booking_date booking) b
                   && match models.Booking.booking_time b with
                      | Some _ => true
                      | None => false
                      end)
         (bookings db)).
Proof.
  intros Hturn. rewrite booked_guests_bucket. f_equal. apply filter_map_ext.
  intros b. unfold in_bucket, spec_evening_bucket. rewrite Hturn.
  destruct (models.Booking.booking_time b);
    destruct (models.Booking.booking_date b =? schemas.BookingCreate.booking_date booking);
    cbn; rewrite ?andb_true_r; reflexivity.
Qed.

(** C1 at a failing input: Eva's booking of the jazz night, 20 guests and
    no time, is stored by [create_booking] itself.  Dario then asks for 10
    places at 20:30 on that date.  The bucket of his request, the evening of
    that date, holds Eva's 20 guests by the specification, and 20 + 10
    exceeds 25; the capacity query of the code counts 0, the request is
    stored, and the evening holds 30 guests. *)
Theorem capacity_check_misses_booking_without_time :
  create_booking eva_jazz_request "token-eva" (mk_Db [] [jazz_night; quiz_night] 0 2)
  = (Return eva_jazz, eva_db)
  /\ duplicate_query (dinner_request "Dario" "dario@example.com" 10) eva_db = []
  /\ sum_guests (List.filter (spec_bucket (dinner_request "Dario" "dario@example.com" 10))
                             (bookings eva_db)) = 20
  /\ 20 + schemas.BookingCreate.guests (dinner_request "Dario" "dario@example.com" 10) > 25
  /\ booked_guests (dinner_request "Dario" "dario@example.com" 10) eva_db = 0
  /\ create_booking (dinner_request "Dario" "dario@example.com" 10) "token-dario" eva_db
     = (Return (new_booking (dinner_request "Dario" "dario@example.com" 10) 2 "token-dario"),
        mk_Db [eva_jazz; new_booking (dinner_request "Dario" "dario@example.com" 10) 2
                           "token-dario"]
              [jazz_night; quiz_night] 2 2)
  /\ sum_guests
       (List.filter (spec_bucket (dinner_request "Dario" "dario@example.com" 10))
          [eva_jazz; new_booking (dinner_request "Dario" "dario@example.com" 10) 2
                       "token-dario"]) = 30.
Proof. repeat split. Qed.

(** C2 at a failing input: the jazz night has no time and 25 guests booked.
    The evening of the next request, which has no time either, holds those 25
    guests by the specification; the code counts 0 and stores 5 more. *)
Theorem evening_bucket_skips_bookings_without_time :
  brunch_turn (schemas.BookingCreate.booking_time bob_jazz_request) = None
  /\ sum_guests (List.filter
                   (spec_evening_bucket (schemas.BookingCreate.booking_date bob_jazz_request))
                   (bookings jazz_db)) = 25
  /\ booked_guests bob_jazz_request jazz_db = 0
  /\ create_booking bob_jazz_request "token-bob" jazz_db
     = (Return (new_booking bob_jazz_request 2 "token-bob"),
        mk_Db [ada_jazz; new_booking bob_jazz_request 2 "token-bob"]
              [jazz_night; quiz_night] 2 2).
Proof. repeat split. Qed.

(** C3 at a failing input: Ada has a booking for the jazz night and asks
    for the quiz night, another event on another day.  The request passes
    the duplicate check and the capacity check, and the commit fails on the
    unique email: nothing is stored. *)
Theorem same_email_other_event_not_stored :
  In ada_jazz (bookings jazz_db)
  /\ models.Booking.email ada_jazz = schemas.BookingCreate.email ada_quiz_request
  /\ models.Booking.event_id ada_jazz <> schemas.BookingCreate.event_id ada_quiz_request
  /\ duplicate_query ada_quiz_request jazz_db = []
  /\ booked_guests ada_quiz_request jazz_db + schemas.BookingCreate.guests ada_quiz_request = 2
  /\ create_booking ada_quiz_request "token-ada-2" jazz_db
     = (Raise IntegrityError, mk_Db [ada_jazz] [jazz_night; quiz_night] 2 2).
Proof.
  split; [left; reflexivity|]. split; [reflexivity|]. split; [discriminate|].
  repeat split.
Qed.

(** ** The theorems at the sample states *)

(** The example of the specification: 20 guests are booked; a request for
    10 is refused with 5 places left, a request for 5 is stored, and a
    request for 1 more is refused as fully booked.  At a brunch with 24
    guests in the turn of 12:00, a request for 2 is refused for that turn
    with 1 place left, and stored for the turn of 13:30. *)
Lemma capacity_check_example :
  create_booking (dinner_request "Dario" "dario@example.com" 10) "token-dario" dinner_db
  = (Raise (HTTPException 400
       "Spiacenti, non c'è abbastanza posto per la serata. Posti rimasti: 5."), dinner_db)
  /\ create_booking (dinner_request "Dario" "dario@example.com" 5) "token-dario" dinner_db
     = (Return (dario_row 5), mk_Db [carla_dinner; dario_row 5] [] 2 0)
  /\ create_booking (dinner_request "Elena" "elena@example.com" 1) "token-elena"
       (mk_Db [carla_dinner; dario_row 5] [] 2 0)
     = (Raise (HTTPException 400 "Spiacenti, siamo al completo per la serata."),
        mk_Db [carla_dinner; dario_row 5] [] 2 0)
  /\ create_booking (brunch_request (datetime.time_hm 12 0) 2) "token-dario" brunch_db
     = (Raise (HTTPException 400
          "Spiacenti, non c'è abbastanza posto per il turno delle 12:00. Posti rimasti: 1."),
        brunch_db)
  /\ create_booking (brunch_request (datetime.time_hm 13 30) 26) "token-dario" brunch_db
     = (Raise (HTTPException 400
          "Spiacenti, non c'è abbastanza posto per il turno delle 13:30. Posti rimasti: 25."),
        brunch_db)
  /\ create_booking (brunch_request (datetime.time_hm 13 30) 2) "token-dario" brunch_db
     = (Return (new_booking (brunch_request (datetime.time_hm 13 30) 2) 2 "token-dario"),
        mk_Db [berta_brunch;
               new_booking (brunch_request (datetime.time_hm 13 30) 2) 2 "token-dario"]
              [] 2 0).
Proof.
  split; [|split; [|split; [|split; [|split]]]].
  - pose proof (capacity_check
                  (dinner_request "Dario" "dario@example.com" 10) "token-dario" dinner_db
                  eq_refl) as H.
    cbv zeta in H. destruct H as (_ & _ & _ & Hover & _).
    exact (Hover ltac:(vm_compute; reflexivity)).
  - pose proof (capacity_check
                  (dinner_request "Dario" "dario@example.com" 5) "token-dario" dinner_db
                  eq_refl) as H.
    cbv zeta in H. destruct H as (_ & _ & _ & _ & _ & Hfits).
    exact (proj1 (Hfits ltac:(vm_compute; discriminate) eq_refl)).
  - pose proof (capacity_check
                  (dinner_request "Elena" "elena@example.com" 1) "token-elena"
                  (mk_Db [carla_dinner; dario_row 5] [] 2 0) eq_refl) as H.
    cbv zeta in H. destruct H as (_ & _ & _ & Hover & _).
    exact (Hover ltac:(vm_compute; reflexivity)).
  - pose proof (capacity_check
                  (brunch_request (datetime.time_hm 12 0) 2) "token-dario" brunch_db
                  eq_refl) as H.
    cbv zeta in H. destruct H as (_ & _ & _ & Hover & _).
    exact (Hover ltac:(vm_compute; reflexivity)).
  - pose proof (capacity_check
                  (brunch_request (datetime.time_hm 13 30) 26) "token-dario" brunch_db
                  eq_refl) as H.
    cbv zeta in H. destruct H as (_ & _ & _ & Hover & _).
    exact (Hover ltac:(vm_compute; reflexivity)).
  - pose proof (capacity_check
                  (brunch_request (datetime.time_hm 13 30) 2) "token-dario" brunch_db
                  eq_refl) as H.
    cbv zeta in H. destruct H as (_ & _ & _ & _ & _ & Hfits).
    exact (proj1 (Hfits ltac:(vm_compute; discriminate) eq_refl)).
Defined.

(** The catalog of Thursday 2026-11-05 with the jazz night and the quiz
    night stored. *)
Lemma get_bookable_events_example :
  get_bookable_events 56 thursday jazz_db = Some (Return thursday_catalog)
  /\ Permutation thursday_catalog
       ([mk_event special (Some 1) "Jazz Night - 10/11" "2026-11-10" None None;
         mk_event special (Some 2) "Quiz Night - 17/11" "2026-11-17" (Some "21:00:00") None]
        ++ map (fun d =>
                  mk_event brunch None ("Brunch - " ++ datetime.strftime_dm d)
                    (datetime.isoformat_date d) None (Some ["12:00:00"; "13:30:00"]))
               (next_sundays thursday))%list
  /\ StronglySorted (fun a b => key_leb (sort_key a) (sort_key b) = true) thursday_catalog.
Proof.
  destruct (get_bookable_events_spec 56 thursday jazz_db)
    as (events & Hrun & Hperm & Hsorted & _).
  - apply le_n.
  - split; vm_compute; discriminate.
  - split; vm_compute; discriminate.
  - assert (Hcatalog : get_bookable_events 56 thursday jazz_db
                       = Some (Return thursday_catalog)) by (vm_compute; reflexivity).
    rewrite Hcatalog in Hrun. injection Hrun as <-.
    split; [exact Hcatalog|]. split; [exact Hperm|exact Hsorted].
Defined.


Lemma delete_special_event_example :
  credentials_refused (Some "secret") admin_secret = false
  /\ exists event,
       delete_special_event (Some "secret") 1 admin_secret jazz_db
       = (Return event, mk_Db [] [quiz_night] 1 2).
Proof.
  split; [reflexivity|].
  destruct (proj1 (delete_special_event_spec (Some "secret") 1 admin_secret jazz_db eq_refl)
              jazz_night (or_introl eq_refl) eq_refl)
    as (event & _ & _ & Hdel & _).
  exists event. exact Hdel.
Defined.




Lemma get_all_bookings_single_filter_example :
  exists page,
    get_all_bookings (Some "secret") admin_secret listing_db 0 10 (Some tuesday) None None
    = (Return page, listing_db)
    /\ total page = 3
    /\ List.length (List.filter (fun b => models.Booking.booking_date b =? tuesday)
                                (bookings listing_db)) = 2%nat.
Proof.
  destruct (get_all_bookings_single_filter (Some "secret") admin_secret listing_db 0 10)
    as (Hdate & _ & Hall).
  eexists. split; [|split].
  - rewrite Hdate. reflexivity.
  - exact (proj1 (Hall _ _ eq_refl)).
  - reflexivity.
Defined.

(** * Further properties of the handlers *)

(** ** Duplicates and the unique email *)

(** X1: [create_booking] answers with the duplicate error, and stores nothing,
    exactly when a stored booking has the email of the request and its
    special event, or its date and time when the request names no event
    (an [event_id] of 0 names none). *)
Theorem create_booking_duplicate_iff (booking : schemas.BookingCreate.t)
  (token : string) (db : Db) :
  create_booking booking token db = (Raise (HTTPException 400 duplicate_detail), db)
  <-> exists b, In b (bookings db) /\ is_duplicate_of booking b.
Proof.
  split; [|apply create_booking_duplicate].
  intros H. destruct (duplicate_query booking db) as [|b rest] eqn:Hdup.
  - exfalso. rewrite (create_booking_not_duplicate booking token db Hdup) in H.
    destruct (_ >? MAX_GUESTS).
    + destruct (MAX_GUESTS - booked_guests booking db <=? 0);
        cbn [append] in H; inversion H.
    + destruct (booking_insertable db (new_booking booking (bookings_id_seq db + 1) token))
        eqn:Hins.
      * rewrite (insert_booking_insertable _ db Hins) in H. discriminate H.
      * destruct (insert_booking_refused _ db Hins) as ((e & He & Hne) & _).
        rewrite H in He. inversion He as [He']. destruct (Hne _ _ (eq_sym He')).
  - exists b. apply duplicate_query_In. rewrite Hdup. left. reflexivity.
Qed.

(** ** The table constraints *)

(** X3: The four handlers that write keep the constraints of the two tables:
    unique ids, emails and tokens, and bookings that refer to stored
    events only. *)
Theorem writing_handlers_keep_constraints (db : Db) :
  wf_db db ->
  (forall booking token, wf_db (snd (create_booking booking token db)))
  /\ (forall token, wf_db (snd (cancel_booking token db)))
  /\ (forall ADMIN_PASSWORD event credentials,
        wf_db (snd (create_special_event ADMIN_PASSWORD event credentials db)))
  /\ (forall ADMIN_PASSWORD event_id credentials,
        wf_db (snd (delete_special_event ADMIN_PASSWORD event_id credentials db))).
Proof.
  intros Hwf. split; [|split; [|split]]; intros.
  - apply create_booking_wf; exact Hwf.
  - apply cancel_booking_wf; exact Hwf.
  - apply create_special_event_wf; exact Hwf.
  - apply delete_special_event_wf; exact Hwf.
Qed.

(** ** Round trips *)

Lemma create_booking_Return (booking : schemas.BookingCreate.t) (token : string)
  (db db' : Db) (row : models.Booking.t) :
  create_booking booking token db = (Return row, db') ->
  row = new_booking booking (bookings_id_seq db + 1) token
  /\ db' = mk_Db (bookings db ++ [row]) (special_events db)
                 (bookings_id_seq db + 1) (special_events_id_seq db)
  /\ booking_insertable db row = true
  /\ duplicate_query booking db = []
  /\ booked_guests booking db + schemas.BookingCreate.guests booking <= MAX_GUESTS.
Proof.
  intros H. destruct (duplicate_query booking db) as [|b rest] eqn:Hdup;
    [|unfold create_booking in H; rewrite Hdup in H; discriminate H].
  rewrite (create_booking_not_duplicate booking token db Hdup) in H.
  destruct (Z.gtb_spec (booked_guests booking db + schemas.BookingCreate.guests booking)
                       MAX_GUESTS) as [Hgt|Hle]; [discriminate H|].
  apply insert_booking_Return in H as (Hins & -> & ->).
  repeat split; try reflexivity; assumption.
Qed.

Lemma existsb_false_forall {A : Type} (f : A -> bool) (l : list A) :
  existsb f l = false -> forall a, In a l -> f a = false.
Proof.
  intros H a Ha. destruct (f a) eqn:E; [|reflexivity].
  assert (existsb f l = true) by (apply existsb_exists; eauto). congruence.
Qed.

Lemma filter_all_false {A : Type} (f : A -> bool) (l : list A) :
  (forall a, In a l -> f a = false) -> List.filter f l = [].
Proof.
  induction l as [|a l IH]; intros H; [reflexivity|].
  cbn [List.filter]. rewrite (H a (or_introl eq_refl)). apply IH.
  intros a' Ha'. apply H. right. exact Ha'.
Qed.

Lemma filter_all_true {A : Type} (f : A -> bool) (l : list A) :
  (forall a, In a l -> f a = true) -> List.filter f l = l.
Proof.
  induction l as [|a l IH]; intros H; [reflexivity|].
  cbn [List.filter]. rewrite (H a (or_introl eq_refl)). f_equal. apply IH.
  intros a' Ha'. apply H. right. exact Ha'.
Qed.

(** X5: The token of a stored request cancels that booking: after
    [create_booking] has stored a row, [cancel_booking] with its token
    succeeds and leaves the tables as they were before the request. *)
Theorem create_then_cancel (booking : schemas.BookingCreate.t) (token : string)
  (db db' : Db) (row : models.Booking.t) :
  create_booking booking token db = (Return row, db') ->
  models.Booking.cancellation_token row = token
  /\ cancel_booking token db'
     = (Return cancel_success_message,
        mk_Db (bookings db) (special_events db)
              (bookings_id_seq db + 1) (special_events_id_seq db)).
Proof.
  intros H. apply create_booking_Return in H as (Hrow & -> & Hins & _).
  split; [rewrite Hrow; reflexivity|].
  unfold booking_insertable, booking_constraints in Hins.
  rewrite !andb_true_iff, !negb_true_iff in Hins.
  destruct Hins as [_ [[[Hid _] Htoken] _]].
  assert (Etok : models.Booking.cancellation_token row = token) by (rewrite Hrow; reflexivity).
  unfold cancel_booking. rewrite where_Some. cbn [bookings]. rewrite filter_app.
  rewrite filter_all_false.
  2:{ intros a Ha. rewrite <- Etok. exact (existsb_false_forall _ _ Htoken a Ha). }
  cbn [List.filter app]. rewrite <- Etok at 1. rewrite String.eqb_refl.
  unfold delete_booking. cbn [special_events bookings_id_seq special_events_id_seq].
  rewrite filter_app. cbn [List.filter]. rewrite Z.eqb_refl. cbn [negb].
  rewrite app_nil_r, filter_all_true; [reflexivity|].
  intros a Ha. rewrite (existsb_false_forall _ _ Hid a Ha). reflexivity.
Qed.

(** X6: A special event that [create_special_event] has stored is taken out
    again by [delete_special_event] with its id, and the tables are as
    they were before. *)
Theorem create_then_delete_special_event (ADMIN_PASSWORD : option string)
  (event : schemas.SpecialEventCreate.t) (credentials : HTTPBasicCredentials)
  (db db' : Db) (row : models.SpecialEvent.t) :
  wf_db db ->
  create_special_event ADMIN_PASSWORD event credentials db = (Return row, db') ->
  delete_special_event ADMIN_PASSWORD (models.SpecialEvent.id row) credentials db'
  = (Return row,
     mk_Db (bookings db) (special_events db)
           (bookings_id_seq db) (special_events_id_seq db + 1)).
Proof.
  intros Hwf H. unfold create_special_event in H.
  destruct (credentials_refused ADMIN_PASSWORD credentials) eqn:Hauth; [discriminate H|].
  destruct (special_event_insertable db _) eqn:Hins; [|discriminate H].
  inversion H; subst. clear H.
  set (row := new_special_event event (special_events_id_seq db + 1)) in *.
  unfold special_event_insertable in Hins. rewrite negb_true_iff in Hins.
  pose proof (existsb_false_forall _ _ Hins) as Hfresh. cbv beta in Hfresh.
  unfold delete_special_event. rewrite Hauth, where_Some.
  cbn [special_events bookings bookings_id_seq special_events_id_seq].
  rewrite filter_app, (filter_all_false _ (special_events db) Hfresh).
  cbn [List.filter app]. rewrite Z.eqb_refl. unfold delete_where.
  rewrite filter_app. cbn [List.filter sql.is_true]. rewrite Z.eqb_refl. cbn [negb].
  rewrite app_nil_r. f_equal. f_equal.
  - apply filter_all_true. intros b Hb.
    unfold sql.eq. destruct (models.Booking.event_id b) as [e|] eqn:He; [|reflexivity].
    destruct (Z.eqb_spec e (models.SpecialEvent.id row)) as [E|E]; [|reflexivity].
    exfalso. destruct (wf_foreign_key db Hwf b e Hb He) as (ev & Hev & Hid).
    specialize (Hfresh ev Hev). apply Z.eqb_neq in Hfresh. congruence.
  - apply filter_all_true. intros ev Hev. cbn [sql.is_true].
    rewrite (Hfresh ev Hev). reflexivity.
Qed.

(** ** Capacity over time *)

Lemma brunch_turn_Some (booking_time : option datetime.time) (t : datetime.time) :
  brunch_turn booking_time = Some t ->
  booking_time = Some t /\ existsb (datetime.time_eqb t) BRUNCH_SLOTS = true.
Proof.
  unfold brunch_turn. destruct booking_time as [t'|]; [|discriminate].
  destruct (existsb (datetime.time_eqb t') BRUNCH_SLOTS) eqn:E; [|discriminate].
  intros H. inversion H; subst. split; [reflexivity|exact E].
Qed.

(** A request whose bucket holds the row of another request has the bucket
    of that request. *)
Lemma same_bucket (later booking : schemas.BookingCreate.t) (id : Z) (token : string) :
  in_bucket later (new_booking booking id token) = true ->
  forall b, in_bucket later b = in_bucket booking b.
Proof.
  unfold in_bucket at 1. unfold new_booking.
  cbn [models.Booking.booking_date models.Booking.booking_time].
  rewrite andb_true_iff, Z.eqb_eq. intros [Hdate Hturn] b.
  unfold in_bucket. rewrite Hdate. f_equal.
  destruct (brunch_turn (schemas.BookingCreate.booking_time later)) as [t|] eqn:Hl;
    destruct (schemas.BookingCreate.booking_time booking) as [t'|] eqn:Hb;
    try discriminate Hturn.
  - apply time_eqb_eq in Hturn. subst t'.
    apply brunch_turn_Some in Hl as [_ Hslot].
    unfold brunch_turn. rewrite Hslot. reflexivity.
  - apply negb_true_iff in Hturn. unfold brunch_turn. rewrite Hturn. reflexivity.
Qed.

Lemma sum_guests_filter_le (p q : models.Booking.t -> bool) (l : list models.Booking.t) :
  (forall b, In b l -> 0 <= models.Booking.guests b) ->
  sum_guests (List.filter p (List.filter q l)) <= sum_guests (List.filter p l).
Proof.
  unfold sum_guests. induction l as [|b l IH]; intros Hpos; [reflexivity|].
  assert (Hl : forall b', In b' l -> 0 <= models.Booking.guests b')
    by (intros b' Hb'; apply Hpos; right; exact Hb').
  specialize (IH Hl). pose proof (Hpos b (or_introl eq_refl)) as Hb.
  cbn [List.filter]. destruct (q b), (p b) eqn:Ep; cbn [List.filter map fold_right];
    rewrite ?Ep; cbn [map fold_right]; lia.
Qed.

(** X4: While no request asks for a negative number of guests, the handlers
    keep every capacity query at 25 or less. *)
Theorem handlers_keep_capacity (db : Db) :
  within_capacity db ->
  (forall booking token,
      0 <= schemas.BookingCreate.guests booking ->
      within_capacity (snd (create_booking booking token db)))
  /\ (forall token, within_capacity (snd (cancel_booking token db)))
  /\ (forall ADMIN_PASSWORD event credentials,
        within_capacity (snd (create_special_event ADMIN_PASSWORD event credentials db)))
  /\ (forall ADMIN_PASSWORD event_id credentials,
        within_capacity (snd (delete_special_event ADMIN_PASSWORD event_id credentials db))).
Proof.
  intros [Hpos Hcap]. split; [|split; [|split]].
  - intros booking token Hguests.
    destruct (create_booking booking token db) as [[row|e] db'] eqn:Hcb.
    + apply create_booking_Return in Hcb as (Hrow & -> & _ & _ & Hfits).
      cbn [snd]. split.
      * cbn [bookings]. intros b Hb. apply in_app_or in Hb as [Hb|[<-|[]]].
        -- exact (Hpos b Hb).
        -- rewrite Hrow. exact Hguests.
      * intros request. rewrite booked_guests_after_insert.
        destruct (in_bucket request row) eqn:Hin; [|specialize (Hcap request); lia].
        rewrite Hrow in Hin |- *. cbn [models.Booking.guests new_booking].
        rewrite (booked_guests_bucket request).
        rewrite (filter_map_ext _ _ _ (same_bucket request booking _ _ Hin)).
        rewrite <- booked_guests_bucket. exact Hfits.
    + pose proof (create_booking_tables booking token db) as Htables.
      rewrite Hcb in Htables. cbn [fst snd] in Htables |- *.
      destruct (Htables ltac:(discriminate)) as [Hb _]. split.
      * rewrite Hb. exact Hpos.
      * intros request. rewrite booked_guests_bucket, Hb, <- booked_guests_bucket.
        apply Hcap.
  - intros token. unfold cancel_booking.
    destruct (sql.where_ _ (bookings db)) as [|row rest]; [split; assumption|].
    cbn [snd]. unfold delete_booking. split.
    + cbn [bookings]. intros b Hb. apply filter_In in Hb as [Hb _]. exact (Hpos b Hb).
    + intros request. rewrite booked_guests_bucket. cbn [bookings].
      etransitivity; [apply sum_guests_filter_le; exact Hpos|].
      rewrite <- booked_guests_bucket. apply Hcap.
  - intros ADMIN_PASSWORD event credentials. unfold create_special_event.
    destruct (credentials_refused ADMIN_PASSWORD credentials); [split; assumption|].
    destruct (special_event_insertable db _); [|split; assumption].
    cbn [snd]. split; [exact Hpos|].
    intros request. rewrite booked_guests_bucket. cbn [bookings].
    rewrite <- booked_guests_bucket. apply Hcap.
  - intros ADMIN_PASSWORD event_id credentials. unfold delete_special_event.
    destruct (credentials_refused ADMIN_PASSWORD credentials); [split; assumption|].
    destruct (sql.where_ _ (special_events db)) as [|event rest]; [split; assumption|].
    cbn [snd]. unfold delete_where. split.
    + cbn [bookings]. intros b Hb. apply filter_In in Hb as [Hb _]. exact (Hpos b Hb).
    + intros request. rewrite booked_guests_bucket. cbn [bookings].
      etransitivity; [apply sum_guests_filter_le; exact Hpos|].
      rewrite <- booked_guests_bucket. apply Hcap.
Qed.

Lemma sum_guests_remove (p : models.Booking.t -> bool) (b : models.Booking.t)
  (before after : list models.Booking.t) :
  sum_guests (List.filter p (before ++ after))
  = sum_guests (List.filter p (before ++ b :: after))
    - (if p b then models.Booking.guests b else 0).
Proof.
  rewrite !filter_app, !sum_guests_app. cbn [List.filter].
  destruct (p b); unfold sum_guests; cbn [map fold_right]; lia.
Qed.

(** X7: A cancellation gives back the places of the booking: every capacity
    query whose bucket held the booking counts its guests no more, and no
    other query changes. *)
Theorem cancel_frees_capacity (token : string) (db : Db) (b : models.Booking.t) :
  wf_db db ->
  In b (bookings db) ->
  models.Booking.cancellation_token b = token ->
  forall request,
    booked_guests request (snd (cancel_booking token db))
    = booked_guests request db
      - (if in_bucket request b then models.Booking.guests b else 0).
Proof.
  intros Hwf Hb Htok request.
  destruct (in_split _ _ Hb) as (before & after & Hsplit).
  unfold cancel_booking. rewrite where_Some. subst token.
  rewrite (filter_key_unique models.Booking.cancellation_token String.eqb
             string_eqb_eq b (bookings db) (wf_tokens db Hwf) Hb).
  cbn [snd]. rewrite !booked_guests_bucket. cbn [bookings]. unfold delete_booking.
  pose proof (wf_booking_ids db Hwf) as Hids. rewrite Hsplit in Hids |- *.
  rewrite (filter_key_remove models.Booking.id Z.eqb Z.eqb_eq b before after Hids).
  apply sum_guests_remove.
Qed.

(** ** The catalog at the end of the calendar and after a new event *)

Lemma first_sunday_next (d : datetime.date) :
  first_sunday (d + 1)
  = if datetime.weekday d =? 6 then first_sunday d + 7 else first_sunday d.
Proof.
  unfold first_sunday. destruct (Z.eqb_spec (datetime.weekday d) 6) as [E|E].
  - rewrite (weekday_after_sunday d E). lia.
  - rewrite (weekday_succ d E). lia.
Qed.

(** Past the last date the loop raises, as long as it still looks for a
    Sunday. *)
Lemma sundays_loop_overflow (r : nat) :
  forall (fuel : nat) (today sundays_found day_offset : Z) (events : list bookable_event),
    1 <= today + day_offset ->
    today + day_offset + Z.of_nat r = datetime.MAXORDINAL + 1 ->
    0 <= sundays_found <= 7 ->
    datetime.MAXORDINAL < first_sunday (today + day_offset) + 7 * (7 - sundays_found) ->
    (r < fuel)%nat ->
    sundays_loop fuel today sundays_found day_offset events = Some (Raise OverflowError).
Proof.
  induction r as [|r IH]; intros fuel today k off events Hlo Hr Hk Hinv Hfuel;
    (destruct fuel as [|fuel]; [lia|]).
  - cbn [sundays_loop]. destruct (Z.ltb_spec k 8); [|lia].
    unfold datetime.add_days. cbv zeta.
    destruct (Z.leb_spec (today + off) datetime.MAXORDINAL); [lia|].
    rewrite andb_false_r. reflexivity.
  - rewrite sundays_loop_step by lia.
    pose proof (first_sunday_next (today + off)) as Hnext.
    replace (today + off + 1) with (today + (off + 1)) in Hnext by lia.
    destruct (Z.eqb_spec (datetime.weekday (today + off)) 6) as [E|E].
    + assert (Hfs : first_sunday (today + off) = today + off)
        by (unfold first_sunday; lia).
      apply IH; lia.
    + apply IH; lia.
Qed.

(** X9: The catalog raises [OverflowError] exactly when the eighth Sunday from
    today on is past 9999-12-31, the last date; it then returns no entry,
    stored events included. *)
Theorem get_bookable_events_overflow (fuel : nat) (today : datetime.date) (db : Db) :
  (56 <= fuel)%nat ->
  datetime.valid_date today ->
  (get_bookable_events fuel today db = Some (Raise OverflowError)
   <-> datetime.MAXORDINAL < first_sunday today + 49).
Proof.
  intros Hfuel [Hlo Hhi]. pose proof (weekday_range today) as Hw.
  unfold get_bookable_events. split.
  - intros H. destruct (Z_lt_le_dec datetime.MAXORDINAL (first_sunday today + 49))
      as [Hlt|Hle]; [exact Hlt|exfalso].
    rewrite sundays_loop_spec in H by assumption. discriminate H.
  - intros Hlate.
    rewrite (sundays_loop_overflow (Z.to_nat (datetime.MAXORDINAL + 1 - today)));
      [reflexivity| | | | |]; rewrite ?Z.add_0_r; unfold first_sunday in *; try lia.
Qed.

Lemma sundays_loop_brunches (fuel : nat) (today : datetime.date) :
  forall (sundays_found day_offset : Z) (events result : list bookable_event),
    sundays_loop fuel today sundays_found day_offset events = Some (Return result) ->
    exists dates, result = (events ++ map brunch_entry dates)%list.
Proof.
  induction fuel as [|fuel IH]; intros k off events result; cbn [sundays_loop].
  - destruct (k <? 8); [discriminate|].
    intros H. inversion H; subst. exists []. symmetry. apply app_nil_r.
  - destruct (k <? 8).
    + destruct (datetime.add_days today off) as [check_date|]; [|discriminate].
      destruct (datetime.weekday check_date =? 6); intros H.
      * apply IH in H as (dates & ->). exists (check_date :: dates).
        rewrite <- app_assoc. reflexivity.
      * apply IH in H. exact H.
    + intros H. inversion H; subst. exists []. symmetry. apply app_nil_r.
Qed.

(** X10: A special event that [create_special_event] has stored is in the
    catalog from then on exactly when its date is today or later. *)
Theorem created_event_in_catalog (ADMIN_PASSWORD : option string)
  (event : schemas.SpecialEventCreate.t) (credentials : HTTPBasicCredentials)
  (db db' : Db) (row : models.SpecialEvent.t) (fuel : nat) (today : datetime.date)
  (events : list bookable_event) :
  create_special_event ADMIN_PASSWORD event credentials db = (Return row, db') ->
  get_bookable_events fuel today db' = Some (Return events) ->
  (In (special_entry row) events
   <-> today <= schemas.SpecialEventCreate.booking_date event).
Proof.
  intros Hcreate Hcat. unfold create_special_event in Hcreate.
  destruct (credentials_refused ADMIN_PASSWORD credentials); [discriminate Hcreate|].
  destruct (special_event_insertable db _) eqn:Hins; [|discriminate Hcreate].
  inversion Hcreate; subst. clear Hcreate.
  set (row := new_special_event event (special_events_id_seq db + 1)) in *.
  unfold special_event_insertable in Hins. rewrite negb_true_iff in Hins.
  pose proof (existsb_false_forall _ _ Hins) as Hfresh. cbv beta in Hfresh.
  unfold get_bookable_events in Hcat. cbn [special_events] in Hcat.
  destruct (sundays_loop fuel today 0 0 _) as [[result|e]|] eqn:Hloop; try discriminate.
  inversion Hcat; subst. clear Hcat.
  apply sundays_loop_brunches in Hloop as (dates & ->).
  rewrite stable_sort_In, in_app_iff. unfold special_entries.
  rewrite in_map_iff. split.
  - intros [(ev & Hentry & Hin)|Hbrunch].
    + apply filter_In in Hin as [Hin Hdate]. apply Z.leb_le in Hdate.
      pose proof (f_equal id Hentry) as Hid. unfold special_entry in Hid.
      cbn [id] in Hid. injection Hid as Hid.
      apply in_app_or in Hin as [Hin|[<-|[]]].
      * specialize (Hfresh ev Hin). apply Z.eqb_neq in Hfresh. contradiction.
      * exact Hdate.
    + apply in_map_iff in Hbrunch as (d & Hentry & _).
      unfold brunch_entry, special_entry in Hentry. discriminate Hentry.
  - intros Hdate. left. exists row. split; [reflexivity|].
    apply filter_In. split; [apply in_or_app; right; left; reflexivity|].
    apply Z.leb_le. exact Hdate.
Qed.

(** ** Who the admin endpoints let in *)

Lemma credentials_refused_true (ADMIN_PASSWORD : option string)
  (credentials : HTTPBasicCredentials) :
  credentials_refused ADMIN_PASSWORD credentials = true
  <-> username credentials <> "admin" \/ ADMIN_PASSWORD <> Some (password credentials).
Proof.
  unfold credentials_refused, py.str_ne.
  rewrite orb_true_iff, negb_true_iff, String.eqb_neq.
  destruct ADMIN_PASSWORD as [p|].
  - rewrite negb_true_iff, String.eqb_neq. split; (intros [H|H]; [left; exact H|right]);
      congruence.
  - split; [intros _; right; discriminate|intros _; right; reflexivity].
Qed.

(** X11: With another user name than admin, or another password than the
    configured one, every admin endpoint raises and leaves the tables as
    they are: 401, or the 500 of the listing when no password is
    configured. *)
Theorem admin_endpoints_refuse_other_credentials (ADMIN_PASSWORD : option string)
  (credentials : HTTPBasicCredentials) (db : Db) (skip limit : Z)
  (event_date : option datetime.date) (event_time : option datetime.time)
  (event_id : option Z) (event : schemas.SpecialEventCreate.t) (id : Z) :
  username credentials <> "admin" \/ ADMIN_PASSWORD <> Some (password credentials) ->
  get_all_bookings ADMIN_PASSWORD credentials db skip limit event_date event_time event_id
  = (Raise (if py.truthy_str ADMIN_PASSWORD
            then HTTPException 401 "Credenziali non valide"
            else HTTPException 500 password_not_configured_detail), db)
  /\ export_bookings_to_pdf ADMIN_PASSWORD credentials db event_date event_time event_id limit
     = (Raise (HTTPException 401 "Credenziali non valide"), db)
  /\ create_special_event ADMIN_PASSWORD event credentials db
     = (Raise (HTTPException 401 "Credenziali non valide"), db)
  /\ read_special_events ADMIN_PASSWORD credentials db
     = (Raise (HTTPException 401 "Credenziali non valide"), db)
  /\ delete_special_event ADMIN_PASSWORD id credentials db
     = (Raise (HTTPException 401 "Credenziali non valide"), db).
Proof.
  intros H. apply credentials_refused_true in H.
  unfold get_all_bookings, export_bookings_to_pdf, create_special_event,
    read_special_events, delete_special_event.
  rewrite H, orb_true_r. destruct (py.truthy_str ADMIN_PASSWORD); repeat split.
Qed.

(** X12: An admin password configured as the empty string: the listing answers
    500 and the export 401 to everyone, as if none were configured, while
    the special-event endpoints let the user admin in with an empty
    password. *)
Theorem empty_admin_password (credentials : HTTPBasicCredentials) (db : Db)
  (skip limit : Z) (event_date : option datetime.date)
  (event_time : option datetime.time) (event_id : option Z)
  (event : schemas.SpecialEventCreate.t) (id : Z) :
  get_all_bookings (Some EmptyString) credentials db skip limit
    event_date event_time event_id
  = (Raise (HTTPException 500 password_not_configured_detail), db)
  /\ export_bookings_to_pdf (Some EmptyString) credentials db
       event_date event_time event_id limit
     = (Raise (HTTPException 401 "Credenziali non valide"), db)
  /\ read_special_events (Some EmptyString) (mk_credentials "admin" EmptyString) db
     = (Return (stable_sort special_event_asc_leb (special_events db)), db)
  /\ fst (create_special_event (Some EmptyString) event
            (mk_credentials "admin" EmptyString) db)
     <> Raise (HTTPException 401 "Credenziali non valide")
  /\ fst (delete_special_event (Some EmptyString) id
            (mk_credentials "admin" EmptyString) db)
     <> Raise (HTTPException 401 "Credenziali non valide").
Proof.
  split; [reflexivity|]. split; [reflexivity|]. split; [reflexivity|]. split.
  - unfold create_special_event. cbn [credentials_refused username password py.str_ne
      String.eqb Ascii.eqb Bool.eqb negb orb].
    destruct (special_event_insertable db _); cbn [fst]; discriminate.
  - unfold delete_special_event. cbn [credentials_refused username password py.str_ne
      String.eqb Ascii.eqb Bool.eqb negb orb].
    destruct (sql.where_ _ (special_events db)); cbn [fst]; discriminate.
Qed.

(** ** The admin listing, the export and the list of special events *)

Lemma time_leb_total (a b : datetime.time) :
  datetime.time_leb a b = false -> datetime.time_leb b a = true.
Proof.
  unfold datetime.time_leb. destruct a, b; cbn. zcases; try congruence; lia.
Qed.

Lemma time_leb_trans (a b c : datetime.time) :
  datetime.time_leb a b = true -> datetime.time_leb b c = true ->
  datetime.time_leb a c = true.
Proof.
  unfold datetime.time_leb. destruct a, b, c; cbn.
  repeat match goal with
         | |- context [?x =? ?y] => destruct (Z.eqb_spec x y)
         | |- context [?x <? ?y] => destruct (Z.ltb_spec x y)
         | |- context [?x <=? ?y] => destruct (Z.leb_spec x y)
         end; intros; try congruence; try lia.
Qed.

Lemma time_asc_leb_total (a b : option datetime.time) :
  time_asc_leb a b = false -> time_asc_leb b a = true.
Proof. destruct a, b; cbn; try congruence. apply time_leb_total. Qed.

Lemma time_asc_leb_trans (a b c : option datetime.time) :
  time_asc_leb a b = true -> time_asc_leb b c = true -> time_asc_leb a c = true.
Proof. destruct a, b, c; cbn; try congruence. apply time_leb_trans. Qed.

Section DateThenTime.

Context {R : Type}.
Variable date_of : R -> datetime.date.
Variable time_of : R -> option datetime.time.

Lemma asc_leb_total (a b : R) :
  asc_leb date_of time_of a b = false -> asc_leb date_of time_of b a = true.
Proof.
  unfold asc_leb. destruct (Z.eqb_spec (date_of a) (date_of b)) as [E|E].
  - rewrite E, Z.eqb_refl. apply time_asc_leb_total.
  - destruct (Z.eqb_spec (date_of b) (date_of a)); [congruence|].
    rewrite !Z.ltb_nlt, !Z.ltb_lt. lia.
Qed.

Lemma asc_leb_trans (a b c : R) :
  asc_leb date_of time_of a b = true -> asc_leb date_of time_of b c = true ->
  asc_leb date_of time_of a c = true.
Proof.
  unfold asc_leb.
  destruct (Z.eqb_spec (date_of a) (date_of b)) as [E1|E1],
    (Z.eqb_spec (date_of b) (date_of c)) as [E2|E2],
    (Z.eqb_spec (date_of a) (date_of c)) as [E3|E3];
    rewrite ?Z.ltb_lt; try lia; try congruence.
  apply time_asc_leb_trans.
Qed.

Lemma desc_leb_total (a b : R) :
  desc_leb date_of time_of a b = false -> desc_leb date_of time_of b a = true.
Proof.
  unfold desc_leb, time_desc_leb. destruct (Z.eqb_spec (date_of a) (date_of b)) as [E|E].
  - rewrite E, Z.eqb_refl. apply time_asc_leb_total.
  - destruct (Z.eqb_spec (date_of b) (date_of a)); [congruence|].
    rewrite !Z.ltb_nlt, !Z.ltb_lt. lia.
Qed.

Lemma desc_leb_trans (a b c : R) :
  desc_leb date_of time_of a b = true -> desc_leb date_of time_of b c = true ->
  desc_leb date_of time_of a c = true.
Proof.
  unfold desc_leb, time_desc_leb.
  destruct (Z.eqb_spec (date_of a) (date_of b)) as [E1|E1],
    (Z.eqb_spec (date_of b) (date_of c)) as [E2|E2],
    (Z.eqb_spec (date_of a) (date_of c)) as [E3|E3];
    rewrite ?Z.ltb_lt; try lia; try congruence.
  intros H1 H2. exact (time_asc_leb_trans _ _ _ H2 H1).
Qed.

End DateThenTime.

Lemma StronglySorted_stable_sort {A : Type} (leb : A -> A -> bool) (l : list A) :
  (forall a b, leb a b = false -> leb b a = true) ->
  (forall a b c, leb a b = true -> leb b c = true -> leb a c = true) ->
  StronglySorted (fun a b => leb a b = true) (stable_sort leb l).
Proof.
  intros Htotal Htrans. apply Sorted_StronglySorted.
  - intros a b c. apply Htrans.
  - apply stable_sort_Sorted. exact Htotal.
Qed.

Lemma StronglySorted_skipn {A : Type} (R : A -> A -> Prop) (n : nat) :
  forall l, StronglySorted R l -> StronglySorted R (skipn n l).
Proof.
  induction n as [|n IH]; intros l Hl; [exact Hl|].
  destruct l as [|a l]; [constructor|]. cbn [skipn]. apply IH.
  inversion Hl; assumption.
Qed.

Lemma In_firstn {A : Type} (n : nat) (l : list A) (x : A) : In x (firstn n l) -> In x l.
Proof.
  revert l. induction n as [|n IH]; intros [|a l]; cbn; try tauto.
  intros [H|H]; [left; exact H|right; apply IH; exact H].
Qed.

Lemma StronglySorted_firstn {A : Type} (R : A -> A -> Prop) (n : nat) :
  forall l, StronglySorted R l -> StronglySorted R (firstn n l).
Proof.
  induction n as [|n IH]; intros l Hl; [constructor|].
  destruct l as [|a l]; [constructor|]. cbn [firstn].
  inversion Hl as [|? ? Hl' Hall]; subst. constructor; [apply IH; exact Hl'|].
  rewrite Forall_forall in *. intros x Hx. apply Hall.
  exact (In_firstn _ _ _ Hx).
Qed.

Lemma In_skipn {A : Type} (n : nat) (l : list A) (x : A) : In x (skipn n l) -> In x l.
Proof.
  revert l. induction n as [|n IH]; intros [|a l]; cbn; try tauto.
  intros H. right. apply IH. exact H.
Qed.

(** X13: The filters of the listing and of the export: an event id other than 0
    wins over date and time; date and time filter only together, and then
    find no booking without a time. *)
Theorem admin_filter_In (event_date : option datetime.date)
  (event_time : option datetime.time) (event_id : option Z) (db : Db)
  (b : models.Booking.t) :
  In b (admin_filter event_date event_time event_id db)
  <-> In b (bookings db) /\ matches_admin_filter event_date event_time event_id b.
Proof.
  unfold admin_filter, matches_admin_filter.
  destruct (py.truthy_int event_id).
  - unfold sql.where_. rewrite filter_In, (sa_eq_true Z.eqb Z.eqb_eq). reflexivity.
  - destruct event_date as [d|], event_time as [t|]; try tauto.
    unfold sql.where_. rewrite filter_In.
    destruct (Z.eqb_spec (models.Booking.booking_date b) d) as [E|E];
      destruct (models.Booking.booking_time b) as [t'|]; cbn.
    + destruct (datetime.time_eqb t' t) eqn:Et.
      * apply time_eqb_eq in Et. subst. tauto.
      * split; [intros [_ H]; discriminate H|].
        intros [_ [_ H]]. inversion H; subst. rewrite time_eqb_refl in Et. discriminate.
    + split; [intros [_ H]; discriminate H|intros [_ [_ H]]; discriminate H].
    + destruct (datetime.time_eqb t' t); split; try (intros [_ H]; discriminate H); tauto.
    + split; [intros [_ H]; discriminate H|tauto].
Qed.

(** X14: A page of the admin listing: the total counts the filtered bookings,
    the page holds filtered bookings only, as many as the limit allows
    after the skipped ones, from the latest date and time to the earliest. *)
Theorem get_all_bookings_page (ADMIN_PASSWORD : option string)
  (credentials : HTTPBasicCredentials) (db db' : Db) (skip limit : Z)
  (event_date : option datetime.date) (event_time : option datetime.time)
  (event_id : option Z) (page : bookings_page) :
  get_all_bookings ADMIN_PASSWORD credentials db skip limit event_date event_time event_id
  = (Return page, db') ->
  db' = db
  /\ total page = Z.of_nat (List.length (admin_filter event_date event_time event_id db))
  /\ Z.of_nat (List.length (page_bookings page))
     = Z.min limit (Z.max 0 (total page - skip))
  /\ StronglySorted (fun a b => booking_desc_leb a b = true) (page_bookings page)
  /\ (forall b, In b (page_bookings page) ->
                In b (admin_filter event_date event_time event_id db)).
Proof.
  unfold get_all_bookings.
  destruct (negb (py.truthy_str ADMIN_PASSWORD)); [discriminate|].
  destruct (credentials_refused ADMIN_PASSWORD credentials); [discriminate|].
  destruct (Z.ltb_spec skip 0) as [Hs|Hs]; [discriminate|].
  destruct (Z.ltb_spec limit 0) as [Hl|Hl]; [discriminate|].
  cbn [orb]. intros H. inversion H; subst. clear H. cbn [total page_bookings].
  split; [reflexivity|]. split; [reflexivity|]. split; [|split].
  - rewrite length_firstn, length_skipn.
    rewrite (Permutation_length (stable_sort_Permutation booking_desc_leb _)). lia.
  - apply StronglySorted_firstn, StronglySorted_skipn.
    apply StronglySorted_stable_sort.
    + exact (desc_leb_total models.Booking.booking_date models.Booking.booking_time).
    + exact (desc_leb_trans models.Booking.booking_date models.Booking.booking_time).
  - intros b Hb. apply In_firstn, In_skipn in Hb.
    apply (stable_sort_In booking_desc_leb). exact Hb.
Qed.

(** X15: The rows of the export: filtered bookings only, as many as the limit
    allows, from the earliest date and time to the latest. *)
Theorem export_bookings_rows (ADMIN_PASSWORD : option string)
  (credentials : HTTPBasicCredentials) (db db' : Db)
  (event_date : option datetime.date) (event_time : option datetime.time)
  (event_id : option Z) (limit : Z) (rows : list models.Booking.t) :
  export_bookings_to_pdf ADMIN_PASSWORD credentials db event_date event_time event_id limit
  = (Return rows, db') ->
  db' = db
  /\ Z.of_nat (List.length rows)
     = Z.min limit
             (Z.of_nat (List.length (admin_filter event_date event_time event_id db)))
  /\ StronglySorted (fun a b => booking_asc_leb a b = true) rows
  /\ (forall b, In b rows -> In b (admin_filter event_date event_time event_id db)).
Proof.
  unfold export_bookings_to_pdf.
  destruct (negb (py.truthy_str ADMIN_PASSWORD) || _); [discriminate|].
  destruct (Z.ltb_spec limit 0) as [Hl|Hl]; [discriminate|].
  intros H. inversion H; subst. clear H.
  split; [reflexivity|]. split; [|split].
  - rewrite length_firstn.
    rewrite (Permutation_length (stable_sort_Permutation booking_asc_leb _)). lia.
  - apply StronglySorted_firstn, StronglySorted_stable_sort.
    + exact (asc_leb_total models.Booking.booking_date models.Booking.booking_time).
    + exact (asc_leb_trans models.Booking.booking_date models.Booking.booking_time).
  - intros b Hb. apply In_firstn in Hb.
    apply (stable_sort_In booking_asc_leb). exact Hb.
Qed.

(** X16: The list of special events holds every stored event once, from the
    earliest date and time to the latest, and changes nothing. *)
Theorem read_special_events_sorted (ADMIN_PASSWORD : option string)
  (credentials : HTTPBasicCredentials) (db db' : Db)
  (events : list models.SpecialEvent.t) :
  read_special_events ADMIN_PASSWORD credentials db = (Return events, db') ->
  db' = db
  /\ Permutation events (special_events db)
  /\ StronglySorted (fun a b => special_event_asc_leb a b = true) events.
Proof.
  unfold read_special_events.
  destruct (credentials_refused ADMIN_PASSWORD credentials); [discriminate|].
  intros H. inversion H; subst. clear H.
  split; [reflexivity|]. split; [apply stable_sort_Permutation|].
  apply StronglySorted_stable_sort.
  - exact (asc_leb_total models.SpecialEvent.booking_date models.SpecialEvent.booking_time).
  - exact (asc_leb_trans models.SpecialEvent.booking_date models.SpecialEvent.booking_time).
Qed.

Lemma sum_guests_filter_split (p q : models.Booking.t -> bool) (l : list models.Booking.t) :
  sum_guests (List.filter p (List.filter (fun b => negb (q b)) l))
  = sum_guests (List.filter p l) - sum_guests (List.filter (fun b => p b && q b) l).
Proof.
  unfold sum_guests. induction l as [|b l IH]; [reflexivity|].
  cbn [List.filter]. destruct (q b), (p b) eqn:Ep; cbn [negb andb List.filter map fold_right];
    rewrite ?Ep; cbn [map fold_right]; lia.
Qed.

(** X8: Deleting a special event gives back the places of its bookings: every
    capacity query counts the guests of the bookings of the event in its
    bucket no more. *)
Theorem delete_special_event_frees_capacity (ADMIN_PASSWORD : option string)
  (event_id : Z) (credentials : HTTPBasicCredentials) (db db' : Db)
  (event : models.SpecialEvent.t) :
  delete_special_event ADMIN_PASSWORD event_id credentials db = (Return event, db') ->
  forall request,
    booked_guests request db'
    = booked_guests request db
      - sum_guests (List.filter (fun b => in_bucket request b && references event_id b)
                                (bookings db)).
Proof.
  unfold delete_special_event.
  destruct (credentials_refused ADMIN_PASSWORD credentials); [discriminate|].
  destruct (sql.where_ _ (special_events db)) as [|ev rest]; [discriminate|].
  intros H request. inversion H; subst. clear H.
  rewrite !booked_guests_bucket. cbn [bookings]. unfold delete_where.
  rewrite <- sum_guests_filter_split. do 2 f_equal.
  apply filter_map_ext. intros b. unfold references, sql.eq.
  destruct (models.Booking.event_id b) as [e|]; [|reflexivity].
  cbn. destruct (e =? event_id); reflexivity.
Qed.

(** ** The pages of the export *)

Lemma draw_cells_In (y_position : Z) (items : list string) (op : canvas_op) :
  In op (draw_cells y_position items) ->
  exists x text, op = drawString x y_position text /\ In x x_positions.
Proof.
  unfold draw_cells. rewrite in_map_iff. intros ([x text] & <- & Hin).
  exists x, text. split; [reflexivity|]. exact (in_combine_l _ _ _ _ Hin).
Qed.

Lemma draw_rows_In (bookings : list models.Booking.t) :
  forall (y_position : Z) (op : canvas_op),
    y_position <= 800 ->
    In op (draw_rows y_position bookings) ->
    op = showPage
    \/ exists x y text, op = drawString x y text /\ In x x_positions /\ 50 <= y <= 800.
Proof.
  induction bookings as [|b rest IH]; intros y0 op Hy; cbn [draw_rows]; [intros []|].
  destruct (Z.ltb_spec y0 50) as [Hlow|Hok].
  - intros [<-|Hin]; [left; reflexivity|].
    apply in_app_or in Hin as [Hin|Hin].
    + apply draw_cells_In in Hin as (x & text & -> & Hx).
      right. exists x, 800, text. repeat split; [exact Hx|lia|lia].
    + apply (IH (800 - 15)); [lia|exact Hin].
  - intros Hin. apply in_app_or in Hin as [Hin|Hin].
    + apply draw_cells_In in Hin as (x & text & -> & Hx).
      right. exists x, y0, text. repeat split; [exact Hx|lia|lia].
    + apply (IH (y0 - 15)); [lia|exact Hin].
Qed.

(** X17: Whatever the number of rows, the export draws every text between the
    heights 50 and 800 of a page and at one of its seven columns. *)
Theorem draw_pdf_on_the_page (pdf_title : string) (bookings : list models.Booking.t)
  (x y : Z) (text : string) :
  In (drawString x y text) (draw_pdf pdf_title bookings) ->
  50 <= y <= 800 /\ In x (70 :: x_positions).
Proof.
  unfold draw_pdf. cbn [app]. intros [H|[H|[H|H]]]; try discriminate H.
  - inversion H; subst. split; [lia|left; reflexivity].
  - apply in_app_or in H as [H|H].
    + apply draw_cells_In in H as (x' & text' & H & Hx). inversion H; subst.
      split; [lia|right; exact Hx].
    + apply in_app_or in H as [H|H].
      * apply draw_rows_In in H as [H|(x' & y' & text' & H & Hx & Hy)]; [discriminate H| |lia].
        inversion H; subst. split; [exact Hy|right; exact Hx].
      * destruct H as [H|[H|[]]]; discriminate H.
Qed.

Lemma drawn_texts_app (a b : list canvas_op) :
  drawn_texts (a ++ b) = (drawn_texts a ++ drawn_texts b)%list.
Proof. unfold drawn_texts. apply flat_map_app. Qed.

Lemma drawn_texts_cells (y_position : Z) (items : list string) :
  (List.length items <= 6)%nat -> drawn_texts (draw_cells y_position items) = items.
Proof.
  unfold draw_cells, x_positions, drawn_texts.
  destruct items as [|a [|b [|c [|d [|e [|f [|g items]]]]]]]; cbn; intros H;
    try reflexivity; lia.
Qed.

Lemma drawn_texts_rows (bookings : list models.Booking.t) :
  forall y_position,
    drawn_texts (draw_rows y_position bookings) = flat_map row_data bookings.
Proof.
  induction bookings as [|b rest IH]; intros y0; [reflexivity|].
  cbn [draw_rows flat_map]. destruct (y0 <? 50).
  - change (showPage :: ?l) with ([showPage] ++ l)%list.
    rewrite !drawn_texts_app, IH, drawn_texts_cells by (cbn; lia). reflexivity.
  - rewrite drawn_texts_app, IH, drawn_texts_cells by (cbn; lia). reflexivity.
Qed.

(** X18: The export draws its title, the six headers and then the six cells of
    every row, row after row: a page break loses and repeats nothing. *)
Theorem draw_pdf_texts (pdf_title : string) (bookings : list models.Booking.t) :
  drawn_texts (draw_pdf pdf_title bookings)
  = (pdf_title :: headers ++ flat_map row_data bookings)%list.
Proof.
  unfold draw_pdf.
  change [setTitle "Lista Prenotazioni Fela!"; drawString 70 800 pdf_title;
          line 70 795 525 795]
    with ([setTitle "Lista Prenotazioni Fela!"; drawString 70 800 pdf_title;
           line 70 795 525 795] ++ [])%list.
  rewrite !drawn_texts_app, drawn_texts_rows, drawn_texts_cells by (cbn; lia).
  cbn. rewrite app_nil_r. reflexivity.
Qed.

Lemma pages_shown_app (a b : list canvas_op) :
  pages_shown (a ++ b) = pages_shown a + pages_shown b.
Proof. unfold pages_shown. rewrite filter_app, length_app. lia. Qed.

Lemma pages_shown_cells (y_position : Z) (items : list string) :
  pages_shown (draw_cells y_position items) = 0.
Proof.
  unfold pages_shown, draw_cells. rewrite filter_all_false; [reflexivity|].
  intros op Hop. apply in_map_iff in Hop as (cell & <- & _). reflexivity.
Qed.

(** Rows that fit on the page from the height [y_position] down. *)
Lemma pages_shown_rows (bookings : list models.Booking.t) :
  forall y_position,
    pages_shown (draw_rows y_position bookings)
    = (Z.max 0 (Z.of_nat (List.length bookings)
                - (if y_position <? 50 then 0 else (y_position - 50) / 15 + 1)) + 50) / 51.
Proof.
  induction bookings as [|b rest IH]; intros y0.
  - cbn [draw_rows List.length]. change (pages_shown []) with 0.
    destruct (Z.ltb_spec y0 50); Z.div_mod_to_equations; lia.
  - cbn [draw_rows List.length]. rewrite Nat2Z.inj_succ.
    destruct (Z.ltb_spec y0 50) as [Hlow|Hok].
    + change (showPage :: ?l) with ([showPage] ++ l)%list.
      rewrite !pages_shown_app, pages_shown_cells, IH.
      change (pages_shown [showPage]) with 1.
      change (800 - 15 <? 50) with false. cbv iota.
      change ((800 - 15 - 50) / 15 + 1) with 50.
      Z.div_mod_to_equations. lia.
    + rewrite pages_shown_app, pages_shown_cells, IH.
      destruct (Z.ltb_spec (y0 - 15) 50); Z.div_mod_to_equations; lia.
Qed.

(** X19: The export fills the first page with 47 rows and every later page
    with 51, and ends its last page once: [n] rows make 1 page up to 47
    rows, and one page more for every 51 rows begun after them. *)
Theorem draw_pdf_pages (pdf_title : string) (bookings : list models.Booking.t) :
  pages_shown (draw_pdf pdf_title bookings)
  = 1 + (Z.max 0 (Z.of_nat (List.length bookings) - 47) + 50) / 51.
Proof.
  unfold draw_pdf.
  rewrite !pages_shown_app, pages_shown_cells, pages_shown_rows.
  change (pages_shown [setTitle "Lista Prenotazioni Fela!"; drawString 70 800 pdf_title;
                       line 70 795 525 795]) with 0.
  change (pages_shown [showPage; save]) with 1.
  change (770 - 20 <? 50) with false. cbv iota.
  change ((770 - 20 - 50) / 15 + 1) with 47. lia.
Qed.

(** ** The further properties at the sample states *)

Lemma stored_email_example :
  In ada_jazz (bookings jazz_db)
  /\ models.Booking.email ada_jazz = schemas.BookingCreate.email ada_quiz_request
  /\ bookings (snd (create_booking ada_quiz_request "token-ada-2" jazz_db)) = [ada_jazz]
  /\ special_events (snd (create_booking ada_quiz_request "token-ada-2" jazz_db))
     = [jazz_night; quiz_night].
Proof.
  split; [left; reflexivity|]. split; [reflexivity|].
  destruct (stored_email_never_stored_again ada_quiz_request "token-ada-2" jazz_db
              ada_jazz (or_introl eq_refl) eq_refl) as (Hbookings & Hevents & _).
  split; [exact Hbookings|exact Hevents].
Defined.

Lemma writing_handlers_keep_constraints_example :
  wf_db jazz_db
  /\ wf_db (snd (create_booking bob_jazz_request "token-bob" jazz_db))
  /\ wf_db (snd (delete_special_event (Some "secret") 1 admin_secret jazz_db)).
Proof.
  split; [exact jazz_db_wf|].
  destruct (writing_handlers_keep_constraints jazz_db jazz_db_wf)
    as (Hcreate & _ & _ & Hdelete).
  split; [apply Hcreate|apply Hdelete].
Defined.

Lemma dinner_db_within_capacity : within_capacity dinner_db.
Proof.
  split.
  - intros b [<-|[]]. cbn. lia.
  - intros request. rewrite booked_guests_bucket. cbn [bookings dinner_db List.filter].
    destruct (in_bucket request carla_dinner); vm_compute; discriminate.
Qed.

Lemma handlers_keep_capacity_example :
  within_capacity dinner_db
  /\ within_capacity
       (snd (create_booking (dinner_request "Dario" "dario@example.com" 5)
                            "token-dario" dinner_db)).
Proof.
  split; [exact dinner_db_within_capacity|].
  apply (proj1 (handlers_keep_capacity dinner_db dinner_db_within_capacity)).
  vm_compute. discriminate.
Defined.

Lemma create_then_cancel_example :
  create_booking (dinner_request "Dario" "dario@example.com" 5) "token-dario" dinner_db
  = (Return (dario_row 5), mk_Db [carla_dinner; dario_row 5] [] 2 0)
  /\ cancel_booking "token-dario" (mk_Db [carla_dinner; dario_row 5] [] 2 0)
     = (Return cancel_success_message, mk_Db [carla_dinner] [] 2 0).
Proof.
  split; [reflexivity|].
  exact (proj2 (create_then_cancel (dinner_request "Dario" "dario@example.com" 5)
                  "token-dario" dinner_db _ (dario_row 5) eq_refl)).
Defined.

Lemma create_then_delete_special_event_example :
  wf_db jazz_db
  /\ create_special_event (Some "secret") karaoke admin_secret jazz_db
     = (Return (new_special_event karaoke 3),
        mk_Db [ada_jazz] [jazz_night; quiz_night; new_special_event karaoke 3] 1 3)
  /\ delete_special_event (Some "secret") 3 admin_secret
       (mk_Db [ada_jazz] [jazz_night; quiz_night; new_special_event karaoke 3] 1 3)
     = (Return (new_special_event karaoke 3), mk_Db [ada_jazz] [jazz_night; quiz_night] 1 3).
Proof.
  split; [exact jazz_db_wf|]. split; [reflexivity|].
  exact (create_then_delete_special_event (Some "secret") karaoke admin_secret jazz_db _
           (new_special_event karaoke 3) jazz_db_wf eq_refl).
Defined.

Lemma cancel_frees_capacity_example :
  wf_db dinner_db
  /\ booked_guests (dinner_request "Dario" "dario@example.com" 25) dinner_db = 20
  /\ booked_guests (dinner_request "Dario" "dario@example.com" 25)
       (snd (cancel_booking "token-carla" dinner_db)) = 0.
Proof.
  split; [exact dinner_db_wf|]. split; [reflexivity|].
  rewrite (cancel_frees_capacity "token-carla" dinner_db carla_dinner dinner_db_wf
             (or_introl eq_refl) eq_refl).
  reflexivity.
Defined.

Lemma delete_special_event_frees_capacity_example :
  booked_guests ada_quiz_request quiz_db = 8
  /\ booked_guests ada_quiz_request
       (snd (delete_special_event (Some "secret") 2 admin_secret quiz_db)) = 0.
Proof.
  split; [reflexivity|].
  rewrite (delete_special_event_frees_capacity (Some "secret") 2 admin_secret quiz_db
             (snd (delete_special_event (Some "secret") 2 admin_secret quiz_db))
             quiz_night eq_refl).
  reflexivity.
Defined.

Lemma get_bookable_events_overflow_example :
  datetime.valid_date (datetime.MAXORDINAL - 10)
  /\ get_bookable_events 56 (datetime.MAXORDINAL - 10) jazz_db = Some (Raise OverflowError).
Proof.
  assert (V : datetime.valid_date (datetime.MAXORDINAL - 10))
    by (split; vm_compute; discriminate).
  split; [exact V|].
  apply (get_bookable_events_overflow 56 (datetime.MAXORDINAL - 10) jazz_db (le_n 56) V).
  vm_compute. reflexivity.
Defined.

Lemma created_event_in_catalog_example :
  exists events,
    get_bookable_events 56 thursday
      (snd (create_special_event (Some "secret") karaoke admin_secret jazz_db))
    = Some (Return events)
    /\ In (special_entry (new_special_event karaoke 3)) events.
Proof.
  destruct (get_bookable_events 56 thursday
              (snd (create_special_event (Some "secret") karaoke admin_secret jazz_db)))
    as [[events|e]|] eqn:Hcat; try (vm_compute in Hcat; discriminate Hcat).
  exists events. split; [reflexivity|].
  apply (created_event_in_catalog (Some "secret") karaoke admin_secret jazz_db _
           (new_special_event karaoke 3) 56 thursday events eq_refl Hcat).
  vm_compute. discriminate.
Defined.

Lemma admin_endpoints_refuse_other_credentials_example :
  read_special_events (Some "secret") (mk_credentials "admin" "guess") jazz_db
  = (Raise (HTTPException 401 "Credenziali non valide"), jazz_db)
  /\ delete_special_event (Some "secret") 1 (mk_credentials "staff" "secret") jazz_db
     = (Raise (HTTPException 401 "Credenziali non valide"), jazz_db).
Proof.
  split.
  - apply (admin_endpoints_refuse_other_credentials (Some "secret")
             (mk_credentials "admin" "guess") jazz_db 0 10 None None None karaoke 1).
    right. discriminate.
  - apply (admin_endpoints_refuse_other_credentials (Some "secret")
             (mk_credentials "staff" "secret") jazz_db 0 10 None None None karaoke 1).
    left. discriminate.
Defined.

Lemma get_all_bookings_page_example :
  exists page,
    get_all_bookings (Some "secret") admin_secret listing_db 1 1 None None None
    = (Return page, listing_db)
    /\ total page = 3
    /\ Z.of_nat (List.length (page_bookings page)) = 1.
Proof.
  eexists. split; [reflexivity|].
  destruct (get_all_bookings_page (Some "secret") admin_secret listing_db listing_db
              1 1 None None None _ eq_refl) as (_ & Htotal & Hlength & _).
  split; [exact Htotal|exact Hlength].
Defined.

Lemma export_bookings_rows_example :
  exists rows,
    export_bookings_to_pdf (Some "secret") admin_secret listing_db None None None 2
    = (Return rows, listing_db)
    /\ Z.of_nat (List.length rows) = 2
    /\ StronglySorted (fun a b => booking_asc_leb a b = true) rows.
Proof.
  eexists. split; [reflexivity|].
  destruct (export_bookings_rows (Some "secret") admin_secret listing_db listing_db
              None None None 2 _ eq_refl) as (_ & Hlength & Hsorted & _).
  split; [exact Hlength|exact Hsorted].
Defined.

Lemma read_special_events_sorted_example :
  exists events,
    read_special_events (Some "secret") admin_secret jazz_db = (Return events, jazz_db)
    /\ Permutation events [jazz_night; quiz_night].
Proof.
  eexists. split; [reflexivity|].
  exact (proj1 (proj2 (read_special_events_sorted (Some "secret") admin_secret jazz_db
                         jazz_db _ eq_refl))).
Defined.

Lemma draw_pdf_on_the_page_example :
  In (drawString 80 750 "Carla") (draw_pdf "Lista" [carla_dinner])
  /\ 50 <= 750 <= 800.
Proof.
  assert (H : In (drawString 80 750 "Carla") (draw_pdf "Lista" [carla_dinner]))
    by (vm_compute; tauto).
  split; [exact H|].
  exact (proj1 (draw_pdf_on_the_page "Lista" [carla_dinner] 80 750 "Carla" H)).
Defined.
